(** * logchain: the ingestion and attestation pipeline, embedded in Rocq

    A shallow embedding of the Go sources of the trusted log attestation
    pipeline:

    - [ingestion/service/core/service.go]          (receipt service),
    - [ingestion/service/core/batch_processor.go]  (ingestion batcher),
    - [ingestion/service/http/handler.go]          (HTTP front end),
    - [internal/messaging/consumer], [.../producer] (Kafka wrappers),
    - [processing/worker.go]                       (attestation worker).

    Go strings are byte strings and are modelled by [string] (one [ascii]
    per byte).  A Go [error] is identified with the text of its [Error()]
    method.  Calls that leave the process (state store, ledger, Kafka,
    clock, UUID source) are operations of interfaces over an abstract world
    [W]; each component is a function in a small world/trace monad and the
    properties are stated over the trace of calls it performs. *)

From Stdlib Require Import ZArith List Ascii String Lia Bool.
From stdpp Require Import base option list gmap strings fin_maps.

Import ListNotations.
Local Open Scope string_scope.
Local Open Scope Z_scope.
Local Open Scope list_scope.

(** String concatenation, written as Go's [+] on strings. *)
Infix "+++" := String.append (right associativity, at level 60).

(* ===================================================================== *)
(** * Part I: definitions                                                 *)
(* ===================================================================== *)

(** ** Go strings as byte lists *)

Module GoString.

Definition bytes (s : string) : list Z :=
  List.map (fun c => Z.of_N (N_of_ascii c)) (list_ascii_of_string s).

Definition eqb (a b : string) : bool := String.eqb a b.

Definition is_empty (s : string) : bool := eqb s EmptyString.

(** [strconv.FormatInt(n, 10)] on a non-negative argument; the sign is
    added by [format_int]. *)
Fixpoint format_nat_digits (fuel : nat) (n : Z) (acc : string) : string :=
  match fuel with
  | O => acc
  | S fuel' =>
      let d := ascii_of_N (Z.to_N (48 + n mod 10)) in
      let acc' := String d acc in
      if n / 10 =? 0 then acc' else format_nat_digits fuel' (n / 10) acc'
  end.

Definition format_int (n : Z) : string :=
  if n <? 0
  then String "-" (format_nat_digits (Z.to_nat (Z.log2 (- n)) + 1) (- n) EmptyString)
  else format_nat_digits (Z.to_nat (Z.log2 n) + 1) n EmptyString.

(** Left padding with ['0'] up to [width] characters ([%02d], [%04d],
    [%09d] on non-negative numbers). *)
Fixpoint zeros (n : nat) : string :=
  match n with O => EmptyString | S n' => String "0" (zeros n') end.

Definition pad_int (width : nat) (n : Z) : string :=
  let s := format_int n in
  zeros (width - String.length s) +++ s.

Definition contains_byte (c : ascii) (s : string) : bool :=
  existsb (Ascii.eqb c) (list_ascii_of_string s).

End GoString.

(** ** SHA-256 ([crypto/sha256.Sum256]) and [%x] formatting *)

Module Sha256.

Definition w32 (x : Z) : Z := x mod 2 ^ 32.
Definition add32 (a b : Z) : Z := w32 (a + b).
Definition rotr (n x : Z) : Z :=
  Z.lor (Z.shiftr x n) (w32 (Z.shiftl x (32 - n))).
Definition shr (n x : Z) : Z := Z.shiftr x n.
Definition not32 (x : Z) : Z := Z.lxor x 4294967295.

Definition Ch (x y z : Z) : Z := Z.lxor (Z.land x y) (Z.land (not32 x) z).
Definition Maj (x y z : Z) : Z :=
  Z.lxor (Z.lxor (Z.land x y) (Z.land x z)) (Z.land y z).
Definition Sigma0 (x : Z) : Z := Z.lxor (Z.lxor (rotr 2 x) (rotr 13 x)) (rotr 22 x).
Definition Sigma1 (x : Z) : Z := Z.lxor (Z.lxor (rotr 6 x) (rotr 11 x)) (rotr 25 x).
Definition sigma0 (x : Z) : Z := Z.lxor (Z.lxor (rotr 7 x) (rotr 18 x)) (shr 3 x).
Definition sigma1 (x : Z) : Z := Z.lxor (Z.lxor (rotr 17 x) (rotr 19 x)) (shr 10 x).

(** The constants are derived the way FIPS 180-4 defines them: the
    first 32 bits of the fractional parts of the cube roots (round
    constants) and of the square roots (initial hash value) of the first
    primes. *)
Definition is_prime (n : Z) : bool :=
  (1 <? n) && forallb (fun d => negb (n mod d =? 0))
                      (List.map Z.of_nat (List.seq 2 (Z.to_nat (Z.sqrt n) - 1))).

Definition primes (count : nat) : list Z :=
  List.firstn count (List.filter is_prime (List.map Z.of_nat (List.seq 2 320))).

(** Integer cube root, one bit at a time. *)
Fixpoint icbrt_bits (n : nat) (x r : Z) : Z :=
  match n with
  | O => r
  | S n' =>
      let c := r + 2 ^ Z.of_nat n' in
      if c * c * c <=? x then icbrt_bits n' x c else icbrt_bits n' x r
  end.

Definition icbrt (x : Z) : Z := icbrt_bits 40 x 0.

Definition K : list Z :=
  Eval vm_compute in List.map (fun p => w32 (icbrt (p * 2 ^ 96))) (primes 64).

Definition H0 : list Z :=
  Eval vm_compute in List.map (fun p => w32 (Z.sqrt (p * 2 ^ 64))) (primes 8).

(** Big-endian encoding of [x] on [n] bytes. *)
Fixpoint be_bytes (n : nat) (x : Z) : list Z :=
  match n with
  | O => []
  | S n' => (Z.shiftr x (8 * Z.of_nat n')) mod 256 :: be_bytes n' x
  end.

(** Message padding: a [0x80] byte, zeros up to 56 mod 64, then the bit
    length on eight bytes. *)
Definition pad (msg : list Z) : list Z :=
  let len := Z.of_nat (List.length msg) in
  let k := (55 - len) mod 64 in
  msg ++ [128] ++ List.repeat 0 (Z.to_nat k) ++ be_bytes 8 (8 * len).

Fixpoint words_of_bytes (l : list Z) : list Z :=
  match l with
  | a :: b :: c :: d :: rest =>
      (Z.shiftl a 24 + Z.shiftl b 16 + Z.shiftl c 8 + d) :: words_of_bytes rest
  | _ => []
  end.

Fixpoint blocks (fuel : nat) (ws : list Z) : list (list Z) :=
  match fuel with
  | O => []
  | S fuel' =>
      match ws with
      | [] => []
      | _ => List.firstn 16 ws :: blocks fuel' (List.skipn 16 ws)
      end
  end.

Definition nthw (l : list Z) (i : nat) : Z := List.nth i l 0.

(** Message schedule: [w] holds W[0..t-1]; extend it to 64 words. *)
Fixpoint schedule (n : nat) (w : list Z) : list Z :=
  match n with
  | O => w
  | S n' =>
      let t := List.length w in
      let x := add32 (add32 (sigma1 (nthw w (t - 2))) (nthw w (t - 7)))
                     (add32 (sigma0 (nthw w (t - 15))) (nthw w (t - 16))) in
      schedule n' (w ++ [x])
  end.

Record regs := Regs { ra : Z; rb : Z; rc : Z; rd : Z; re : Z; rf : Z; rg : Z; rh : Z }.

Definition round (s : regs) (kw : Z * Z) : regs :=
  let (k, w) := kw in
  let t1 := add32 (add32 (add32 (add32 (rh s) (Sigma1 (re s))) (Ch (re s) (rf s) (rg s))) k) w in
  let t2 := add32 (Sigma0 (ra s)) (Maj (ra s) (rb s) (rc s)) in
  Regs (add32 t1 t2) (ra s) (rb s) (rc s) (add32 (rd s) t1) (re s) (rf s) (rg s).

Definition regs_of (h : list Z) : regs :=
  Regs (nthw h 0) (nthw h 1) (nthw h 2) (nthw h 3)
       (nthw h 4) (nthw h 5) (nthw h 6) (nthw h 7).

Definition compress (h : list Z) (block : list Z) : list Z :=
  let w := schedule 48 block in
  let s := List.fold_left round (List.combine K w) (regs_of h) in
  [ add32 (nthw h 0) (ra s); add32 (nthw h 1) (rb s);
    add32 (nthw h 2) (rc s); add32 (nthw h 3) (rd s);
    add32 (nthw h 4) (re s); add32 (nthw h 5) (rf s);
    add32 (nthw h 6) (rg s); add32 (nthw h 7) (rh s) ].

(** [sha256.Sum256]: the 32 digest bytes. *)
Definition Sum256 (msg : list Z) : list Z :=
  let ws := words_of_bytes (pad msg) in
  let h := List.fold_left compress (blocks (List.length ws) ws) H0 in
  List.concat (List.map (be_bytes 4) h).

Definition hex_digit (d : Z) : ascii :=
  ascii_of_N (Z.to_N (if d <? 10 then 48 + d else 87 + d)).

(** [fmt.Sprintf("%x", digest)]: two lower-case hex digits per byte. *)
Fixpoint hex (l : list Z) : string :=
  match l with
  | [] => EmptyString
  | b :: rest => String (hex_digit (b / 16)) (String (hex_digit (b mod 16)) (hex rest))
  end.

Definition hex_sum (s : string) : string := hex (Sum256 (GoString.bytes s)).

End Sha256.

(** ** Regular expressions ([regexp.MatchString])

    Only the operators of the pattern used by the HTTP handler are needed.
    [Dot] is Go's [.]: any character except a line feed (the default flags
    of [regexp.Compile] do not include [s]).  [Any] is used for the
    unanchored search only.  The literals of the pattern are ASCII, so that
    matching byte by byte agrees with matching rune by rune. *)

Module Regexp.

Inductive re : Type :=
| Void : re
| Eps : re
| Lit : ascii -> re
| Dot : re
| Any : re
| Cat : re -> re -> re
| Alt : re -> re -> re
| Star : re -> re.

Fixpoint nullable (r : re) : bool :=
  match r with
  | Void => false
  | Eps => true
  | Lit _ => false
  | Dot => false
  | Any => false
  | Cat a b => nullable a && nullable b
  | Alt a b => nullable a || nullable b
  | Star _ => true
  end.

Definition cat (a b : re) : re :=
  match a, b with
  | Void, _ => Void
  | _, Void => Void
  | Eps, _ => b
  | _, _ => Cat a b
  end.

Definition alt (a b : re) : re :=
  match a, b with
  | Void, _ => b
  | _, Void => a
  | _, _ => Alt a b
  end.

Definition line_feed : ascii := ascii_of_N 10.

(** Brzozowski derivative. *)
Fixpoint deriv (c : ascii) (r : re) : re :=
  match r with
  | Void => Void
  | Eps => Void
  | Lit d => if Ascii.eqb c d then Eps else Void
  | Dot => if Ascii.eqb c line_feed then Void else Eps
  | Any => Eps
  | Cat a b =>
      if nullable a
      then alt (cat (deriv c a) b) (deriv c b)
      else cat (deriv c a) b
  | Alt a b => alt (deriv c a) (deriv c b)
  | Star a => cat (deriv c a) (Star a)
  end.

Fixpoint full_match (r : re) (s : string) : bool :=
  match s with
  | EmptyString => nullable r
  | String c s' => full_match (deriv c r) s'
  end.

Fixpoint lit_string (s : string) : re :=
  match s with
  | EmptyString => Eps
  | String c s' => Cat (Lit c) (lit_string s')
  end.

(** [regexp.MatchString(pattern, s)]: does [s] contain a match. *)
Definition MatchString (r : re) (s : string) : bool :=
  full_match (Cat (Star Any) (Cat r (Star Any))) s.

End Regexp.

(** ** [time.Time] and [Format(time.RFC3339Nano)] *)

Module GoTime.

(** A wall-clock reading: seconds and nanoseconds since the Unix epoch,
    and the offset of the value's location east of UTC in seconds. *)
Record Time := mkTime { unixSec : Z; nsec : Z; zoneOffset : Z }.

Definition Unix (t : Time) : Z := unixSec t.

(** Proleptic Gregorian date of a day number counted from 1970-01-01. *)
Definition civil (days : Z) : Z * Z * Z :=
  let z := days + 719468 in
  let era := z / 146097 in
  let doe := z - era * 146097 in
  let yoe := (doe - doe / 1460 + doe / 36524 - doe / 146096) / 365 in
  let doy := doe - (365 * yoe + yoe / 4 - yoe / 100) in
  let mp := (5 * doy + 2) / 153 in
  let d := doy - (153 * mp + 2) / 5 + 1 in
  let m := if mp <? 10 then mp + 3 else mp - 9 in
  let y := yoe + era * 400 + (if m <=? 2 then 1 else 0) in
  (y, m, d).

(** The [.999999999] verb: fractional seconds without trailing zeros,
    nothing at all when the fraction is zero. *)
Fixpoint strip_zeros (fuel : nat) (n : Z) (width : nat) : string :=
  match fuel with
  | O => GoString.pad_int width n
  | S fuel' =>
      if n mod 10 =? 0
      then strip_zeros fuel' (n / 10) (width - 1)
      else GoString.pad_int width n
  end.

Definition fraction (ns : Z) : string :=
  if ns =? 0 then EmptyString else "." +++ strip_zeros 9 ns 9.

(** The [Z07:00] verb. *)
Definition zone (off : Z) : string :=
  if off =? 0 then "Z"
  else
    let a := Z.abs off in
    (if off <? 0 then "-" else "+")
      +++ GoString.pad_int 2 (a / 3600) +++ ":"
      +++ GoString.pad_int 2 ((a mod 3600) / 60).

(** [t.Format(time.RFC3339Nano)], layout
    [2006-01-02T15:04:05.999999999Z07:00]. *)
Definition FormatRFC3339Nano (t : Time) : string :=
  let abs := unixSec t + zoneOffset t in
  let '(y, m, d) := civil (abs / 86400) in
  let sod := abs mod 86400 in
  GoString.pad_int 4 y +++ "-" +++ GoString.pad_int 2 m +++ "-"
    +++ GoString.pad_int 2 d +++ "T"
    +++ GoString.pad_int 2 (sod / 3600) +++ ":"
    +++ GoString.pad_int 2 ((sod mod 3600) / 60) +++ ":"
    +++ GoString.pad_int 2 (sod mod 60)
    +++ fraction (nsec t) +++ zone (zoneOffset t).

(** [strconv.FormatInt(t.Unix(), 10)]: the unix-second string. *)
Definition FormatUnixSeconds (t : Time) : string :=
  GoString.format_int (Unix t).

End GoTime.

(** ** JSON objects handled by [encoding/json]

    Every payload of the pipeline is a flat object of strings and numbers. *)

Inductive JValue : Type :=
| JStr : string -> JValue
| JNum : Z -> JValue.

Definition JSONObject : Type := list (string * JValue).

(** ** Data model *)

(** A Go [error], identified with the text of [Error()]. *)
Definition error : Type := string.

(** [models.LogMessage]: the queue payload. *)
Record LogMessage := mkLogMessage {
  msg_RequestID : string;
  msg_LogContent : string;
  msg_LogHash : string;
  msg_SourceOrgID : string;
  msg_ReceivedTimestamp : string
}.

(** [core.LogInput] and [core.LogResult]. *)
Record LogInput := mkLogInput {
  in_LogContent : string;
  in_ClientLogHash : string;
  in_ClientSourceOrgID : string;
  in_ClientTimestamp : option GoTime.Time
}.

Record LogResult := mkLogResult {
  res_RequestID : string;
  res_ServerLogHash : string;
  res_ServerReceivedTimestamp : GoTime.Time
}.

(** [types.LogEntry], [types.LogStatusInfo], [types.BatchProof].
    [LogProcessingStatus] is a Go string type. *)
Record LogEntry := mkLogEntry {
  le_LogHash : string;
  le_LogContent : string;
  le_SenderOrgID : string;
  le_Timestamp : string
}.

Definition LogProcessingStatus : Type := string.
Definition StatusSuccess : LogProcessingStatus := "Success".
Definition StatusSkippedDuplicate : LogProcessingStatus := "SkippedDuplicate".
Definition StatusErrorValidation : LogProcessingStatus := "ErrorValidation".
Definition StatusErrorStateCheck : LogProcessingStatus := "ErrorStateCheck".
Definition StatusErrorPutState : LogProcessingStatus := "ErrorPutState".

Record LogStatusInfo := mkLogStatusInfo {
  si_LogHash : string;
  si_Status : LogProcessingStatus;
  si_Message : string
}.

Record BatchProof := mkBatchProof {
  bp_TransactionID : string;
  bp_BlockHeight : Z
}.

(** Modelled from the spec: the declarations of package [storage/store]
    ([Status], [LogStatus], [CompletionRecord], [FailureRecord], the
    [Store] interface) are not part of the sources at hand.  The fields
    are those the callers use, completed by the columns of section 3 of
    the specification and of [scripts/db/init-db.sql] (the [*_at] time
    stamps are left out). *)
Inductive Status : Type :=
| StatusReceived
| StatusProcessing
| StatusCompleted
| StatusFailed.

Global Instance Status_eq_dec : EqDecision Status.
Proof. solve_decision. Defined.

Record LogStatus := mkLogStatus {
  ls_RequestID : string;
  ls_LogHash : string;
  ls_SourceOrgID : string;
  ls_ReceivedTimestamp : GoTime.Time;
  ls_Status : Status;
  ls_RetryCount : Z;
  ls_ErrorMessage : string;
  ls_TxHash : string;
  ls_BlockHeight : Z;
  ls_LogHashOnChain : string
}.

Record CompletionRecord := mkCompletionRecord {
  cr_RequestID : string;
  cr_TxHash : string;
  cr_LogHashOnChain : string;
  cr_BlockHeight : Z
}.

Record FailureRecord := mkFailureRecord {
  fr_RequestID : string;
  fr_ErrorMessage : string
}.

(** [kafka.Message], reduced to the fields in use. *)
Record KafkaMessage := mkKafkaMessage {
  km_Key : string;
  km_Value : string;
  km_Offset : Z
}.

(** The request and response of [POST /v1/logs]. *)
Record ReqPayload := mkReqPayload {
  rp_LogContent : string;
  rp_ClientLogHash : string;
  rp_ClientSourceOrgID : string;
  rp_ClientTimestamp : string
}.

Record Request := mkRequest {
  rq_Method : string;
  rq_ContentType : string;      (* r.Header.Get("Content-Type") *)
  rq_XClientOrgID : string;     (* r.Header.Get("X-Client-Org-ID") *)
  rq_ContentLength : Z;         (* r.ContentLength, -1 when unknown *)
  rq_Body : string
}.

(** [core.batchEntry]. *)
Record batchEntry := mkBatchEntry {
  be_input : LogInput;
  be_requestID : string
}.

(** ** Calls observed on the outside

    Every call that leaves the component is recorded together with its
    result.  Log lines are recorded when their text does not depend on
    measured durations. *)

(** What an acknowledgement callback may do. *)
Inductive AckEvent : Type :=
| ACommitMessages (m : KafkaMessage) (res : option error)
| ALog (line : string).

(** What a producer may do while it publishes. *)
Inductive ProducerEvent : Type :=
| PWriteMessages (msgs : list KafkaMessage) (res : option error)
| PLog (line : string).

Inductive Event : Type :=
(* store.Store *)
| EInsertLogStatusBatch (rows : list LogStatus) (res : option error)
| EGetAndMarkBatchAsProcessing (ids : list string) (maxRetries : Z)
    (res : error + gmap string LogStatus)
| EMarkBatchForRetry (ids : list string) (msg : string) (res : option error)
| EMarkBatchAsCompleted (recs : list CompletionRecord) (res : option error)
| EMarkBatchAsFailed (recs : list FailureRecord) (res : option error)
(* blockchain.BlockchainClient *)
| ESubmitLogsBatch (entries : list LogEntry)
    (res : error + (BatchProof * list LogStatusInfo))
(* producer.Producer *)
| EInPublish (e : ProducerEvent)
| EPublishBatch (msgs : list LogMessage) (res : option error)
(* kafka.Reader *)
| EFetchMessage (res : error + KafkaMessage)
| ECommitMessages (m : KafkaMessage) (res : option error)
(* acknowledgement callbacks of the worker *)
| EAck (i : nat) (success : bool)
| EInAck (i : nat) (e : AckEvent)
(* clock, UUID source, goroutines *)
| ENow (t : GoTime.Time)
| ENewUUID (id : string)
| EGoSubmitLog (input : LogInput) (requestID : string)
(* HTTP *)
| EDecodeBody (res : error + ReqPayload)
| ERespond (status : Z) (body : JSONObject)
(* log.Logger *)
| ELog (line : string).

(** ** The world monad

    A computation runs from a world, ends normally or with a Go panic,
    and leaves a world and the trace of its calls. *)

Inductive Outcome (A : Type) : Type :=
| Done (a : A)
| Panic (why : string).
Arguments Done {A} a.
Arguments Panic {A} why.

Definition M (W A : Type) : Type := W -> Outcome A * W * list Event.

Definition ret {W A} (a : A) : M W A := fun w => (Done a, w, []).

Definition bind {W A B} (c : M W A) (k : A -> M W B) : M W B :=
  fun w =>
    match c w with
    | (Done a, w1, t1) =>
        match k a w1 with
        | (o, w2, t2) => (o, w2, t1 ++ t2)
        end
    | (Panic why, w1, t1) => (Panic why, w1, t1)
    end.

Definition panic {W A} (why : string) : M W A := fun w => (Panic why, w, []).

(** A call of an interface operation, recorded with its result. *)
Definition call {W A} (op : W -> W * A) (ev : A -> Event) : M W A :=
  fun w => let (w1, a) := op w in (Done a, w1, [ev a]).

Definition emit {W} (e : Event) : M W unit := fun w => (Done tt, w, [e]).

Definition logf {W} (line : string) : M W unit := emit (ELog line).

Notation "'let*' x ':=' c 'in' k" := (bind c (fun x => k))
  (at level 10, x pattern, c at level 100, k at level 200).
Notation "'run' c 'in' k" := (bind c (fun _ => k))
  (at level 10, c at level 100, k at level 200).

Definition outcome {W A} (r : Outcome A * W * list Event) : Outcome A := r.1.1.
Definition final {W A} (r : Outcome A * W * list Event) : W := r.1.2.
Definition trace {W A} (r : Outcome A * W * list Event) : list Event := r.2.

(** [for i, x := range l { body }] over a slice. *)
Fixpoint for_each {W A} (body : nat -> A -> M W unit) (i : nat) (l : list A) : M W unit :=
  match l with
  | [] => ret tt
  | x :: rest => run body i x in for_each body (S i) rest
  end.

(** ** Interfaces *)

(** Modelled from the spec: [store.Store], whose declaration is not part
    of the sources at hand; the signatures are those of the call sites. *)
Class Store (W : Type) := {
  InsertLogStatusBatch : list LogStatus -> W -> W * option error;
  GetAndMarkBatchAsProcessing :
    list string -> Z -> W -> W * (error + gmap string LogStatus);
  MarkBatchForRetry : list string -> string -> W -> W * option error;
  MarkBatchAsCompleted : list CompletionRecord -> W -> W * option error;
  MarkBatchAsFailed : list FailureRecord -> W -> W * option error
}.

(** [blockchain.BlockchainClient] (the method the worker uses). *)
Class BlockchainClient (W : Type) := {
  SubmitLogsBatch :
    list LogEntry -> W -> W * (error + (BatchProof * list LogStatusInfo))
}.

(** [producer.Producer]: what the implementation does inside the call is
    reported as a list of [ProducerEvent]. *)
Class Producer (W : Type) := {
  PublishBatch : list LogMessage -> W -> W * option error * list ProducerEvent
}.

(** [kafka.Writer] and [kafka.Reader]. *)
Class KafkaWriter (W : Type) := {
  WriteMessages : list KafkaMessage -> W -> W * option error
}.

Class KafkaReader (W : Type) := {
  FetchMessage : W -> W * (error + KafkaMessage);
  CommitMessages : KafkaMessage -> W -> W * option error
}.

(** [time.Now] and [uuid.NewString]. *)
Class Clock (W : Type) := { Now : W -> W * GoTime.Time }.
Class UUIDSource (W : Type) := { NewString : W -> W * string }.

(** The parts of the Go libraries that are kept abstract: the serializer
    and the decoders of [encoding/json], and [time.Parse]. *)
Class GoLib := {
  json_Marshal : JSONObject -> string;
  json_Unmarshal_LogMessage : string -> error + LogMessage;
  json_Decode_ReqPayload : string -> error + ReqPayload;
  time_Parse_RFC3339Nano : string -> error + GoTime.Time
}.

(** The order in which [range] visits a Go map is unspecified: it is some
    enumeration of the entries. *)
Class GoMapRange := {
  map_range : forall {V : Type}, gmap string V -> list (string * V);
  map_range_perm : forall (V : Type) (m : gmap string V),
    map_range m ≡ₚ map_to_list m
}.

(** An acknowledgement callback [func(success bool)]. *)
Definition AckFn (W : Type) : Type := bool -> W -> W * list AckEvent.

(** [context.Context], reduced to the value of [ctx.Err()]. *)
Record Context := mkContext { ctx_Err : option error }.

Definition context_Canceled : error := "context canceled".

(** [errors.Is(err, context.Canceled)]; errors being texts, the chain of
    wrapped errors is not tracked. *)
Definition is_Canceled (err : error) : bool := String.eqb err context_Canceled.

(* ===================================================================== *)
(** ** Reading traces                                                     *)
(* ===================================================================== *)

(** The calls to the state store, the ledger and the producer. *)
Definition is_call (e : Event) : bool :=
  match e with
  | EInsertLogStatusBatch _ _ => true
  | EGetAndMarkBatchAsProcessing _ _ _ => true
  | EMarkBatchForRetry _ _ _ => true
  | EMarkBatchAsCompleted _ _ => true
  | EMarkBatchAsFailed _ _ => true
  | ESubmitLogsBatch _ _ => true
  | EPublishBatch _ _ => true
  | _ => false
  end.

Definition calls (tr : list Event) : list Event := List.filter is_call tr.

(** The acknowledgements, by index in the batch. *)
Definition ack_of (e : Event) : option (nat * bool) :=
  match e with
  | EAck i b => Some (i, b)
  | _ => None
  end.

Definition acks_of (tr : list Event) : list (nat * bool) := omap ack_of tr.

(** [all_acks b n]: the callbacks 0 .. n-1 were invoked in order with [b]. *)
Definition all_acks (b : bool) (n : nat) : list (nat * bool) :=
  List.map (fun i => (i, b)) (List.seq 0 n).

(** The terminal updates after a ledger call: one call per non-empty
    list of records. *)
Definition mark_calls (cs : list CompletionRecord) (r1 : option error)
    (fs : list FailureRecord) (r2 : option error) : list Event :=
  (if (0 <? List.length cs)%nat then [EMarkBatchAsCompleted cs r1] else [])
  ++ (if (0 <? List.length fs)%nat then [EMarkBatchAsFailed fs r2] else []).

(** A terminal update of row [id]: a [MarkBatchAsCompleted] or
    [MarkBatchAsFailed] call with a record for [id]; [res] is what the
    call returned. *)
Definition marks (e : Event) (id : string) (res : option error) : Prop :=
  match e with
  | EMarkBatchAsCompleted recs r => id ∈ List.map cr_RequestID recs ∧ r = res
  | EMarkBatchAsFailed recs r => id ∈ List.map fr_RequestID recs ∧ r = res
  | _ => False
  end.

(** The queue messages carry the receipt time as a unix-second string:
    every published message has the decimal seconds of some instant as
    its [ReceivedTimestamp]. *)
Definition unix_second_timestamps (tr : list Event) : Prop :=
  forall msgs res m,
    EPublishBatch msgs res ∈ tr -> m ∈ msgs ->
    exists t, msg_ReceivedTimestamp m = GoTime.FormatUnixSeconds t.

(** The rows a claim returned in [PROCESSING]. *)
Definition claimed_processing (tasks : gmap string LogStatus) : gmap string LogStatus :=
  filter (fun kv => ls_Status kv.2 = StatusProcessing) tasks.

(** The discipline "acknowledge positively only after the terminal
    updates": if the trace holds a positive acknowledgement, then every
    store and ledger call precedes every acknowledgement, and every row
    claimed into [PROCESSING] has a terminal update whose result
    satisfies [ok]. *)
Definition ack_after_marks (ok : option error -> Prop) (tr : list Event) : Prop :=
  (exists i, (i, true) ∈ acks_of tr) ->
  (exists pre post, tr = pre ++ post /\ acks_of pre = [] /\ calls post = []) /\
  (forall ids maxRetries tasks id row,
      EGetAndMarkBatchAsProcessing ids maxRetries (inr tasks) ∈ tr ->
      claimed_processing tasks !! id = Some row ->
      exists e res, e ∈ tr /\ marks e id res /\ ok res).

(* ===================================================================== *)
(** ** processing/worker.go                                               *)
(* ===================================================================== *)

Module Worker.
Section Defs.

Context {W : Type} `{!Store W} `{!BlockchainClient W} `{!GoMapRange}.

(** The field [maxTaskRetries] of the worker. *)
Variable maxTaskRetries : Z.

(** Lines 199-206: the request ids of the batch, in order, and the map
    from request id to message (a later message replaces an earlier one
    with the same id); messages with an empty id are skipped. *)
Definition collect_step (acc : list string * gmap string LogMessage) (msg : LogMessage)
  : list string * gmap string LogMessage :=
  if GoString.is_empty (msg_RequestID msg) then acc
  else (acc.1 ++ [msg_RequestID msg], <[msg_RequestID msg := msg]> acc.2).

Definition collect (batch : list LogMessage) : list string * gmap string LogMessage :=
  List.fold_left collect_step batch ([], ∅).

(** Lines 224-239: one turn of the loop over [tasksFromDB].  [None] is
    the nil dereference [msg.LogHash] when [msgMap] has no message for
    the request id. *)
Definition select_step (msgMap : gmap string LogMessage)
    (acc : gmap string LogStatus * list LogEntry) (kv : string * LogStatus)
  : option (gmap string LogStatus * list LogEntry) :=
  let (reqID, task) := kv in
  match ls_Status task with
  | StatusProcessing =>
      match msgMap !! reqID with
      | Some msg =>
          Some (<[reqID := task]> acc.1,
                acc.2 ++ [ {| le_LogHash := msg_LogHash msg;
                              le_LogContent := msg_LogContent msg;
                              le_SenderOrgID := msg_SourceOrgID msg;
                              le_Timestamp := msg_ReceivedTimestamp msg |} ])
      | None => None
      end
  | StatusFailed => Some acc
  | _ => Some acc
  end.

Fixpoint select_valid (msgMap : gmap string LogMessage)
    (l : list (string * LogStatus)) (acc : gmap string LogStatus * list LogEntry)
  : option (gmap string LogStatus * list LogEntry) :=
  match l with
  | [] => Some acc
  | kv :: rest =>
      match select_step msgMap acc kv with
      | Some acc' => select_valid msgMap rest acc'
      | None => None
      end
  end.

(** Lines 254-260. *)
Definition getValidRequestIDs (tasks : gmap string LogStatus) : list string :=
  List.map fst (map_range tasks).

(** Lines 270-273: a later result replaces an earlier one with the same
    log hash. *)
Definition resultsMap (results : list LogStatusInfo) : gmap string LogStatusInfo :=
  List.fold_left (fun m res => <[si_LogHash res := res]> m) results ∅.

(** Lines 279-305: one turn of the loop over [validTasks]. *)
Definition resolve_step (batchProof : BatchProof) (rm : gmap string LogStatusInfo)
    (acc : list CompletionRecord * list FailureRecord) (kv : string * LogStatus)
  : list CompletionRecord * list FailureRecord :=
  let (reqID, task) := kv in
  match rm !! ls_LogHash task with
  | None =>
      let errMsg := "Missing result for log_hash " +++ ls_LogHash task
                    +++ " (TxID: " +++ bp_TransactionID batchProof +++ ")" in
      (acc.1, acc.2 ++ [ {| fr_RequestID := reqID; fr_ErrorMessage := errMsg |} ])
  | Some statusInfo =>
      if String.eqb (si_Status statusInfo) StatusSuccess
      then (acc.1 ++ [ {| cr_RequestID := reqID;
                          cr_TxHash := bp_TransactionID batchProof;
                          cr_LogHashOnChain := si_LogHash statusInfo;
                          cr_BlockHeight := bp_BlockHeight batchProof |} ],
            acc.2)
      else
        let errMsg := "Contract failed: " +++ si_Status statusInfo
                      +++ " - " +++ si_Message statusInfo in
        (acc.1, acc.2 ++ [ {| fr_RequestID := reqID; fr_ErrorMessage := errMsg |} ])
  end.

Definition resolve (batchProof : BatchProof) (results : list LogStatusInfo)
    (validTasks : gmap string LogStatus)
  : list CompletionRecord * list FailureRecord :=
  List.fold_left (resolve_step batchProof (resultsMap results))
                 (map_range validTasks) ([], []).

(** [strings.Join(updateErrors, "; ")]. *)
Fixpoint join (sep : string) (l : list string) : string :=
  match l with
  | [] => EmptyString
  | [x] => x
  | x :: rest => x +++ sep +++ join sep rest
  end.

(** [handleBatch], lines 193-336.  The result is the returned error,
    [None] for [nil]. *)
Definition handleBatch (batch : list LogMessage) : M W (option error) :=
  if (List.length batch =? 0)%nat then ret None else
  let (requestIDs, msgMap) := collect batch in
  if (List.length requestIDs =? 0)%nat then ret None else
  (* 1. pre-process database status *)
  let* claimed := call (GetAndMarkBatchAsProcessing requestIDs maxTaskRetries)
                       (EGetAndMarkBatchAsProcessing requestIDs maxTaskRetries) in
  match claimed with
  | inl err => ret (Some ("DB error: GetAndMarkBatchAsProcessing failed: " +++ err))
  | inr tasksFromDB =>
      match select_valid msgMap (map_range tasksFromDB) (∅, []) with
      | None => panic "invalid memory address or nil pointer dereference"
      | Some (validTasks, validEntries) =>
          if (List.length validEntries =? 0)%nat then ret None else
          (* 2. call blockchain client *)
          let* submitted := call (SubmitLogsBatch validEntries)
                                 (ESubmitLogsBatch validEntries) in
          (* 3. process results *)
          match submitted with
          | inl err =>
              run logf ("Blockchain error: " +++ err) in
              let* markErr := call (MarkBatchForRetry (getValidRequestIDs validTasks) err)
                                   (EMarkBatchForRetry (getValidRequestIDs validTasks) err) in
              run match markErr with
                  | Some e => logf ("CRITICAL: MarkBatchForRetry failed: " +++ e)
                  | None => ret tt
                  end in
              ret (Some ("SubmitLogsBatch failed: " +++ err))
          | inr (batchProof, results) =>
              let (completions, failures) := resolve batchProof results validTasks in
              let* errs1 :=
                if (0 <? List.length completions)%nat then
                  let* r := call (MarkBatchAsCompleted completions)
                                 (EMarkBatchAsCompleted completions) in
                  ret match r with
                      | Some e => ["completion update failed: " +++ e]
                      | None => []
                      end
                else ret [] in
              let* errs2 :=
                if (0 <? List.length failures)%nat then
                  let* r := call (MarkBatchAsFailed failures)
                                 (EMarkBatchAsFailed failures) in
                  ret match r with
                      | Some e => errs1 ++ ["failure update failed: " +++ e]
                      | None => errs1
                      end
                else ret errs1 in
              run if (0 <? List.length errs2)%nat
                  then logf ("DB update errors: " +++ join "; " errs2)
                  else ret tt in
              ret None
          end
      end
  end.

(** One acknowledgement: the callback runs and what it does is recorded
    under its index. *)
Definition invoke_ack (success : bool) (i : nat) (ack : AckFn W) : M W unit :=
  fun w =>
    let (w1, evs) := ack success w in
    (Done tt, w1, EAck i success :: List.map (EInAck i) evs).

(** [processAndAckBatch], lines 176-191. *)
Definition processAndAckBatch (workerID : Z) (batch : list LogMessage)
    (acks : list (AckFn W)) : M W unit :=
  let* processingErr := handleBatch batch in
  match processingErr with
  | Some e =>
      run logf ("Worker " +++ GoString.format_int workerID +++ ": Batch failed: " +++ e
                +++ " (nacking " +++ GoString.format_int (Z.of_nat (List.length acks))
                +++ " messages)") in
      for_each (invoke_ack false) 0 acks
  | None =>
      for_each (invoke_ack true) 0 acks
  end.

(** How one claimed row [id] is resolved against the result vector:
    the record it contributes to the completions [cs] or to the
    failures [fs]. *)
Definition resolved_as (proof : BatchProof) (results : list LogStatusInfo)
    (id : string) (row : LogStatus)
    (cs : list CompletionRecord) (fs : list FailureRecord) : Prop :=
  match resultsMap results !! ls_LogHash row with
  | Some info =>
      if String.eqb (si_Status info) StatusSuccess
      then mkCompletionRecord id (bp_TransactionID proof) (si_LogHash info)
             (bp_BlockHeight proof) ∈ cs
      else mkFailureRecord id
             ("Contract failed: " +++ si_Status info +++ " - " +++ si_Message info) ∈ fs
  | None =>
      mkFailureRecord id
        ("Missing result for log_hash " +++ ls_LogHash row
           +++ " (TxID: " +++ bp_TransactionID proof +++ ")") ∈ fs
  end.

(** The shapes of a run of [handleBatch]: its outcome and its trace. *)
Inductive handled (batch : list LogMessage)
  : Outcome (option error) -> list Event -> Prop :=
| handled_skip :
    (collect batch).1 = [] ->
    handled batch (Done None) []
| handled_claim_error err :
    handled batch
      (Done (Some ("DB error: GetAndMarkBatchAsProcessing failed: " +++ err)))
      [EGetAndMarkBatchAsProcessing (collect batch).1 maxTaskRetries (inl err)]
| handled_panic tasks why :
    select_valid (collect batch).2 (map_range tasks) (∅, []) = None ->
    handled batch (Panic why)
      [EGetAndMarkBatchAsProcessing (collect batch).1 maxTaskRetries (inr tasks)]
| handled_nothing tasks :
    claimed_processing tasks = ∅ ->
    handled batch (Done None)
      [EGetAndMarkBatchAsProcessing (collect batch).1 maxTaskRetries (inr tasks)]
| handled_ledger_error tasks entries err res lines :
    select_valid (collect batch).2 (map_range tasks) (∅, [])
      = Some (claimed_processing tasks, entries) ->
    entries <> [] ->
    handled batch (Done (Some ("SubmitLogsBatch failed: " +++ err)))
      ([EGetAndMarkBatchAsProcessing (collect batch).1 maxTaskRetries (inr tasks);
        ESubmitLogsBatch entries (inl err);
        ELog ("Blockchain error: " +++ err);
        EMarkBatchForRetry (getValidRequestIDs (claimed_processing tasks)) err res]
       ++ List.map ELog lines)
| handled_resolved tasks entries proof results r1 r2 lines :
    select_valid (collect batch).2 (map_range tasks) (∅, [])
      = Some (claimed_processing tasks, entries) ->
    entries <> [] ->
    let cf := resolve proof results (claimed_processing tasks) in
    handled batch (Done None)
      ([EGetAndMarkBatchAsProcessing (collect batch).1 maxTaskRetries (inr tasks);
        ESubmitLogsBatch entries (inr (proof, results))]
       ++ mark_calls cf.1 r1 cf.2 r2 ++ List.map ELog lines).

End Defs.
End Worker.

(* ===================================================================== *)
(** ** internal/messaging/producer (KafkaProducer)                        *)
(* ===================================================================== *)

Module KafkaProducer.
Section Defs.

Context {W : Type} `{!KafkaWriter W} `{!GoLib}.

(** The field [topic] of the producer. *)
Variable topic : string.

(** The object [json.Marshal] builds for a [models.LogMessage]: the
    fields in declaration order under their [json] tags. *)
Definition LogMessage_json (msg : LogMessage) : JSONObject :=
  [ ("RequestID", JStr (msg_RequestID msg));
    ("LogContent", JStr (msg_LogContent msg));
    ("LogHash", JStr (msg_LogHash msg));
    ("SourceOrgID", JStr (msg_SourceOrgID msg));
    ("ReceivedTimestamp", JStr (msg_ReceivedTimestamp msg)) ].

Definition kafka_message (msg : LogMessage) : KafkaMessage :=
  {| km_Key := msg_RequestID msg;
     km_Value := json_Marshal (LogMessage_json msg);
     km_Offset := 0 |}.

(** [PublishBatch].  [json.Marshal] cannot fail on a struct of strings,
    so the error return inside the loop is not reachable. *)
Definition PublishBatch (msgs : list LogMessage) (w : W)
  : W * option error * list ProducerEvent :=
  if (List.length msgs =? 0)%nat then (w, None, []) else
  let kafkaMsgs := List.map kafka_message msgs in
  let (w1, err) := WriteMessages kafkaMsgs w in
  match err with
  | Some e =>
      (w1, Some ("failed to batch write to Kafka buffer: " +++ e),
       [ PWriteMessages kafkaMsgs err;
         PLog ("Failed to send Kafka messages in batch (count: "
               +++ GoString.format_int (Z.of_nat (List.length msgs)) +++ "): " +++ e) ])
  | None =>
      (w1, None,
       [ PWriteMessages kafkaMsgs err;
         PLog ("Successfully added "
               +++ GoString.format_int (Z.of_nat (List.length msgs))
               +++ " Kafka messages to send queue (Topic: " +++ topic +++ ")") ])
  end.

(** [KafkaProducer] implements the [Producer] interface. *)
Definition producer : Producer W := Build_Producer W PublishBatch.

End Defs.
End KafkaProducer.

(* ===================================================================== *)
(** ** ingestion/service/core/batch_processor.go                          *)
(* ===================================================================== *)

Module BatchProcessor.

(** The mutable fields of [BatchProcessor]: the buffer, and the flush
    channel with its capacity; the oldest batch of the channel comes
    first. *)
Record t := mk {
  batchSize : Z;
  buffer : list batchEntry;
  flushChan : list (list batchEntry);
  flushCap : nat
}.

Definition set_buffer (bp : t) (b : list batchEntry) : t :=
  mk (batchSize bp) b (flushChan bp) (flushCap bp).

Definition set_flushChan (bp : t) (c : list (list batchEntry)) : t :=
  mk (batchSize bp) (buffer bp) c (flushCap bp).

(** A send in a [select] with a [default] case goes through exactly when
    the channel has room. *)
Definition can_send (bp : t) : bool :=
  (List.length (flushChan bp) <? flushCap bp)%nat.

Definition send (bp : t) (batch : list batchEntry) : t :=
  set_flushChan bp (flushChan bp ++ [batch]).

(** [getAndResetBuffer], lines 154-162. *)
Definition getAndResetBuffer (bp : t) : list batchEntry * t :=
  (buffer bp, set_buffer bp []).

Section Defs.

Context {W : Type} `{!Store W} `{!Producer W} `{!Clock W}.

(** [SubmitLog], lines 66-86.  On entering the [select] Go evaluates
    the operand of the send, [bp.getAndResetBuffer()], before it picks
    a case. *)
Definition SubmitLog (bp : t) (input : LogInput) (requestID : string) : M W t :=
  let entry := {| be_input := input; be_requestID := requestID |} in
  let bp1 := set_buffer bp (buffer bp ++ [entry]) in
  let shouldFlush := Z.of_nat (List.length (buffer bp1)) >=? batchSize bp1 in
  if shouldFlush then
    let (batch, bp2) := getAndResetBuffer bp1 in
    if can_send bp2 then ret (send bp2 batch)
    else
      run logf "Flush channel full, will flush on next timer" in
      ret bp2
  else ret bp1.

(** [flushIfNeeded], lines 131-151. *)
Definition flushIfNeeded (bp : t) : t :=
  if (List.length (buffer bp) =? 0)%nat then bp else
  let batch := buffer bp in
  let bp1 := set_buffer bp [] in
  if can_send bp1 then send bp1 batch
  else set_buffer bp1 (batch ++ buffer bp1).

(** Lines 177-197: the row and the message of one entry; [time.Now()]
    is read once for each. *)
Definition prepare (e : batchEntry) : M W (LogStatus * LogMessage) :=
  let logHash := in_ClientLogHash (be_input e) in
  let sourceOrgID := in_ClientSourceOrgID (be_input e) in
  let* t1 := call Now ENow in
  let* t2 := call Now ENow in
  ret ({| ls_RequestID := be_requestID e;
          ls_LogHash := logHash;
          ls_SourceOrgID := sourceOrgID;
          ls_ReceivedTimestamp := t1;
          ls_Status := StatusReceived;
          ls_RetryCount := 0;
          ls_ErrorMessage := EmptyString;
          ls_TxHash := EmptyString;
          ls_BlockHeight := 0;
          ls_LogHashOnChain := EmptyString |},
       {| msg_RequestID := be_requestID e;
          msg_LogContent := in_LogContent (be_input e);
          msg_LogHash := logHash;
          msg_SourceOrgID := sourceOrgID;
          msg_ReceivedTimestamp := GoTime.FormatRFC3339Nano t2 |}).

Fixpoint prepare_all (batch : list batchEntry) : M W (list LogStatus * list LogMessage) :=
  match batch with
  | [] => ret ([], [])
  | e :: rest =>
      let* p := prepare e in
      let* ps := prepare_all rest in
      ret (p.1 :: ps.1, p.2 :: ps.2)
  end.

Definition publish (msgs : list LogMessage) : M W (option error) :=
  fun w =>
    match PublishBatch msgs w with
    | (w1, res, evs) =>
        (Done res, w1, List.map EInPublish evs ++ [EPublishBatch msgs res])
    end.

(** [processBatch], lines 165-227. *)
Definition processBatch (batch : list batchEntry) : M W unit :=
  if (List.length batch =? 0)%nat then ret tt else
  let* prepared := prepare_all batch in
  let (logStatuses, kafkaMessages) := prepared in
  let* dbErr := call (InsertLogStatusBatch logStatuses)
                     (EInsertLogStatusBatch logStatuses) in
  match dbErr with
  | Some e => logf ("Batch database insert failed: " +++ e)
  | None =>
      let* kafkaErr := publish kafkaMessages in
      match kafkaErr with
      | Some e => logf ("Batch Kafka publish failed: " +++ e)
      | None => ret tt
      end
  end.

(** One turn of the flush worker [batchProcessor], lines 109-114: take
    the oldest batch of the channel, if there is one. *)
Definition flushWorkerStep (bp : t) : M W t :=
  match flushChan bp with
  | [] => ret bp
  | batch :: rest =>
      run if (0 <? List.length batch)%nat then processBatch batch else ret tt in
      ret (set_flushChan bp rest)
  end.

(** The row and the message [processBatch] prepares for an entry, from
    the two clock readings [t1] and [t2]. *)
Definition row_of (e : batchEntry) (t1 : GoTime.Time) : LogStatus :=
  {| ls_RequestID := be_requestID e;
     ls_LogHash := in_ClientLogHash (be_input e);
     ls_SourceOrgID := in_ClientSourceOrgID (be_input e);
     ls_ReceivedTimestamp := t1;
     ls_Status := StatusReceived;
     ls_RetryCount := 0;
     ls_ErrorMessage := EmptyString;
     ls_TxHash := EmptyString;
     ls_BlockHeight := 0;
     ls_LogHashOnChain := EmptyString |}.

Definition message_of (e : batchEntry) (t2 : GoTime.Time) : LogMessage :=
  {| msg_RequestID := be_requestID e;
     msg_LogContent := in_LogContent (be_input e);
     msg_LogHash := in_ClientLogHash (be_input e);
     msg_SourceOrgID := in_ClientSourceOrgID (be_input e);
     msg_ReceivedTimestamp := GoTime.FormatRFC3339Nano t2 |}.

(** The shapes of a run of [processBatch]. *)
Inductive flushed (batch : list batchEntry) : list Event -> Prop :=
| flushed_empty :
    batch = [] -> flushed batch []
| flushed_insert_failed rows ts e :
    Forall2 (fun e r => exists t, t ∈ ts /\ r = row_of e t) batch rows ->
    flushed batch
      (List.map ENow ts
       ++ [EInsertLogStatusBatch rows (Some e);
           ELog ("Batch database insert failed: " +++ e)])
| flushed_published rows msgs ts w w' evs res lines :
    Forall2 (fun e r => exists t, t ∈ ts /\ r = row_of e t) batch rows ->
    Forall2 (fun e m => exists t, t ∈ ts /\ m = message_of e t) batch msgs ->
    PublishBatch msgs w = (w', res, evs) ->
    flushed batch
      (List.map ENow ts
       ++ [EInsertLogStatusBatch rows None]
       ++ List.map EInPublish evs
       ++ [EPublishBatch msgs res]
       ++ List.map ELog lines).

(** Every entry the batcher still holds: in the buffer or in a batch
    waiting on the flush channel. *)
Definition held (bp : t) : list batchEntry :=
  List.concat (flushChan bp) ++ buffer bp.

End Defs.
End BatchProcessor.

(* ===================================================================== *)
(** ** ingestion/service/core/service.go                                  *)
(* ===================================================================== *)

Module Service.
Section Defs.

Context {W : Type} `{!Clock W} `{!UUIDSource W}.

Definition err_empty : error := "log_content cannot be empty".

Definition err_mismatch (clientHash serverHash : string) : error :=
  "client provided hash '" +++ clientHash
    +++ "' does not match server calculated hash '" +++ serverHash +++ "'".

(** [input.ClientLogHash = serverLogHash] through the pointer. *)
Definition with_hash (input : LogInput) (h : string) : LogInput :=
  {| in_LogContent := in_LogContent input;
     in_ClientLogHash := h;
     in_ClientSourceOrgID := in_ClientSourceOrgID input;
     in_ClientTimestamp := in_ClientTimestamp input |}.

(** [SubmitLog], lines 50-89.  The hand-over to the batcher is a new
    goroutine, recorded as [EGoSubmitLog]. *)
Definition SubmitLog (input : LogInput) : M W (error + LogResult) :=
  (* 1. validate input *)
  if GoString.is_empty (in_LogContent input) then ret (inl err_empty) else
  (* 2. received timestamp *)
  let* receivedTimestamp := call Now ENow in
  (* 3. calculate / validate hash *)
  let serverLogHash := Sha256.hex_sum (in_LogContent input) in
  if negb (GoString.is_empty (in_ClientLogHash input))
     && negb (String.eqb (in_ClientLogHash input) serverLogHash)
  then ret (inl (err_mismatch (in_ClientLogHash input) serverLogHash))
  else
    let input' := with_hash input serverLogHash in
    (* 4. request id *)
    let* requestID := call NewString ENewUUID in
    (* 5. result *)
    let result := {| res_RequestID := requestID;
                     res_ServerLogHash := serverLogHash;
                     res_ServerReceivedTimestamp := receivedTimestamp |} in
    (* 6. hand over to the batch processor, asynchronously *)
    run emit (EGoSubmitLog input' requestID) in
    ret (inr result).

End Defs.
End Service.

(* ===================================================================== *)
(** ** ingestion/service/http/handler.go                                  *)
(* ===================================================================== *)

Module LogHandler.

Definition StatusAccepted : Z := 202.
Definition StatusBadRequest : Z := 400.
Definition StatusMethodNotAllowed : Z := 405.
Definition StatusRequestEntityTooLarge : Z := 413.
Definition StatusInternalServerError : Z := 500.

(** [http.StatusText] on the codes in use. *)
Definition StatusText (code : Z) : string :=
  if code =? 202 then "Accepted"
  else if code =? 400 then "Bad Request"
  else if code =? 405 then "Method Not Allowed"
  else if code =? 413 then "Request Entity Too Large"
  else if code =? 500 then "Internal Server Error"
  else EmptyString.

(** The pattern [client provided hash .* does not match]. *)
Definition mismatch_pattern : Regexp.re :=
  Regexp.Cat (Regexp.lit_string "client provided hash ")
    (Regexp.Cat (Regexp.Star Regexp.Dot) (Regexp.lit_string " does not match")).

(** Lines 95-100: the status code of a service error. *)
Definition statusCodeFor (err : error) : Z :=
  if String.eqb err "log_content cannot be empty" then StatusBadRequest
  else if Regexp.MatchString mismatch_pattern err then StatusBadRequest
  else StatusInternalServerError.

(** The body [respondError] encodes; [encoding/json] writes the keys of
    a map in sorted order. *)
Definition errorResp (message : string) (statusCode : Z) : JSONObject :=
  [ ("error", JStr message);
    ("message", JStr (StatusText statusCode));
    ("status", JNum statusCode) ].

Definition respPayload (result : LogResult) : JSONObject :=
  [ ("request_id", JStr (res_RequestID result));
    ("server_log_hash", JStr (res_ServerLogHash result));
    ("server_received_timestamp",
      JStr (GoTime.FormatRFC3339Nano (res_ServerReceivedTimestamp result)));
    ("status", JStr "ACCEPTED") ].

(** The request size limit of line 40. *)
Definition maxContentLength : Z := 10 * 1024 * 1024.

Section Defs.

Context {W : Type} `{!Clock W} `{!UUIDSource W} `{!GoLib}.

Definition respondJSON (data : JSONObject) (statusCode : Z) : M W unit :=
  emit (ERespond statusCode data).

Definition respondError (message : string) (statusCode : Z) : M W unit :=
  respondJSON (errorResp message statusCode) statusCode.

(** [SubmitLog], lines 25-119. *)
Definition SubmitLog (r : Request) : M W unit :=
  if negb (String.eqb (rq_Method r) "POST")
  then respondError "Method Not Allowed" StatusMethodNotAllowed else
  (* Content-Type validation *)
  if negb (String.eqb (rq_ContentType r) "application/json")
  then respondError "Content-Type must be application/json" StatusBadRequest else
  (* request size limit *)
  if rq_ContentLength r >? maxContentLength
  then respondError "Request body too large" StatusRequestEntityTooLarge else
  (* 1. parse request body JSON *)
  let* decoded := call (fun w => (w, json_Decode_ReqPayload (rq_Body r))) EDecodeBody in
  match decoded with
  | inl err =>
      run logf ("HTTP Handler: Failed to parse JSON request: " +++ err) in
      respondError "Bad Request: Invalid JSON format" StatusBadRequest
  | inr reqPayload =>
      (* 2. validate required fields *)
      if GoString.is_empty (rp_LogContent reqPayload)
      then respondError "log_content is required" StatusBadRequest else
      (* 2.5. source_org_id from the header or from the payload *)
      let sourceOrgID :=
        if GoString.is_empty (rq_XClientOrgID r)
        then rp_ClientSourceOrgID reqPayload else rq_XClientOrgID r in
      (* 3. service layer input, with the optional timestamp *)
      let parsed :=
        if GoString.is_empty (rp_ClientTimestamp reqPayload) then None
        else Some (time_Parse_RFC3339Nano (rp_ClientTimestamp reqPayload)) in
      let input := {| in_LogContent := rp_LogContent reqPayload;
                      in_ClientLogHash := rp_ClientLogHash reqPayload;
                      in_ClientSourceOrgID := sourceOrgID;
                      in_ClientTimestamp :=
                        match parsed with
                        | Some (inr ts) => Some ts
                        | _ => None
                        end |} in
      run match parsed with
          | Some (inl err) =>
              logf ("HTTP Handler: Invalid client_timestamp format: " +++ err)
          | _ => ret tt
          end in
      (* 4. service layer *)
      let* res := Service.SubmitLog input in
      match res with
      | inl err =>
          run logf ("HTTP Handler: Service layer processing failed: " +++ err) in
          respondError err (statusCodeFor err)
      | inr result =>
          (* 6. success response, HTTP 202 *)
          respondJSON (respPayload result) StatusAccepted
      end
  end.

End Defs.

(** The responses written during a run. *)
Definition responses (tr : list Event) : list (Z * JSONObject) :=
  omap (fun e => match e with ERespond c b => Some (c, b) | _ => None end) tr.

End LogHandler.

(* ===================================================================== *)
(** ** internal/messaging/consumer (KafkaConsumer)                        *)
(* ===================================================================== *)

Module KafkaConsumer.
Section Defs.

Context {W : Type} `{!KafkaReader W} `{!GoLib}.

(** The callback built at lines 106-116. *)
Definition ackCallback (kafkaMsg : KafkaMessage) (logMsg : LogMessage) : AckFn W :=
  fun success w =>
    if success then
      let (w1, err) := CommitMessages kafkaMsg w in
      (w1, ACommitMessages kafkaMsg err ::
           match err with
           | Some e => [ALog ("Kafka consumer: Failed to commit offset "
                              +++ GoString.format_int (km_Offset kafkaMsg) +++ ": " +++ e)]
           | None => []
           end)
    else
      (w, [ALog ("Kafka consumer: NACK received for offset "
                 +++ GoString.format_int (km_Offset kafkaMsg)
                 +++ " (request_id " +++ msg_RequestID logMsg
                 +++ "). Offset will not be committed.")]).

(** [Consume], lines 85-117: the message, the callback and the error. *)
Definition Consume (ctx : Context)
  : M W (option LogMessage * option (AckFn W) * option error) :=
  let* fetched := call FetchMessage EFetchMessage in
  match fetched with
  | inl err =>
      if is_Canceled err then
        run logf "Kafka consumer: Context cancelled, stopping consumption." in
        ret (None, None, ctx_Err ctx)
      else ret (None, None, Some err)
  | inr kafkaMsg =>
      match json_Unmarshal_LogMessage (km_Value kafkaMsg) with
      | inl err =>
          run logf ("Kafka consumer: Failed to deserialize message (Offset: "
                    +++ GoString.format_int (km_Offset kafkaMsg) +++ "): " +++ err
                    +++ ". Message will be discarded.") in
          (* commit the offset to avoid blocking; the result is dropped *)
          let* _ := call (CommitMessages kafkaMsg) (ECommitMessages kafkaMsg) in
          ret (None, None, Some ("message deserialization failed: " +++ err))
      | inr logMsg =>
          ret (Some logMsg, Some (ackCallback kafkaMsg logMsg), None)
      end
  end.

End Defs.
End KafkaConsumer.

(* ===================================================================== *)
(** ** A concrete world for running the components                        *)
(* ===================================================================== *)

Module Sim.

(** The state table, scripted answers of the ledger and of the Kafka
    reader, what was written and committed, the clock and the UUID
    source, and switches that make a store or Kafka call fail. *)
Record World := mkWorld {
  rows : gmap string LogStatus;
  ledgerScript : list (error + (BatchProof * list LogStatusInfo));
  inbox : list (error + KafkaMessage);
  written : list KafkaMessage;
  committed : list Z;
  clock : GoTime.Time;
  uuids : list string;
  failInsert : option error;
  failClaim : option error;
  failRetry : option error;
  failCompleted : option error;
  failFailed : option error;
  failWrite : option error;
  failCommit : option error
}.

Definition set_rows (w : World) (r : gmap string LogStatus) : World :=
  mkWorld r (ledgerScript w) (inbox w) (written w) (committed w) (clock w) (uuids w)
    (failInsert w) (failClaim w) (failRetry w) (failCompleted w) (failFailed w)
    (failWrite w) (failCommit w).

Definition set_ledgerScript (w : World) l : World :=
  mkWorld (rows w) l (inbox w) (written w) (committed w) (clock w) (uuids w)
    (failInsert w) (failClaim w) (failRetry w) (failCompleted w) (failFailed w)
    (failWrite w) (failCommit w).

Definition set_inbox (w : World) l : World :=
  mkWorld (rows w) (ledgerScript w) l (written w) (committed w) (clock w) (uuids w)
    (failInsert w) (failClaim w) (failRetry w) (failCompleted w) (failFailed w)
    (failWrite w) (failCommit w).

Definition set_written (w : World) l : World :=
  mkWorld (rows w) (ledgerScript w) (inbox w) l (committed w) (clock w) (uuids w)
    (failInsert w) (failClaim w) (failRetry w) (failCompleted w) (failFailed w)
    (failWrite w) (failCommit w).

Definition set_committed (w : World) l : World :=
  mkWorld (rows w) (ledgerScript w) (inbox w) (written w) l (clock w) (uuids w)
    (failInsert w) (failClaim w) (failRetry w) (failCompleted w) (failFailed w)
    (failWrite w) (failCommit w).

Definition set_clock (w : World) t : World :=
  mkWorld (rows w) (ledgerScript w) (inbox w) (written w) (committed w) t (uuids w)
    (failInsert w) (failClaim w) (failRetry w) (failCompleted w) (failFailed w)
    (failWrite w) (failCommit w).

Definition set_uuids (w : World) l : World :=
  mkWorld (rows w) (ledgerScript w) (inbox w) (written w) (committed w) (clock w) l
    (failInsert w) (failClaim w) (failRetry w) (failCompleted w) (failFailed w)
    (failWrite w) (failCommit w).

Definition set_status (r : LogStatus) (st : Status) : LogStatus :=
  mkLogStatus (ls_RequestID r) (ls_LogHash r) (ls_SourceOrgID r)
    (ls_ReceivedTimestamp r) st (ls_RetryCount r) (ls_ErrorMessage r)
    (ls_TxHash r) (ls_BlockHeight r) (ls_LogHashOnChain r).

Definition set_error (r : LogStatus) (e : string) : LogStatus :=
  mkLogStatus (ls_RequestID r) (ls_LogHash r) (ls_SourceOrgID r)
    (ls_ReceivedTimestamp r) (ls_Status r) (ls_RetryCount r) e
    (ls_TxHash r) (ls_BlockHeight r) (ls_LogHashOnChain r).

Definition bump_retry (r : LogStatus) : LogStatus :=
  mkLogStatus (ls_RequestID r) (ls_LogHash r) (ls_SourceOrgID r)
    (ls_ReceivedTimestamp r) (ls_Status r) (ls_RetryCount r + 1) (ls_ErrorMessage r)
    (ls_TxHash r) (ls_BlockHeight r) (ls_LogHashOnChain r).

Definition set_ledger_columns (r : LogStatus) (c : CompletionRecord) : LogStatus :=
  mkLogStatus (ls_RequestID r) (ls_LogHash r) (ls_SourceOrgID r)
    (ls_ReceivedTimestamp r) (ls_Status r) (ls_RetryCount r) (ls_ErrorMessage r)
    (cr_TxHash c) (cr_BlockHeight c) (cr_LogHashOnChain c).

(** Modelled from the spec: [insert_batch] of section 4.3, a unique-key
    batch insert in one transaction (the implementation in
    [storage/store] is not part of the sources at hand). *)
Definition insert_batch (new : list LogStatus) (w : World) : World * option error :=
  match failInsert w with
  | Some e => (w, Some e)
  | None =>
      if existsb (fun r => bool_decide (is_Some (rows w !! ls_RequestID r))) new
      then (w, Some "duplicate key value violates unique constraint")
      else (set_rows w (List.fold_left (fun m r => <[ls_RequestID r := r]> m) new (rows w)),
            None)
  end.

(** Modelled from the spec: [claim_batch] of section 4.3.  An absent or
    [COMPLETED] row is omitted; a row at the retry cap is moved to
    [FAILED] and returned; otherwise the retry count is incremented and
    the row is moved to [PROCESSING] and returned.  A row that is
    already [FAILED] is terminal (glossary): it is left alone and
    omitted. *)
Definition claim_one (maxRetries : Z)
    (acc : gmap string LogStatus * gmap string LogStatus) (id : string)
  : gmap string LogStatus * gmap string LogStatus :=
  let (tbl, out) := acc in
  match tbl !! id with
  | None => acc
  | Some r =>
      match ls_Status r with
      | StatusCompleted => acc
      | StatusFailed => acc
      | _ =>
          if ls_RetryCount r >=? maxRetries then
            let r' := set_error (set_status r StatusFailed) "max retries exceeded" in
            (<[id := r']> tbl, <[id := r']> out)
          else
            let r' := set_status (bump_retry r) StatusProcessing in
            (<[id := r']> tbl, <[id := r']> out)
      end
  end.

Definition claim_batch (ids : list string) (maxRetries : Z) (w : World)
  : World * (error + gmap string LogStatus) :=
  match failClaim w with
  | Some e => (w, inl e)
  | None =>
      let (tbl, out) := List.fold_left (claim_one maxRetries) ids (rows w, ∅) in
      (set_rows w tbl, inr out)
  end.

(** Modelled from the spec: [mark_for_retry] of section 4.3: the status
    stays [PROCESSING] and the error message is recorded. *)
Definition mark_for_retry (ids : list string) (msg : string) (w : World)
  : World * option error :=
  match failRetry w with
  | Some e => (w, Some e)
  | None =>
      (set_rows w (List.fold_left
                     (fun m id => alter (fun r => set_error r msg) id m) ids (rows w)),
       None)
  end.

(** Modelled from the spec: [mark_completed_batch] of section 4.3, a
    no-op on a row that is not in [PROCESSING]. *)
Definition complete_one (m : gmap string LogStatus) (c : CompletionRecord)
  : gmap string LogStatus :=
  alter (fun r => match ls_Status r with
                  | StatusProcessing => set_status (set_ledger_columns r c) StatusCompleted
                  | _ => r
                  end) (cr_RequestID c) m.

Definition mark_completed_batch (cs : list CompletionRecord) (w : World)
  : World * option error :=
  match failCompleted w with
  | Some e => (w, Some e)
  | None => (set_rows w (List.fold_left complete_one cs (rows w)), None)
  end.

(** Modelled from the spec: [mark_failed_batch] of section 4.3, a
    no-op on a row that is already terminal. *)
Definition fail_one (m : gmap string LogStatus) (f : FailureRecord)
  : gmap string LogStatus :=
  alter (fun r => match ls_Status r with
                  | StatusCompleted => r
                  | StatusFailed => r
                  | _ => set_error (set_status r StatusFailed) (fr_ErrorMessage f)
                  end) (fr_RequestID f) m.

Definition mark_failed_batch (fs : list FailureRecord) (w : World)
  : World * option error :=
  match failFailed w with
  | Some e => (w, Some e)
  | None => (set_rows w (List.fold_left fail_one fs (rows w)), None)
  end.

Global Instance store : Store World := {|
  InsertLogStatusBatch := insert_batch;
  GetAndMarkBatchAsProcessing := claim_batch;
  MarkBatchForRetry := mark_for_retry;
  MarkBatchAsCompleted := mark_completed_batch;
  MarkBatchAsFailed := mark_failed_batch
|}.

(** The ledger answers from its script. *)
Definition submit (entries : list LogEntry) (w : World)
  : World * (error + (BatchProof * list LogStatusInfo)) :=
  match ledgerScript w with
  | [] => (w, inl "ledger unavailable")
  | r :: rest => (set_ledgerScript w rest, r)
  end.

Global Instance ledger : BlockchainClient World := {| SubmitLogsBatch := submit |}.

Definition write (msgs : list KafkaMessage) (w : World) : World * option error :=
  match failWrite w with
  | Some e => (w, Some e)
  | None => (set_written w (written w ++ msgs), None)
  end.

Global Instance writer : KafkaWriter World := {| WriteMessages := write |}.

Definition fetch (w : World) : World * (error + KafkaMessage) :=
  match inbox w with
  | [] => (w, inl "context deadline exceeded")
  | r :: rest => (set_inbox w rest, r)
  end.

Definition commit (m : KafkaMessage) (w : World) : World * option error :=
  match failCommit w with
  | Some e => (w, Some e)
  | None => (set_committed w (committed w ++ [km_Offset m]), None)
  end.

Global Instance reader : KafkaReader World := {|
  FetchMessage := fetch;
  CommitMessages := commit
|}.

(** The clock advances by one second at each reading. *)
Definition now (w : World) : World * GoTime.Time :=
  let t := clock w in
  (set_clock w (GoTime.mkTime (GoTime.unixSec t + 1) (GoTime.nsec t) (GoTime.zoneOffset t)), t).

Global Instance clock_inst : Clock World := {| Now := now |}.

Definition new_uuid (w : World) : World * string :=
  match uuids w with
  | [] => (w, "00000000-0000-4000-8000-000000000000")
  | u :: rest => (set_uuids w rest, u)
  end.

Global Instance uuid_inst : UUIDSource World := {| NewString := new_uuid |}.

(** A stand-in for [encoding/json] and [time.Parse]: objects are
    printed without escapes, and the decoders know the texts of a
    table. *)
Definition quote (s : string) : string :=
  String (ascii_of_N 34) (s +++ String (ascii_of_N 34) EmptyString).

Definition print_value (v : JValue) : string :=
  match v with
  | JStr s => quote s
  | JNum n => GoString.format_int n
  end.

Fixpoint print_fields (l : JSONObject) : string :=
  match l with
  | [] => EmptyString
  | [(k, v)] => quote k +++ ":" +++ print_value v
  | (k, v) :: rest => quote k +++ ":" +++ print_value v +++ "," +++ print_fields rest
  end.

Definition marshal (j : JSONObject) : string := "{" +++ print_fields j +++ "}".

Definition lookup_text {A} (tbl : list (string * A)) (text : string) (why : error)
  : error + A :=
  match List.find (fun kv => String.eqb (fst kv) text) tbl with
  | Some kv => inr (snd kv)
  | None => inl why
  end.

Definition lib (messages : list (string * LogMessage))
    (payloads : list (string * ReqPayload)) : GoLib := {|
  json_Marshal := marshal;
  json_Unmarshal_LogMessage := fun text =>
    lookup_text messages text "invalid character in JSON input";
  json_Decode_ReqPayload := fun text =>
    lookup_text payloads text "invalid character in JSON input";
  time_Parse_RFC3339Nano := fun _ => inl "parsing time: cannot parse"
|}.

(** [range] over a map in the order of [map_to_list]. *)
Global Instance range : GoMapRange := {|
  map_range := fun V m => map_to_list m;
  map_range_perm := fun V m => reflexivity (map_to_list m)
|}.

Definition empty : World :=
  mkWorld ∅ [] [] [] [] (GoTime.mkTime 1761018328 0 0) []
    None None None None None None None.

Definition kafka_producer `{!GoLib} (topic : string) : Producer World :=
  {| PublishBatch := KafkaProducer.PublishBatch topic |}.

(** An acknowledgement callback that only reports. *)
Definition plain_ack (name : string) : AckFn World :=
  fun success w => (w, [ALog (name +++ (if success then " ACK" else " NACK"))]).

End Sim.


(** ** Scenarios: rows, messages and worlds used by the examples *)

Module Scenario.

Definition row (id h : string) (st : Status) (retries : Z) : LogStatus :=
  mkLogStatus id h "org-1" (GoTime.mkTime 1761018300 0 0) st retries
    EmptyString EmptyString 0 EmptyString.

Definition message (id h : string) : LogMessage :=
  mkLogMessage id "payload" h "org-1" "2025-10-21T03:45:00Z".

Definition entry (h : string) : LogEntry :=
  mkLogEntry h "payload" "org-1" "2025-10-21T03:45:00Z".

Definition with_rows (rs : list LogStatus) : Sim.World :=
  Sim.set_rows Sim.empty (List.fold_left (fun m r => <[ls_RequestID r := r]> m) rs ∅).

Definition with_ledger (w : Sim.World)
    (answers : list (error + (BatchProof * list LogStatusInfo))) : Sim.World :=
  Sim.set_ledgerScript w answers.

(** One row in [RECEIVED]; the ledger accepts the entry; the completion
    update of the state store fails. *)
Definition lost_update : Sim.World :=
  Sim.mkWorld {[ "r1" := row "r1" "h1" StatusReceived 0 ]}
    [inr (mkBatchProof "tx1" 7, [mkLogStatusInfo "h1" StatusSuccess "ok"])]
    [] [] [] (GoTime.mkTime 1761018328 0 0) []
    None None None (Some "connection reset") None None None.

(** The row is at the retry cap: the claim moves it to [FAILED]. *)
Definition at_cap : Sim.World := with_rows [row "r1" "h1" StatusReceived 3].

Definition at_cap_claimed : gmap string LogStatus :=
  {[ "r1" := Sim.set_error (row "r1" "h1" StatusFailed 3) "max retries exceeded" ]}.

(** The ledger call fails as a whole; the second row is already
    [COMPLETED]. *)
Definition ledger_down : Sim.World :=
  with_ledger (with_rows [row "r1" "h1" StatusReceived 0; row "r2" "h2" StatusCompleted 1])
    [inl "rpc timeout"].

(** Three rows; the ledger accepts the first, skips the second as a
    duplicate and returns nothing for the third. *)
Definition mixed_results : list LogStatusInfo :=
  [ mkLogStatusInfo "h1" StatusSuccess "stored";
    mkLogStatusInfo "h2" StatusSkippedDuplicate "Skipped duplicate log hash" ].

Definition mixed : Sim.World :=
  with_ledger
    (with_rows [row "r1" "h1" StatusReceived 0; row "r2" "h2" StatusReceived 0;
                row "r3" "h3" StatusReceived 0])
    [inr (mkBatchProof "tx9" 42, mixed_results)].

Definition mixed_batch : list LogMessage :=
  [message "r1" "h1"; message "r2" "h2"; message "r3" "h3"].

Definition mixed_claimed : gmap string LogStatus :=
  {[ "r1" := row "r1" "h1" StatusProcessing 1;
     "r2" := row "r2" "h2" StatusProcessing 1;
     "r3" := row "r3" "h3" StatusProcessing 1 ]}.

(** The runs of the worker in these worlds, with [maxTaskRetries = 3]. *)
Definition lost_update_run : Outcome unit * Sim.World * list Event :=
  Worker.processAndAckBatch 3 1 [message "r1" "h1"] [Sim.plain_ack "m0"] lost_update.

Definition at_cap_run : Outcome unit * Sim.World * list Event :=
  Worker.processAndAckBatch 3 1 [message "r1" "h1"] [Sim.plain_ack "m0"] at_cap.

Definition ledger_down_run : Outcome unit * Sim.World * list Event :=
  Worker.processAndAckBatch 3 1 [message "r1" "h1"; message "r2" "h2"]
    [Sim.plain_ack "m0"; Sim.plain_ack "m1"] ledger_down.

Definition mixed_run : Outcome (option error) * Sim.World * list Event :=
  Worker.handleBatch 3 mixed_batch mixed.

(** The ingestion side: accepted submissions waiting in the batcher. *)
Definition accepted (id content : string) : batchEntry :=
  {| be_input := {| in_LogContent := content;
                    in_ClientLogHash := Sha256.hex_sum content;
                    in_ClientSourceOrgID := "org-1";
                    in_ClientTimestamp := None |};
     be_requestID := id |}.

(** A batcher with [batch_size = 2] whose flush channel of capacity 1
    already holds a batch, and one entry in the buffer. *)
Definition full_channel : BatchProcessor.t :=
  BatchProcessor.mk 2 [accepted "id-1" "b"] [[accepted "id-0" "a"]] 1.

Definition full_channel_submit : Outcome BatchProcessor.t * Sim.World * list Event :=
  BatchProcessor.SubmitLog full_channel (be_input (accepted "id-2" "c")) "id-2" Sim.empty.

Definition json_lib : GoLib := Sim.lib [] [].

(** The flush of one accepted submission through the Kafka producer. *)
Definition flush_run : Outcome unit * Sim.World * list Event :=
  @BatchProcessor.processBatch Sim.World Sim.store
    (@KafkaProducer.producer Sim.World Sim.writer json_lib "log_submissions")
    Sim.clock_inst [accepted "id-1" "hello"] Sim.empty.

(** The message that flush publishes. *)
Definition flushed_message : LogMessage :=
  {| msg_RequestID := "id-1";
     msg_LogContent := "hello";
     msg_LogHash := "2cf24dba5fb0a30e26e83b2ac5b9e29e1b161e5c1fa7425e73043362938b9824";
     msg_SourceOrgID := "org-1";
     msg_ReceivedTimestamp := "2025-10-21T03:45:29Z" |}.

(** The same flush when the bulk insert fails. *)
Definition flush_insert_fails_run : Outcome unit * Sim.World * list Event :=
  @BatchProcessor.processBatch Sim.World Sim.store
    (@KafkaProducer.producer Sim.World Sim.writer json_lib "log_submissions")
    Sim.clock_inst [accepted "id-1" "hello"]
    (Sim.mkWorld ∅ [] [] [] [] (GoTime.mkTime 1761018328 0 0) []
       (Some "connection refused") None None None None None None).

(** The HTTP front end and the consumer. *)

(** A client hash with a line feed in it, as the JSON text [a\nb] decodes. *)
Definition hash_with_line_feed : string := "a" +++ String (ascii_of_N 10) "b".

Definition mismatch_body : string :=
  "{" +++ Sim.quote "log_content" +++ ":" +++ Sim.quote "x" +++ ","
      +++ Sim.quote "client_log_hash" +++ ":" +++ Sim.quote "a\nb" +++ "}".

Definition mismatch_payload : ReqPayload :=
  {| rp_LogContent := "x";
     rp_ClientLogHash := hash_with_line_feed;
     rp_ClientSourceOrgID := EmptyString;
     rp_ClientTimestamp := EmptyString |}.

(** The happy path of the specification: [{log_content: hello}]. *)
Definition hello_body : string :=
  "{" +++ Sim.quote "log_content" +++ ":" +++ Sim.quote "hello" +++ "}".

Definition hello_payload : ReqPayload :=
  {| rp_LogContent := "hello";
     rp_ClientLogHash := EmptyString;
     rp_ClientSourceOrgID := EmptyString;
     rp_ClientTimestamp := EmptyString |}.

Definition http_lib : GoLib :=
  Sim.lib [] [(mismatch_body, mismatch_payload); (hello_body, hello_payload)].

Definition mismatch_request : Request :=
  {| rq_Method := "POST";
     rq_ContentType := "application/json";
     rq_XClientOrgID := EmptyString;
     rq_ContentLength := Z.of_nat (String.length mismatch_body);
     rq_Body := mismatch_body |}.

Definition mismatch_run : Outcome unit * Sim.World * list Event :=
  @LogHandler.SubmitLog Sim.World Sim.clock_inst Sim.uuid_inst http_lib
    mismatch_request Sim.empty.

Definition hello_run : Outcome unit * Sim.World * list Event :=
  @LogHandler.SubmitLog Sim.World Sim.clock_inst Sim.uuid_inst http_lib
    {| rq_Method := "POST";
       rq_ContentType := "application/json";
       rq_XClientOrgID := "org-1";
       rq_ContentLength := Z.of_nat (String.length hello_body);
       rq_Body := hello_body |}
    Sim.empty.

(** An oversize request that is not declared as JSON. *)
Definition oversize_plain_request : Request :=
  {| rq_Method := "POST";
     rq_ContentType := "text/plain";
     rq_XClientOrgID := EmptyString;
     rq_ContentLength := 10 * 1024 * 1024 + 1;
     rq_Body := EmptyString |}.

Definition oversize_json_request : Request :=
  {| rq_Method := "POST";
     rq_ContentType := "application/json";
     rq_XClientOrgID := EmptyString;
     rq_ContentLength := 10 * 1024 * 1024 + 1;
     rq_Body := EmptyString |}.
(** A Kafka message whose bytes are not JSON, at offset 17. *)
Definition malformed : KafkaMessage := mkKafkaMessage "id-9" "not json" 17.

Definition malformed_inbox : Sim.World := Sim.set_inbox Sim.empty [inr malformed].

Definition malformed_run
  : Outcome (option LogMessage * option (AckFn Sim.World) * option error)
    * Sim.World * list Event :=
  @KafkaConsumer.Consume Sim.World Sim.reader json_lib (mkContext None) malformed_inbox.

(** The same message when the group coordinator cannot be reached: the
    commit returns an error. *)
Definition malformed_commit_fails : Sim.World :=
  Sim.mkWorld ∅ [] [inr malformed] [] [] (GoTime.mkTime 1761018328 0 0) []
    None None None None None None (Some "group coordinator not available").

Definition malformed_commit_fails_run
  : Outcome (option LogMessage * option (AckFn Sim.World) * option error)
    * Sim.World * list Event :=
  @KafkaConsumer.Consume Sim.World Sim.reader json_lib (mkContext None)
    malformed_commit_fails.

(** "A malformed message is committed", read on the simulated reader:
    after the run, the offset of every fetched message that does not
    deserialize is among the committed offsets. *)
Definition malformed_offsets_committed
    (r : Outcome (option LogMessage * option (AckFn Sim.World) * option error)
         * Sim.World * list Event) : Prop :=
  forall km err,
    EFetchMessage (inr km) ∈ trace r ->
    @json_Unmarshal_LogMessage json_lib (km_Value km) = inl err ->
    km_Offset km ∈ Sim.committed (final r).

End Scenario.

(* ===================================================================== *)
(** ** More vocabulary for the worker                                     *)
(* ===================================================================== *)

(** The ledger entry [handleBatch] builds from a queue message
    (worker.go, lines 229-234). *)
Definition entry_of_message (msg : LogMessage) : LogEntry :=
  {| le_LogHash := msg_LogHash msg;
     le_LogContent := msg_LogContent msg;
     le_SenderOrgID := msg_SourceOrgID msg;
     le_Timestamp := msg_ReceivedTimestamp msg |}.

(** The request ids the worker claims for a batch: those that are not
    empty, in batch order. *)
Definition claimable_ids (batch : list LogMessage) : list string :=
  List.filter (fun s => negb (GoString.is_empty s)) (List.map msg_RequestID batch).

(** The last message of the batch with request id [id]. *)
Definition last_message (batch : list LogMessage) (id : string) : option LogMessage :=
  last (filter (fun m => msg_RequestID m = id) batch).

(* ===================================================================== *)
(** ** processing/worker.go: the consuming loop                           *)
(* ===================================================================== *)

Definition context_DeadlineExceeded : error := "context deadline exceeded".

(** [errors.Is(err, context.DeadlineExceeded)], on error texts. *)
Definition is_DeadlineExceeded (err : error) : bool :=
  String.eqb err context_DeadlineExceeded.

Module WorkerLoop.

(** [New], lines 38-40: the safeguard on the configured batch size. *)
Definition New_BatchSize (cfgBatchSize : Z) : Z :=
  if cfgBatchSize <=? 0 then 100 else cfgBatchSize.

(** The case one turn of the [select] of lines 127-171 takes.  Which
    case is ready is decided outside the worker: the context is done,
    the batch timer has expired, or neither, and then [Consume] is
    called with a context of its own, [consumeCtx]. *)
Inductive Select : Type :=
| CtxDone
| TimerFired
| Default (consumeCtx : Context).

(** The variables of [processMessagesInBatch]: the pending messages,
    their callbacks (a callback may be a nil func), and whether the
    batch timer is running. *)
Record t (W : Type) := mk {
  batchMessages : list LogMessage;
  kafkaAcks : list (option (AckFn W));
  timerRunning : bool
}.
Arguments mk {W} _ _ _.
Arguments batchMessages {W} _.
Arguments kafkaAcks {W} _.
Arguments timerRunning {W} _.

Section Defs.

Context {W : Type} `{!Store W} `{!BlockchainClient W} `{!GoMapRange}.

(** The fields [maxTaskRetries] and [workerConfig.BatchSize] of the
    worker, the number of the goroutine and the consumer. *)
Variable maxTaskRetries : Z.
Variable workerID : Z.
Variable batchSize : Z.
Variable consume : Context -> M W (option LogMessage * option (AckFn W) * option error).

(** [ack(success)] for the callback at index [i]; calling a nil func
    panics. *)
Definition invoke (success : bool) (i : nat) (ack : option (AckFn W)) : M W unit :=
  match ack with
  | Some f => Worker.invoke_ack success i f
  | None => panic "invalid memory address or nil pointer dereference"
  end.

(** [processAndAckBatch], lines 176-191, on the callbacks as the loop
    holds them. *)
Definition processAndAckBatch (batch : list LogMessage)
    (acks : list (option (AckFn W))) : M W unit :=
  let* processingErr := Worker.handleBatch maxTaskRetries batch in
  match processingErr with
  | Some e =>
      run logf ("Worker " +++ GoString.format_int workerID +++ ": Batch failed: " +++ e
                +++ " (nacking " +++ GoString.format_int (Z.of_nat (List.length acks))
                +++ " messages)") in
      for_each (invoke false) 0 acks
  | None =>
      for_each (invoke true) 0 acks
  end.

(** The closure [processBatch], lines 105-124: the timer is stopped and
    drained, the batch is processed and acknowledged, and both slices
    are made anew. *)
Definition processBatch (st : t W) : M W (t W) :=
  if (List.length (batchMessages st) =? 0)%nat then ret st else
  run processAndAckBatch (batchMessages st) (kafkaAcks st) in
  ret (mk [] [] false).

(** One turn of the loop, lines 126-172; [None] when the function
    returns.  [time.Sleep] only delays and leaves no mark. *)
Definition step (sel : Select) (st : t W) : M W (option (t W)) :=
  match sel with
  | CtxDone =>
      run logf ("Worker " +++ GoString.format_int workerID
                +++ ": Context cancelled, stopping.") in
      run if (0 <? List.length (kafkaAcks st))%nat
          then for_each (invoke false) 0 (kafkaAcks st)
          else ret tt in
      ret None
  | TimerFired =>
      (* the receive from [batchTimer.C] takes the expiry *)
      let* st1 := processBatch (mk (batchMessages st) (kafkaAcks st) false) in
      ret (Some st1)
  | Default consumeCtx =>
      let* consumed := consume consumeCtx in
      match consumed with
      | (_, _, Some err) =>
          if is_DeadlineExceeded err || is_Canceled err then ret (Some st)
          else
            run logf ("Worker " +++ GoString.format_int workerID
                      +++ ": Consumer error: " +++ err) in
            ret (Some st)
      | (Some msg, ack, None) =>
          let running :=
            if (List.length (batchMessages st) =? 0)%nat then true
            else timerRunning st in
          let st1 := mk (batchMessages st ++ [msg]) (kafkaAcks st ++ [ack]) running in
          if Z.of_nat (List.length (batchMessages st1)) >=? batchSize
          then let* st2 := processBatch st1 in ret (Some st2)
          else ret (Some st1)
      | (None, _, None) => ret (Some st)
      end
  end.

(** The loop, for as many turns as there are cases in [sels]; it ends
    early when the function returns. *)
Fixpoint loop (sels : list Select) (st : t W) : M W (option (t W)) :=
  match sels with
  | [] => ret (Some st)
  | sel :: rest =>
      let* next := step sel st in
      match next with
      | Some st1 => loop rest st1
      | None => ret None
      end
  end.

(** [processMessagesInBatch], lines 93-173: the loop from two empty
    slices and a stopped timer. *)
Definition processMessagesInBatch (sels : list Select) : M W (option (t W)) :=
  loop sels (mk [] [] false).

End Defs.
End WorkerLoop.

(** What the loop keeps between two turns: as many callbacks as
    messages, fewer than the batch size, and a running timer exactly
    when messages are pending. *)
Definition pending_ok {W : Type} (batchSize : Z) (st : WorkerLoop.t W) : Prop :=
  List.length (WorkerLoop.batchMessages st) = List.length (WorkerLoop.kafkaAcks st)
  /\ Z.of_nat (List.length (WorkerLoop.batchMessages st)) < batchSize
  /\ (WorkerLoop.timerRunning st = true <-> WorkerLoop.batchMessages st <> []).

(** The messages [KafkaConsumer.Consume] handed over in a trace: the
    fetches of a Kafka message whose value deserializes. *)
Definition is_delivery `{!GoLib} (e : Event) : bool :=
  match e with
  | EFetchMessage (inr km) =>
      match json_Unmarshal_LogMessage (km_Value km) with
      | inr _ => true
      | inl _ => false
      end
  | _ => false
  end.

Definition deliveries `{!GoLib} (tr : list Event) : nat :=
  List.length (List.filter is_delivery tr).

(** The messages the loop still holds when it stops after some turns;
    none when the function has returned. *)
Definition pending_count {W : Type} (r : option (WorkerLoop.t W)) : nat :=
  match r with
  | Some st => List.length (WorkerLoop.batchMessages st)
  | None => 0%nat
  end.

(* ===================================================================== *)
(** ** ingestion/service/core/batch_processor.go: the goroutines          *)
(* ===================================================================== *)

(** What [make] can provide depends on the platform and on the memory at
    hand: [make] panics on a negative size and on a size out of range,
    and the process dies when the memory is not there.  [slice_fits n]
    and [chan_fits n] say that a slice of capacity [n] of batch entries,
    and a channel of [n] batches, can be made; a negative size never
    fits. *)
Class GoMake := {
  slice_fits : Z -> bool;
  chan_fits : Z -> bool;
  slice_fits_neg : forall n, n < 0 -> slice_fits n = false;
  chan_fits_neg : forall n, n < 0 -> chan_fits n = false
}.

Module BatcherRun.

(** [NewBatchProcessor], lines 40-63: an empty buffer and an empty flush
    channel, when both can be made (lines 51-52). *)
Definition NewBatchProcessor `{!GoMake} (batchSize flushChannelBuffer : Z)
  : Outcome BatchProcessor.t :=
  if negb (slice_fits batchSize) then Panic "makeslice: cap out of range"
  else if negb (chan_fits flushChannelBuffer) then Panic "makechan: size out of range"
  else Done (BatchProcessor.mk batchSize [] [] (Z.to_nat flushChannelBuffer)).

(** What happens to the batcher, one thing at a time: a call of
    [SubmitLog], a tick of the timer goroutine ([batchTimer], lines
    97-98), or a receive of the flush worker ([batchProcessor], lines
    111-114). *)
Inductive Op : Type :=
| Submit (input : LogInput) (requestID : string)
| Tick
| Receive.

Section Defs.

Context {W : Type} `{!Store W} `{!Producer W} `{!Clock W}.

Definition op (o : Op) (bp : BatchProcessor.t) : M W BatchProcessor.t :=
  match o with
  | Submit input requestID => BatchProcessor.SubmitLog bp input requestID
  | Tick => ret (BatchProcessor.flushIfNeeded bp)
  | Receive => BatchProcessor.flushWorkerStep bp
  end.

Fixpoint ops (l : list Op) (bp : BatchProcessor.t) : M W BatchProcessor.t :=
  match l with
  | [] => ret bp
  | o :: rest => let* bp1 := op o bp in ops rest bp1
  end.

(** The [ctx.Done] case of the [select] of [batchProcessor], lines
    115-125: the buffer is taken and processed, and the goroutine
    returns. *)
Definition doneCase (bp : BatchProcessor.t) : M W BatchProcessor.t :=
  let remaining := BatchProcessor.buffer bp in
  let bp1 := BatchProcessor.set_buffer bp [] in
  run if (0 <? List.length remaining)%nat
      then BatchProcessor.processBatch remaining
      else ret tt in
  ret bp1.

(** [batchProcessor], lines 106-128, from the cancellation of the
    context on.  While a batch waits on the flush channel both cases of
    the [select] are ready and Go picks one of them at random:
    [receives] is the number of times the receive case is picked before
    the [ctx.Done] case is.  With no batch waiting only the [ctx.Done]
    case is ready. *)
Fixpoint batchProcessor (receives : nat) (bp : BatchProcessor.t)
  : M W BatchProcessor.t :=
  match receives, BatchProcessor.flushChan bp with
  | S receives', _ :: _ =>
      let* bp1 := BatchProcessor.flushWorkerStep bp in
      batchProcessor receives' bp1
  | _, _ => doneCase bp
  end.

End Defs.

(** The request ids of the [SubmitLog] calls among [l], in order. *)
Definition submitted (l : list Op) : list string :=
  List.flat_map (fun o => match o with
                          | Submit _ requestID => [requestID]
                          | _ => []
                          end) l.

End BatcherRun.

(** The request ids of the rows handed to [InsertLogStatusBatch] in a
    trace, in order, whatever the call returned. *)
Definition insert_attempts (tr : list Event) : list string :=
  List.flat_map (fun e => match e with
                          | EInsertLogStatusBatch rows _ => List.map ls_RequestID rows
                          | _ => []
                          end) tr.

(** The line [SubmitLog] logs when it drops a full buffer. *)
Definition drop_line : Event := ELog "Flush channel full, will flush on next timer".

Definition is_drop_line (e : Event) : bool :=
  match e with
  | ELog line => String.eqb line "Flush channel full, will flush on next timer"
  | _ => false
  end.

(** The number of times a trace reports a dropped buffer. *)
Definition drops (tr : list Event) : nat := List.length (List.filter is_drop_line tr).

Definition request_ids (l : list batchEntry) : list string := List.map be_requestID l.

(** The input the HTTP handler builds for the receipt service from a
    request and its decoded body, as the service leaves it: with the
    SHA-256 of the content in place of the client's hash. *)
Definition handler_input `{!GoLib} (r : Request) (payload : ReqPayload) : LogInput :=
  {| in_LogContent := rp_LogContent payload;
     in_ClientLogHash := Sha256.hex_sum (rp_LogContent payload);
     in_ClientSourceOrgID :=
       if GoString.is_empty (rq_XClientOrgID r)
       then rp_ClientSourceOrgID payload else rq_XClientOrgID r;
     in_ClientTimestamp :=
       if GoString.is_empty (rp_ClientTimestamp payload) then None
       else match time_Parse_RFC3339Nano (rp_ClientTimestamp payload) with
            | inr ts => Some ts
            | inl _ => None
            end |}.

(* ===================================================================== *)
(** ** ingestion/service/grpc (Server)                                    *)
(* ===================================================================== *)

Module GrpcServer.

(** A protobuf timestamp, as the server looks at it: what [IsValid] and
    [AsTime] return. *)
Record Timestamp := mkTimestamp {
  ts_IsValid : bool;
  ts_AsTime : GoTime.Time
}.

(** [pb.SubmitLogRequest] and [pb.SubmitLogResponse]. *)
Record SubmitLogRequest := mkSubmitLogRequest {
  req_LogContent : string;
  req_ClientLogHash : string;
  req_ClientSourceOrgId : string;
  req_ClientTimestamp : option Timestamp
}.

Record SubmitLogResponse := mkSubmitLogResponse {
  resp_RequestId : string;
  resp_ServerLogHash : string;
  resp_ServerReceivedTimestamp : GoTime.Time;
  resp_Status : string
}.

Section Defs.

Context {W : Type} `{!Clock W} `{!UUIDSource W}.

(** [SubmitLog] of the gRPC server, lines 202-235. *)
Definition SubmitLog (req : SubmitLogRequest) : M W (error + SubmitLogResponse) :=
  run logf "gRPC Server: Received SubmitLog request" in
  (* 1. request to service input *)
  let input := {| in_LogContent := req_LogContent req;
                  in_ClientLogHash := req_ClientLogHash req;
                  in_ClientSourceOrgID := req_ClientSourceOrgId req;
                  in_ClientTimestamp :=
                    match req_ClientTimestamp req with
                    | Some ts => if ts_IsValid ts then Some (ts_AsTime ts) else None
                    | None => None
                    end |} in
  (* 2. service layer *)
  let* res := Service.SubmitLog input in
  match res with
  | inl err =>
      run logf ("gRPC Server: Service layer error: " +++ err) in
      ret (inl ("failed to process log submission: " +++ err))
  | inr result =>
      (* 3. result to response *)
      let response := {| resp_RequestId := res_RequestID result;
                         resp_ServerLogHash := res_ServerLogHash result;
                         resp_ServerReceivedTimestamp := res_ServerReceivedTimestamp result;
                         resp_Status := "ACCEPTED" |} in
      run logf ("gRPC Server: Successfully processed request_id: "
                +++ res_RequestID result) in
      ret (inr response)
  end.

End Defs.
End GrpcServer.

(* ===================================================================== *)
(** ** internal/messaging/producer (KafkaProducer): the single publish    *)
(* ===================================================================== *)

Module KafkaProducerSingle.
Section Defs.

Context {W : Type} `{!KafkaWriter W} `{!GoLib}.

(** [Publish], lines 127-149: one message, written on its own. *)
Definition Publish (msg : LogMessage) (w : W) : W * option error * list ProducerEvent :=
  let kafkaMsg := KafkaProducer.kafka_message msg in
  let (w1, err) := WriteMessages [kafkaMsg] w in
  match err with
  | Some e =>
      (w1, Some ("failed to write to Kafka buffer: " +++ e),
       [ PWriteMessages [kafkaMsg] err;
         PLog ("Failed to send Kafka message to buffer (RequestID: "
               +++ msg_RequestID msg +++ "): " +++ e) ])
  | None => (w1, None, [ PWriteMessages [kafkaMsg] err ])
  end.

End Defs.
End KafkaProducerSingle.

(** The Kafka messages a producer handed to the writer, call by call. *)
Definition writes (evs : list ProducerEvent) : list (list KafkaMessage) :=
  omap (fun e => match e with
                 | PWriteMessages msgs _ => Some msgs
                 | PLog _ => None
                 end) evs.

(* ===================================================================== *)
(** ** config: database, engine and gateway configuration                 *)
(* ===================================================================== *)

Module Config.

(** [DatabaseConfig]. *)
Record DatabaseConfig := mkDatabaseConfig {
  db_DSN : string;
  db_MaxConnections : Z;
  db_MinConnections : Z;
  db_MaxIdleTime : string;
  db_MaxLifetime : string
}.

(** A setter that fills a default returns the new value and the warning
    it prints (without the line feed). *)
Definition default_if {A} (unset : bool) (current fallback : A) (warning : string)
  : A * list string :=
  if unset then (fallback, [warning]) else (current, []).

(** [DatabaseConfig.SetDefaults]: the configuration with its defaults
    and the warnings printed, in order. *)
Definition Database_SetDefaults (c : DatabaseConfig) : DatabaseConfig * list string :=
  let (maxc, w1) :=
    default_if (db_MaxConnections c <=? 0) (db_MaxConnections c) 50
      "Warning: database.max_connections not set or invalid, defaulting to 50" in
  let (minc, w2) :=
    default_if (db_MinConnections c <=? 0) (db_MinConnections c) 10
      "Warning: database.min_connections not set or invalid, defaulting to 10" in
  let (idle, w3) :=
    default_if (GoString.is_empty (db_MaxIdleTime c)) (db_MaxIdleTime c) "1h"
      "Warning: database.max_idle_time not set, defaulting to 1h" in
  let (life, w4) :=
    default_if (GoString.is_empty (db_MaxLifetime c)) (db_MaxLifetime c) "24h"
      "Warning: database.max_lifetime not set, defaulting to 24h" in
  (mkDatabaseConfig (db_DSN c) maxc minc idle life, w1 ++ w2 ++ w3 ++ w4).

(** [DatabaseConfig.Validate]. *)
Definition Database_Validate (c : DatabaseConfig) : option error :=
  if GoString.is_empty (db_DSN c) then Some "database DSN is required"
  else if db_MaxConnections c <=? 0
  then Some "database max_connections must be positive"
  else if db_MinConnections c <? 0
  then Some "database min_connections cannot be negative"
  else if db_MinConnections c >? db_MaxConnections c
  then Some ("database min_connections (" +++ GoString.format_int (db_MinConnections c)
             +++ ") cannot be greater than max_connections ("
             +++ GoString.format_int (db_MaxConnections c) +++ ")")
  else None.

(** [KafkaConsumerConfig] and its [SetDefaults]. *)
Record KafkaConsumerConfig := mkKafkaConsumerConfig {
  kc_Brokers : list string;
  kc_Topic : string;
  kc_GroupID : string;
  kc_Count : Z;
  kc_SessionTimeout : string;
  kc_HeartbeatInterval : string;
  kc_MaxProcessingTime : string;
  kc_AutoOffsetReset : string;
  kc_EnableAutoCommit : bool
}.

Definition KafkaConsumer_SetDefaults (c : KafkaConsumerConfig)
  : KafkaConsumerConfig * list string :=
  let (count, w1) :=
    default_if (kc_Count c <=? 0) (kc_Count c) 1
      "Warning: kafka_consumer.count not set or invalid, defaulting to 1" in
  let (session, w2) :=
    default_if (GoString.is_empty (kc_SessionTimeout c)) (kc_SessionTimeout c) "30s"
      "Warning: kafka_consumer.session_timeout not set, defaulting to 30s" in
  let (heartbeat, w3) :=
    default_if (GoString.is_empty (kc_HeartbeatInterval c)) (kc_HeartbeatInterval c) "3s"
      "Warning: kafka_consumer.heartbeat_interval not set, defaulting to 3s" in
  let (processing, w4) :=
    default_if (GoString.is_empty (kc_MaxProcessingTime c)) (kc_MaxProcessingTime c) "5m"
      "Warning: kafka_consumer.max_processing_time not set, defaulting to 5m" in
  let (reset, w5) :=
    default_if (GoString.is_empty (kc_AutoOffsetReset c)) (kc_AutoOffsetReset c) "earliest"
      "Warning: kafka_consumer.auto_offset_reset not set, defaulting to earliest" in
  (mkKafkaConsumerConfig (kc_Brokers c) (kc_Topic c) (kc_GroupID c) count session
     heartbeat processing reset (kc_EnableAutoCommit c),
   w1 ++ w2 ++ w3 ++ w4 ++ w5).

(** [WorkerConfig] and its [SetDefaults]. *)
Record WorkerConfig := mkWorkerConfig {
  wc_Concurrency : Z;
  wc_BatchSize : Z;
  wc_BatchTimeout : string;
  wc_ConsumerRetryDelay : string;
  wc_BlockchainTimeout : string
}.

Definition Worker_SetDefaults (c : WorkerConfig) : WorkerConfig * list string :=
  let (size, w1) :=
    default_if (wc_BatchSize c <=? 0) (wc_BatchSize c) 100
      "Warning: worker.batch_size not set or invalid, defaulting to 100" in
  let (timeout, w2) :=
    default_if (GoString.is_empty (wc_BatchTimeout c)) (wc_BatchTimeout c) "1s"
      "Warning: worker.batch_timeout not set, defaulting to 1s" in
  let (delay, w3) :=
    default_if (GoString.is_empty (wc_ConsumerRetryDelay c)) (wc_ConsumerRetryDelay c) "5s"
      "Warning: worker.consumer_retry_delay not set, defaulting to 5s" in
  let (chain, w4) :=
    default_if (GoString.is_empty (wc_BlockchainTimeout c)) (wc_BlockchainTimeout c) "15s"
      "Warning: worker.blockchain_timeout not set, defaulting to 15s" in
  (mkWorkerConfig (wc_Concurrency c) size timeout delay chain, w1 ++ w2 ++ w3 ++ w4).

(** [EngineMonitoringConfig] and its [SetDefaults]. *)
Record EngineMonitoringConfig := mkEngineMonitoringConfig {
  em_EnableMetrics : bool;
  em_MetricsPath : string;
  em_HealthCheckPath : string;
  em_LogLevel : string
}.

Definition Monitoring_SetDefaults (c : EngineMonitoringConfig)
  : EngineMonitoringConfig * list string :=
  let (metrics, w1) :=
    default_if (GoString.is_empty (em_MetricsPath c)) (em_MetricsPath c) "/metrics"
      "Warning: monitoring.metrics_path not set, defaulting to /metrics" in
  let (health, w2) :=
    default_if (GoString.is_empty (em_HealthCheckPath c)) (em_HealthCheckPath c) "/health"
      "Warning: monitoring.health_check_path not set, defaulting to /health" in
  let (level, w3) :=
    default_if (GoString.is_empty (em_LogLevel c)) (em_LogLevel c) "info"
      "Warning: monitoring.log_level not set, defaulting to info" in
  (mkEngineMonitoringConfig (em_EnableMetrics c) metrics health level, w1 ++ w2 ++ w3).

(** [EngineConfig]. *)
Record EngineConfig := mkEngineConfig {
  ec_Database : DatabaseConfig;
  ec_KafkaConsumer : KafkaConsumerConfig;
  ec_Worker : WorkerConfig;
  ec_MaxTaskRetries : Z;
  ec_Monitoring : EngineMonitoringConfig;
  ec_BlockchainClientConfigPath : string
}.

(** [LoadEngineConfig]: [file] is what [os.ReadFile] returns for the
    path and [unmarshal] what [yaml.Unmarshal] makes of the data. *)
Definition LoadEngineConfig (path : string) (file : error + string)
    (unmarshal : string -> error + EngineConfig)
  : (error + EngineConfig) * list string :=
  match file with
  | inl err =>
      (inl ("failed to read config file '" +++ path +++ "': " +++ err), [])
  | inr data =>
      match unmarshal data with
      | inl err => (inl ("failed to parse YAML config file: " +++ err), [])
      | inr cfg =>
          let (db, w1) := Database_SetDefaults (ec_Database cfg) in
          let (kc, w2) := KafkaConsumer_SetDefaults (ec_KafkaConsumer cfg) in
          let (wc, w3) := Worker_SetDefaults (ec_Worker cfg) in
          let (em, w4) := Monitoring_SetDefaults (ec_Monitoring cfg) in
          let (retries, w5) :=
            default_if (ec_MaxTaskRetries cfg <=? 0) (ec_MaxTaskRetries cfg) 3
              "Warning: max_task_retries not set or invalid, defaulting to 3" in
          let warnings := w1 ++ w2 ++ w3 ++ w4 ++ w5 in
          match Database_Validate db with
          | Some err => (inl ("database configuration error: " +++ err), warnings)
          | None =>
              (inr (mkEngineConfig db kc wc retries em (ec_BlockchainClientConfigPath cfg)),
               warnings)
          end
      end
  end.

(** [BatchProcessorConfig] and its [SetDefaults]; a [time.Duration] is
    a number of nanoseconds. *)
Record BatchProcessorConfig := mkBatchProcessorConfig {
  bc_BatchSize : Z;
  bc_BatchTimeout : Z;
  bc_MaxBufferSize : Z;
  bc_FlushChannelBuffer : Z
}.

Definition BatchProcessor_SetDefaults (c : BatchProcessorConfig)
  : BatchProcessorConfig * list string :=
  let (size, w1) :=
    default_if (bc_BatchSize c =? 0) (bc_BatchSize c) 100
      "Warning: batch_processor.batch_size not set, defaulting to 100" in
  let (timeout, w2) :=
    default_if (bc_BatchTimeout c =? 0) (bc_BatchTimeout c) 100000000
      "Warning: batch_processor.batch_timeout not set, defaulting to 100ms" in
  let (buffer, w3) :=
    default_if (bc_MaxBufferSize c =? 0) (bc_MaxBufferSize c) 10000
      "Warning: batch_processor.max_buffer_size not set, defaulting to 10000" in
  let (flush, w4) :=
    default_if (bc_FlushChannelBuffer c =? 0) (bc_FlushChannelBuffer c) 100
      "Warning: batch_processor.flush_channel_buffer not set, defaulting to 100" in
  (mkBatchProcessorConfig size timeout buffer flush, w1 ++ w2 ++ w3 ++ w4).

(** [ApiGatewayConfig], with the parts that are only passed on
    ([KafkaProducerConfig], [HttpServerConfig], monitoring) left out. *)
Record ApiGatewayConfig := mkApiGatewayConfig {
  ag_HttpListenAddr : string;
  ag_GrpcListenAddr : string;
  ag_Database : DatabaseConfig;
  ag_BatchProcessor : BatchProcessorConfig
}.

(** [LoadApiGatewayConfig]. *)
Definition LoadApiGatewayConfig (path : string) (file : error + string)
    (unmarshal : string -> error + ApiGatewayConfig)
  : (error + ApiGatewayConfig) * list string :=
  match file with
  | inl err =>
      (inl ("failed to read API Gateway config file '" +++ path +++ "': " +++ err), [])
  | inr data =>
      match unmarshal data with
      | inl err => (inl ("failed to parse API Gateway YAML config file: " +++ err), [])
      | inr cfg =>
          let (db, w1) := Database_SetDefaults (ag_Database cfg) in
          let (bc, w2) := BatchProcessor_SetDefaults (ag_BatchProcessor cfg) in
          let warnings := w1 ++ w2 in
          if GoString.is_empty (ag_HttpListenAddr cfg)
             && GoString.is_empty (ag_GrpcListenAddr cfg)
          then (inl ("configuration error: at least one of http_listen_addr or "
                     +++ "grpc_listen_addr must be configured"), warnings)
          else
            match Database_Validate db with
            | Some err => (inl ("database configuration error: " +++ err), warnings)
            | None =>
                (inr (mkApiGatewayConfig (ag_HttpListenAddr cfg) (ag_GrpcListenAddr cfg)
                        db bc),
                 warnings)
            end
      end
  end.

(** The connection limits [SetDefaults] leaves. *)
Definition effective_max (c : DatabaseConfig) : Z :=
  if db_MaxConnections c <=? 0 then 50 else db_MaxConnections c.

Definition effective_min (c : DatabaseConfig) : Z :=
  if db_MinConnections c <=? 0 then 10 else db_MinConnections c.

End Config.

(* ===================================================================== *)
(** ** blockchain/client/chainmaker/client.go                             *)
(* ===================================================================== *)

Module ChainMaker.

(** The business fields of [ChainMakerConfig]. *)
Record Config := mkConfig {
  ContractName : string;
  SubmitLogMethodName : string;
  ParamKeyLogHash : string;
  ParamKeyLogContent : string;
  ParamKeySenderOrgID : string;
  ParamKeyTimestamp : string;
  FindLogByHashMethodName : string;
  SubmitEventTopic : string;
  SubmitLogsBatchMethodName : string;
  ParamKeyLogsJson : string
}.

(** [common.TxResponse], reduced to the fields in use; the contract
    result is absent ([nil]) or holds the result bytes. *)
Record TxResponse := mkTxResponse {
  tx_Code : Z;
  tx_Message : string;
  tx_ContractResult : option string;
  tx_TxId : string;
  tx_TxBlockHeight : Z
}.

(** [common.TxStatusCode_SUCCESS]. *)
Definition TxStatusCode_SUCCESS : Z := 0.

(** [sdk.ChainClient.InvokeContract]: contract, method and parameters;
    the client always passes an empty transaction id, no timeout and a
    synchronous result. *)
Class SDK (W : Type) := {
  InvokeContract :
    string -> string -> list (string * string) -> W -> W * (error + TxResponse)
}.

(** [json.Marshal] on the entries and [json.Unmarshal] on the results. *)
Class Codec := {
  Marshal_LogEntries : list LogEntry -> string;
  Unmarshal_LogStatusInfos : string -> error + list LogStatusInfo
}.

(** What the client does on the outside. *)
Inductive Call : Type :=
| CInvokeContract (contract method : string) (kvs : list (string * string))
    (res : error + TxResponse)
| CLog (line : string).

Section Defs.

Context {W : Type} `{!SDK W} `{!Codec}.

(** The field [cfg.ChainSpecific] of the client. *)
Variable cfg : Config.

(** [SubmitLogsBatch], lines 128-197.  [json.Marshal] cannot fail on a
    slice of structs of strings. *)
Definition SubmitLogsBatch (entries : list LogEntry) (w : W)
  : W * (error + (BatchProof * list LogStatusInfo)) * list Call :=
  if (List.length entries =? 0)%nat
  then (w, inl "log entry batch cannot be empty", []) else
  if GoString.is_empty (SubmitLogsBatchMethodName cfg)
     || GoString.is_empty (ParamKeyLogsJson cfg)
  then (w, inl "batch configuration fields not set in config", []) else
  let logsJsonStr := Marshal_LogEntries entries in
  let kvs := [(ParamKeyLogsJson cfg, logsJsonStr)] in
  let (w1, invoked) :=
    InvokeContract (ContractName cfg) (SubmitLogsBatchMethodName cfg) kvs w in
  let invocation :=
    CInvokeContract (ContractName cfg) (SubmitLogsBatchMethodName cfg) kvs invoked in
  match invoked with
  | inl err => (w1, inl ("SDK batch invoke failed: " +++ err), [invocation])
  | inr resp =>
      if negb (tx_Code resp =? TxStatusCode_SUCCESS)
      then (w1, inl ("contract batch execution failed: " +++ tx_Message resp
                     +++ " (code: " +++ GoString.format_int (tx_Code resp) +++ ")"),
            [invocation])
      else
        match tx_ContractResult resp with
        | None =>
            (w1, inl ("contract batch execution returned nil result (tx: "
                      +++ tx_TxId resp +++ ")"), [invocation])
        | Some resultJsonBytes =>
            if (String.length resultJsonBytes =? 0)%nat
            then (w1, inl ("contract batch execution returned empty result bytes (tx: "
                           +++ tx_TxId resp +++ ")"), [invocation])
            else
              match Unmarshal_LogStatusInfos resultJsonBytes with
              | inl err =>
                  (w1, inl ("failed to unmarshal contract batch results: " +++ err),
                   [ invocation;
                     CLog ("Failed to unmarshal batch results JSON (TxID: "
                           +++ tx_TxId resp +++ "). Raw result: " +++ resultJsonBytes) ])
              | inr results =>
                  (w1, inr ({| bp_TransactionID := tx_TxId resp;
                               bp_BlockHeight := tx_TxBlockHeight resp |}, results),
                   [invocation])
              end
        end
  end.

(** The client as the [blockchain.BlockchainClient] of the worker. *)
Definition client : BlockchainClient W :=
  Build_BlockchainClient W (fun entries w => (SubmitLogsBatch entries w).1).

End Defs.

(** The invocations among the calls of the client. *)
Definition invocations (calls : list Call)
  : list (string * string * list (string * string) * (error + TxResponse)) :=
  omap (fun c => match c with
                 | CInvokeContract contract method kvs res =>
                     Some (contract, method, kvs, res)
                 | CLog _ => None
                 end) calls.

End ChainMaker.

(* ===================================================================== *)
(** ** blockchain/contracts.md: the log store contract (Go version)       *)
(* ===================================================================== *)

Module LogStoreContract.

Definition Namespace : string := "log_store_v1".
Definition KeyPrefix : string := "log_".
Definition EventTopicLogSubmitted : string := "log_submitted".

Definition StatusErrorValidation : string := "ErrorValidation".
Definition StatusErrorStateCheck : string := "ErrorStateCheck".
Definition StatusErrorPutState : string := "ErrorPutState".

(** The state and event operations of [sdk.Instance]. *)
Class SDK (W : Type) := {
  GetState : string -> string -> W -> W * (error + string);
  PutState : string -> string -> string -> W -> W * option error;
  EmitEvent : string -> list string -> W -> W
}.

(** [json.Unmarshal] on the argument and [json.Marshal] on the results. *)
Class Codec := {
  Unmarshal_LogEntries : string -> error + list LogEntry;
  Marshal_LogStatusInfos : list LogStatusInfo -> string
}.

(** What the contract does on the outside. *)
Inductive Call : Type :=
| CGetState (ns key : string) (res : error + string)
| CPutState (ns key value : string) (res : option error)
| CEmitEvent (topic : string) (data : list string)
| CInfof (line : string).

(** [protogo.Response]: [sdk.Error] or [sdk.Success]. *)
Inductive Response : Type :=
| Error (message : string)
| Success (payload : string).

Section Defs.

Context {W : Type} `{!SDK W} `{!Codec}.

(** One turn of the loop of [submitLogsBatch], lines 350-402: the
    status of the entry and what was done for it. *)
Definition processEntry (entry : LogEntry) (w : W) : W * LogStatusInfo * list Call :=
  if GoString.is_empty (le_LogHash entry) || GoString.is_empty (le_LogContent entry)
     || GoString.is_empty (le_SenderOrgID entry) || GoString.is_empty (le_Timestamp entry)
  then
    (w, {| si_LogHash := le_LogHash entry;
           si_Status := StatusErrorValidation;
           si_Message := "Skipped due to empty fields" |},
     [CInfof ("Validation Error for hash '" +++ le_LogHash entry
              +++ "': Skipped due to empty fields")])
  else
    let storageKey := KeyPrefix +++ le_LogHash entry in
    let (w1, got) := GetState Namespace storageKey w in
    match got with
    | inl err =>
        let message := "Failed to check state: " +++ err in
        (w1, {| si_LogHash := le_LogHash entry;
                si_Status := StatusErrorStateCheck;
                si_Message := message |},
         [ CGetState Namespace storageKey got;
           CInfof ("State check error for hash '" +++ le_LogHash entry
                   +++ "': " +++ message) ])
    | inr value =>
        if (0 <? String.length value)%nat then
          (w1, {| si_LogHash := le_LogHash entry;
                  si_Status := StatusSkippedDuplicate;
                  si_Message := "Skipped duplicate log hash" |},
           [ CGetState Namespace storageKey got;
             CInfof ("Duplicate found for hash '" +++ le_LogHash entry +++ "'") ])
        else
          let storageValue :=
            "org_id=" +++ le_SenderOrgID entry +++ "&ts=" +++ le_Timestamp entry
              +++ "&content=" +++ le_LogContent entry in
          let (w2, put) := PutState Namespace storageKey storageValue w1 in
          match put with
          | Some err =>
              let message := "Failed to put state: " +++ err in
              (w2, {| si_LogHash := le_LogHash entry;
                      si_Status := StatusErrorPutState;
                      si_Message := message |},
               [ CGetState Namespace storageKey got;
                 CPutState Namespace storageKey storageValue put;
                 CInfof ("Put state error for hash '" +++ le_LogHash entry
                         +++ "': " +++ message) ])
          | None =>
              let eventData :=
                [le_LogHash entry; le_SenderOrgID entry; le_Timestamp entry] in
              (EmitEvent EventTopicLogSubmitted eventData w2,
               {| si_LogHash := le_LogHash entry;
                  si_Status := StatusSuccess;
                  si_Message := "Processed successfully" |},
               [ CGetState Namespace storageKey got;
                 CPutState Namespace storageKey storageValue put;
                 CEmitEvent EventTopicLogSubmitted eventData;
                 CInfof ("Successfully processed log hash: " +++ le_LogHash entry) ])
          end
    end.

Fixpoint processEntries (entries : list LogEntry) (w : W)
  : W * list LogStatusInfo * list Call :=
  match entries with
  | [] => (w, [], [])
  | entry :: rest =>
      match processEntry entry w with
      | (w1, info, calls1) =>
          match processEntries rest w1 with
          | (w2, infos, calls2) => (w2, info :: infos, calls1 ++ calls2)
          end
      end
  end.

(** [submitLogsBatch], lines 327-414; [args] is [sdk.Instance.GetArgs()].
    [json.Marshal] cannot fail on a slice of structs of strings. *)
Definition submitLogsBatch (args : gmap string string) (w : W)
  : W * Response * list Call :=
  let started := CInfof "Executing submit_logs_batch (V3)..." in
  match args !! "logs_json" with
  | None => (w, Error "Missing required argument: logs_json", [started])
  | Some logsJSON =>
      if (String.length logsJSON =? 0)%nat
      then (w, Error "Missing required argument: logs_json", [started]) else
      match Unmarshal_LogEntries logsJSON with
      | inl err => (w, Error ("Failed to parse logs_json: " +++ err), [started])
      | inr entries =>
          if (List.length entries =? 0)%nat
          then (w, Error "logs_json array cannot be empty", [started]) else
          match processEntries entries w with
          | (w1, results, calls) =>
              let resultJSON := Marshal_LogStatusInfos results in
              (w1, Success resultJSON,
               [started] ++ calls
               ++ [CInfof ("Batch processing finished. Result JSON length: "
                           +++ GoString.format_int (Z.of_nat (String.length resultJSON)))])
          end
      end
  end.

End Defs.

(** A write is guarded when the read of the same key just before it
    found no value. *)
Fixpoint writes_guarded (calls : list Call) : Prop :=
  match calls with
  | [] => True
  | CGetState ns key (inr value) :: CPutState ns' key' _ _ :: rest =>
      ns' = ns /\ key' = key /\ value = EmptyString /\ writes_guarded rest
  | CPutState _ _ _ _ :: _ => False
  | _ :: rest => writes_guarded rest
  end.

(** An event is announced when it follows a write that succeeded, of the
    key of the hash it carries. *)
Fixpoint events_follow_writes (calls : list Call) : Prop :=
  match calls with
  | [] => True
  | CPutState _ key _ None :: CEmitEvent topic data :: rest =>
      topic = EventTopicLogSubmitted
      /\ (exists h org ts, data = [h; org; ts] /\ key = KeyPrefix +++ h)
      /\ events_follow_writes rest
  | CEmitEvent _ _ :: _ => False
  | _ :: rest => events_follow_writes rest
  end.

End LogStoreContract.

(* ===================================================================== *)
(** ** blockchain/client/chainmaker/client.go: the audit by transaction   *)
(* ===================================================================== *)

Module ChainMakerAudit.

(** [types.AuditData]. *)
Record AuditData := mkAuditData {
  ad_LogHash : string;
  ad_SubmitterOrgID : string;
  ad_Timestamp : string
}.

(** [common.TransactionInfo], reduced to the fields in use; a pointer
    that the code tests for nil is an option.  The events of a contract
    result are taken as decoded: the list holds no nil event. *)
Record ContractEvent := mkContractEvent {
  ev_Topic : string;
  ev_EventData : list string
}.

Record TxResult := mkTxResult {
  txr_Code : Z;
  txr_Message : string;
  txr_ContractResult : option (list ContractEvent)
}.

Record Transaction := mkTransaction { txn_Result : option TxResult }.

Record TransactionInfo := mkTransactionInfo { txi_Transaction : option Transaction }.

(** [sdk.ChainClient.GetTxByTxId]. *)
Class SDK (W : Type) := {
  GetTxByTxId : string -> W -> W * (error + option TransactionInfo)
}.

(** The loop over the events, lines 256-265: the first event on the
    topic decides. *)
Fixpoint scan (topic txHash : string) (events : list ContractEvent) : error + AuditData :=
  match events with
  | [] => inl ("event '" +++ topic +++ "' not found in transaction " +++ txHash)
  | event :: rest =>
      if String.eqb (ev_Topic event) topic then
        match ev_EventData event with
        | [h; org; ts] =>
            inr {| ad_LogHash := h; ad_SubmitterOrgID := org; ad_Timestamp := ts |}
        | eventData =>
            inl ("malformed event data: expected 3 fields, got "
                 +++ GoString.format_int (Z.of_nat (List.length eventData)))
        end
      else scan topic txHash rest
  end.

(** The nil checks of line 249: the result and the events of a
    transaction that has all its parts. *)
Definition complete (txInfo : option TransactionInfo)
  : option (TxResult * list ContractEvent) :=
  match txInfo with
  | None => None
  | Some info =>
      match txi_Transaction info with
      | None => None
      | Some transaction =>
          match txn_Result transaction with
          | None => None
          | Some result =>
              match txr_ContractResult result with
              | None => None
              | Some events => Some (result, events)
              end
          end
      end
  end.

Section Defs.

Context {W : Type} `{!SDK W}.

Variable cfg : ChainMaker.Config.

(** [GetLogByTxHash], lines 241-267. *)
Definition GetLogByTxHash (txHash : string) (w : W) : W * (error + AuditData) :=
  if GoString.is_empty txHash
  then (w, inl "transaction hash cannot be empty") else
  let (w1, got) := GetTxByTxId txHash w in
  match got with
  | inl err => (w1, inl ("SDK get transaction failed: " +++ err))
  | inr txInfo =>
      match complete txInfo with
      | None =>
          (w1, inl ("transaction data is incomplete or nil for tx: " +++ txHash))
      | Some (result, events) =>
          if negb (txr_Code result =? ChainMaker.TxStatusCode_SUCCESS)
          then (w1, inl ("transaction execution failed: " +++ txr_Message result))
          else (w1, scan (ChainMaker.SubmitEventTopic cfg) txHash events)
      end
  end.

End Defs.

(** The events a run of the contract leaves in its transaction. *)
Definition emitted (calls : list LogStoreContract.Call) : list ContractEvent :=
  omap (fun c => match c with
                 | LogStoreContract.CEmitEvent topic data => Some (mkContractEvent topic data)
                 | _ => None
                 end) calls.

(** The first entry of a batch that the contract stored, going by the
    results. *)
Fixpoint first_stored (entries : list LogEntry) (results : list LogStatusInfo)
  : option LogEntry :=
  match entries, results with
  | entry :: entries', info :: results' =>
      if String.eqb (si_Status info) StatusSuccess then Some entry
      else first_stored entries' results'
  | _, _ => None
  end.

End ChainMakerAudit.

(* ===================================================================== *)
(** ** More scenarios                                                     *)
(* ===================================================================== *)

Module Cases.

Import Scenario.

(** A message without a request id. *)
Definition anonymous_batch : list LogMessage := [message EmptyString "h1"].

Definition anonymous_run : Outcome unit * Sim.World * list Event :=
  Worker.processAndAckBatch 3 1 anonymous_batch [Sim.plain_ack "m0"]
    (with_rows [row "r1" "h1" StatusReceived 0]).

(** The state store is down when the worker claims. *)
Definition claim_down : Sim.World :=
  Sim.mkWorld {[ "r1" := row "r1" "h1" StatusReceived 0 ]} [] [] [] []
    (GoTime.mkTime 1761018328 0 0) []
    None (Some "connection refused") None None None None None.

Definition claim_down_run : Outcome unit * Sim.World * list Event :=
  Worker.processAndAckBatch 3 1 [message "r1" "h1"; message "r2" "h2"]
    [Sim.plain_ack "m0"; Sim.plain_ack "m1"] claim_down.

(** A state store that answers a claim with a row nobody asked for. *)
Definition stray_claimed : gmap string LogStatus :=
  {[ "r9" := row "r9" "h9" StatusProcessing 1 ]}.

Definition stray_store : Store Sim.World := {|
  InsertLogStatusBatch := Sim.insert_batch;
  GetAndMarkBatchAsProcessing := fun _ _ w => (w, inr stray_claimed);
  MarkBatchForRetry := Sim.mark_for_retry;
  MarkBatchAsCompleted := Sim.mark_completed_batch;
  MarkBatchAsFailed := Sim.mark_failed_batch
|}.

Definition stray_run : Outcome (option error) * Sim.World * list Event :=
  @Worker.handleBatch Sim.World stray_store Sim.ledger Sim.range 3
    [message "r1" "h1"] Sim.empty.

(** Two rows, and a ledger that answers entry by entry. *)
Definition pair_claimed : gmap string LogStatus :=
  {[ "r1" := row "r1" "h1" StatusProcessing 1;
     "r2" := row "r2" "h2" StatusProcessing 1 ]}.

Definition pair_batch : list LogMessage := [message "r1" "h1"; message "r2" "h2"].

Definition pair_entries : list LogEntry :=
  Eval vm_compute in
    List.map (fun kv => entry (ls_LogHash kv.2)) (map_to_list pair_claimed).

Definition pair_results : list LogStatusInfo :=
  List.map (fun e => mkLogStatusInfo (le_LogHash e) StatusSuccess "Processed successfully")
    pair_entries.

Definition pair : Sim.World :=
  with_ledger (with_rows [row "r1" "h1" StatusReceived 0; row "r2" "h2" StatusReceived 0])
    [inr (mkBatchProof "tx5" 11, pair_results)].

Definition pair_run : Outcome (option error) * Sim.World * list Event :=
  Worker.handleBatch 3 pair_batch pair.

(** Three Kafka messages for the consuming loop, as JSON texts the
    decoder knows. *)
Definition wire (id h : string) : string :=
  Sim.marshal (KafkaProducer.LogMessage_json (message id h)).

Definition wire_lib : GoLib :=
  Sim.lib [ (wire "r1" "h1", message "r1" "h1");
            (wire "r2" "h2", message "r2" "h2");
            (wire "r3" "h3", message "r3" "h3") ] [].

Definition on_wire (id h : string) (offset : Z) : KafkaMessage :=
  mkKafkaMessage id (wire id h) offset.

Definition loop_world : Sim.World :=
  Sim.set_inbox
    (with_ledger
       (with_rows [row "r1" "h1" StatusReceived 0; row "r2" "h2" StatusReceived 0;
                   row "r3" "h3" StatusReceived 0])
       [inr (mkBatchProof "tx5" 11, pair_results)])
    [inr (on_wire "r1" "h1" 40); inr (on_wire "r2" "h2" 41); inr (on_wire "r3" "h3" 42)].

(** Three turns of the loop with a batch size of 2: the first two
    messages are processed as a batch, the third is pending. *)
Definition loop_run
  : Outcome (option (WorkerLoop.t Sim.World)) * Sim.World * list Event :=
  WorkerLoop.processMessagesInBatch 3 1 (WorkerLoop.New_BatchSize 2)
    (@KafkaConsumer.Consume Sim.World Sim.reader wire_lib)
    [ WorkerLoop.Default (mkContext None); WorkerLoop.Default (mkContext None);
      WorkerLoop.Default (mkContext None) ]
    loop_world.

(** The same turns, and then the context is done. *)
Definition loop_stopped_run
  : Outcome (option (WorkerLoop.t Sim.World)) * Sim.World * list Event :=
  @WorkerLoop.processMessagesInBatch Sim.World Sim.store Sim.ledger Sim.range 3 1 2
    (@KafkaConsumer.Consume Sim.World Sim.reader wire_lib)
    [ WorkerLoop.Default (mkContext None); WorkerLoop.Default (mkContext None);
      WorkerLoop.Default (mkContext None); WorkerLoop.CtxDone ]
    loop_world.

(** What is pending after the three turns. *)
Definition loop_pending : WorkerLoop.t Sim.World :=
  WorkerLoop.mk [message "r3" "h3"]
    [Some (KafkaConsumer.ackCallback (on_wire "r3" "h3" 42) (message "r3" "h3"))] true.

(** Two pending messages when the context is done. *)
Definition two_pending : WorkerLoop.t Sim.World :=
  WorkerLoop.mk [message "r1" "h1"; message "r2" "h2"]
    [Some (Sim.plain_ack "m0"); Some (Sim.plain_ack "m1")] true.

(** One good Kafka message in the inbox. *)
Definition good_inbox : Sim.World := Sim.set_inbox Sim.empty [inr (on_wire "r1" "h1" 40)].

Definition good_run
  : Outcome (option LogMessage * option (AckFn Sim.World) * option error)
    * Sim.World * list Event :=
  @KafkaConsumer.Consume Sim.World Sim.reader wire_lib (mkContext None) good_inbox.

(** The batcher with a batch size of 2 and room for one batch on the
    flush channel: two submissions, a tick, a receive, a third
    submission. *)
Definition batcher_ops : list BatcherRun.Op :=
  [ BatcherRun.Submit (be_input (accepted "id-1" "a")) "id-1";
    BatcherRun.Submit (be_input (accepted "id-2" "b")) "id-2";
    BatcherRun.Tick;
    BatcherRun.Receive;
    BatcherRun.Submit (be_input (accepted "id-3" "c")) "id-3" ].

Definition batcher_run : Outcome BatchProcessor.t * Sim.World * list Event :=
  @BatcherRun.ops Sim.World Sim.store
    (@KafkaProducer.producer Sim.World Sim.writer json_lib "log_submissions")
    Sim.clock_inst batcher_ops (BatchProcessor.mk 2 [] [] 1) Sim.empty.

(** The submission of the specification, at the receipt service, and
    the flush of what the service hands over. *)
Definition hello_input : LogInput :=
  {| in_LogContent := "hello";
     in_ClientLogHash := EmptyString;
     in_ClientSourceOrgID := "org-1";
     in_ClientTimestamp := None |}.

Definition hello_handed_over : LogInput :=
  {| in_LogContent := "hello";
     in_ClientLogHash :=
       "2cf24dba5fb0a30e26e83b2ac5b9e29e1b161e5c1fa7425e73043362938b9824";
     in_ClientSourceOrgID := "org-1";
     in_ClientTimestamp := None |}.

Definition nil_uuid : string := "00000000-0000-4000-8000-000000000000".

Definition hello_request : Request :=
  {| rq_Method := "POST";
     rq_ContentType := "application/json";
     rq_XClientOrgID := "org-1";
     rq_ContentLength := Z.of_nat (String.length hello_body);
     rq_Body := hello_body |}.

Definition hello_http_run : Outcome unit * Sim.World * list Event :=
  @LogHandler.SubmitLog Sim.World Sim.clock_inst Sim.uuid_inst http_lib
    hello_request Sim.empty.

Definition hello_service_run : Outcome (error + LogResult) * Sim.World * list Event :=
  @Service.SubmitLog Sim.World Sim.clock_inst Sim.uuid_inst hello_input Sim.empty.

Definition hello_flush_run : Outcome unit * Sim.World * list Event :=
  @BatchProcessor.processBatch Sim.World Sim.store
    (@KafkaProducer.producer Sim.World Sim.writer json_lib "log_submissions")
    Sim.clock_inst [mkBatchEntry hello_handed_over nil_uuid] Sim.empty.

Definition hello_published : LogMessage :=
  {| msg_RequestID := nil_uuid;
     msg_LogContent := "hello";
     msg_LogHash := "2cf24dba5fb0a30e26e83b2ac5b9e29e1b161e5c1fa7425e73043362938b9824";
     msg_SourceOrgID := "org-1";
     msg_ReceivedTimestamp := "2025-10-21T03:45:29Z" |}.

(** Configuration files: an engine file that sets the DSN only, and a
    gateway file with a negative batch size. *)
Definition engine_file : Config.EngineConfig :=
  {| Config.ec_Database :=
       Config.mkDatabaseConfig "postgres://engine@db/logs" 0 0 EmptyString EmptyString;
     Config.ec_KafkaConsumer :=
       Config.mkKafkaConsumerConfig ["kafka:9092"] "log_submissions" "engine" 0
         EmptyString EmptyString EmptyString EmptyString false;
     Config.ec_Worker := Config.mkWorkerConfig 4 0 EmptyString EmptyString EmptyString;
     Config.ec_MaxTaskRetries := 0;
     Config.ec_Monitoring := Config.mkEngineMonitoringConfig false EmptyString EmptyString
                               EmptyString;
     Config.ec_BlockchainClientConfigPath := "./config/blockchain.yml" |}.

Definition engine_loaded : Config.EngineConfig :=
  {| Config.ec_Database :=
       Config.mkDatabaseConfig "postgres://engine@db/logs" 50 10 "1h" "24h";
     Config.ec_KafkaConsumer :=
       Config.mkKafkaConsumerConfig ["kafka:9092"] "log_submissions" "engine" 1
         "30s" "3s" "5m" "earliest" false;
     Config.ec_Worker := Config.mkWorkerConfig 4 100 "1s" "5s" "15s";
     Config.ec_MaxTaskRetries := 3;
     Config.ec_Monitoring := Config.mkEngineMonitoringConfig false "/metrics" "/health" "info";
     Config.ec_BlockchainClientConfigPath := "./config/blockchain.yml" |}.

Definition gateway_file : Config.ApiGatewayConfig :=
  {| Config.ag_HttpListenAddr := ":8080";
     Config.ag_GrpcListenAddr := EmptyString;
     Config.ag_Database :=
       Config.mkDatabaseConfig "postgres://gateway@db/logs" 20 5 "1h" "24h";
     Config.ag_BatchProcessor := Config.mkBatchProcessorConfig (-1) 0 0 0 |}.

Definition gateway_loaded : Config.ApiGatewayConfig :=
  {| Config.ag_HttpListenAddr := ":8080";
     Config.ag_GrpcListenAddr := EmptyString;
     Config.ag_Database :=
       Config.mkDatabaseConfig "postgres://gateway@db/logs" 20 5 "1h" "24h";
     Config.ag_BatchProcessor := Config.mkBatchProcessorConfig (-1) 100000000 10000 100 |}.

(** A stand-in for the runtime of the gateway: up to [2^20] batch
    entries, and up to [2^20] batches on a channel, can be made. *)
Definition machine_fits (n : Z) : bool := (0 <=? n) && (n <=? 1048576).

Definition machine_fits_neg (n : Z) (Hn : n < 0) : machine_fits n = false :=
  @eq_ind_r bool false (fun b : bool => b && (n <=? 1048576) = false) eq_refl
    (0 <=? n) (proj2 (Z.leb_gt 0 n) Hn).

Global Instance machine : GoMake := {|
  slice_fits := machine_fits;
  chan_fits := machine_fits;
  slice_fits_neg := machine_fits_neg;
  chan_fits_neg := machine_fits_neg
|}.

(** A gateway file that sets the listen address and the DSN only. *)
Definition plain_gateway_file : Config.ApiGatewayConfig :=
  {| Config.ag_HttpListenAddr := ":8080";
     Config.ag_GrpcListenAddr := EmptyString;
     Config.ag_Database :=
       Config.mkDatabaseConfig "postgres://gateway@db/logs" 20 5 "1h" "24h";
     Config.ag_BatchProcessor := Config.mkBatchProcessorConfig 0 0 0 0 |}.

(** A batcher at shutdown: two batches wait on the flush channel and
    one entry is in the buffer. *)
Definition at_shutdown : BatchProcessor.t :=
  BatchProcessor.mk 2 [accepted "id-5" "e"]
    [[accepted "id-1" "a"; accepted "id-2" "b"]; [accepted "id-3" "c"; accepted "id-4" "d"]] 2.

Definition shutdown_run (receives : nat)
  : Outcome BatchProcessor.t * Sim.World * list Event :=
  @BatcherRun.batchProcessor Sim.World Sim.store
    (@KafkaProducer.producer Sim.World Sim.writer json_lib "log_submissions")
    Sim.clock_inst receives at_shutdown Sim.empty.

(** A stand-in for the chain state of the contract: a table from
    namespace and key to value, where a key that was never written
    reads as the empty value. *)
Definition chain_key (ns key : string) : string := ns +++ "/" +++ key.

Global Instance chain : LogStoreContract.SDK (gmap string string) := {|
  LogStoreContract.GetState := fun ns key m =>
    (m, inr (default EmptyString (m !! chain_key ns key)));
  LogStoreContract.PutState := fun ns key value m =>
    (<[chain_key ns key := value]> m, None);
  LogStoreContract.EmitEvent := fun _ _ m => m
|}.

(** The same content submitted twice: two rows and two messages with
    distinct request ids and one log hash, in one batch.  The contract
    stores the first entry and skips the second as a duplicate. *)
Definition twin_batch : list LogMessage := [message "r1" "h1"; message "r2" "h1"].

Definition twin_entries : list LogEntry := [entry "h1"; entry "h1"].

Definition twin_results : list LogStatusInfo :=
  [ mkLogStatusInfo "h1" StatusSuccess "Processed successfully";
    mkLogStatusInfo "h1" StatusSkippedDuplicate "Skipped duplicate log hash" ].

Definition twin : Sim.World :=
  with_ledger
    (with_rows [row "r1" "h1" StatusReceived 0; row "r2" "h1" StatusReceived 0])
    [inr (mkBatchProof "tx5" 12, twin_results)].

Definition twin_claimed : gmap string LogStatus :=
  {[ "r1" := row "r1" "h1" StatusProcessing 1;
     "r2" := row "r2" "h1" StatusProcessing 1 ]}.

Definition twin_run : Outcome unit * Sim.World * list Event :=
  Worker.processAndAckBatch 3 1 twin_batch [Sim.plain_ack "m0"; Sim.plain_ack "m1"] twin.

End Cases.

(* ===================================================================== *)
(** * Part II: properties                                                 *)
(* ===================================================================== *)

(** Decompose a membership in a list built from [::] and [++]. *)
Ltac elem_cases H :=
  repeat match type of H with
         | _ ∈ [] => apply elem_of_nil in H; destruct H
         | _ ∈ _ :: _ => apply elem_of_cons in H as [H|H]
         | _ ∈ _ ++ _ => apply elem_of_app in H as [H|H]
         end.

(** ** The library models agree with known values *)

Example sha256_hello :
  Sha256.hex_sum "hello"
  = "2cf24dba5fb0a30e26e83b2ac5b9e29e1b161e5c1fa7425e73043362938b9824".
Proof. vm_compute. reflexivity. Qed.

Example sha256_empty :
  Sha256.hex_sum EmptyString
  = "e3b0c44298fc1c149afbf4c8996fb92427ae41e4649b934ca495991b7852b855".
Proof. vm_compute. reflexivity. Qed.

Example rfc3339_utc :
  GoTime.FormatRFC3339Nano (GoTime.mkTime 1761018328 0 0) = "2025-10-21T03:45:28Z".
Proof. vm_compute. reflexivity. Qed.

Example rfc3339_zone_and_fraction :
  GoTime.FormatRFC3339Nano (GoTime.mkTime 1761018328 123456000 28800)
  = "2025-10-21T11:45:28.123456+08:00".
Proof. vm_compute. reflexivity. Qed.

Example rfc3339_leap_day :
  GoTime.FormatRFC3339Nano (GoTime.mkTime 951782400 999999999 0)
  = "2000-02-29T00:00:00.999999999Z".
Proof. vm_compute. reflexivity. Qed.

Example unix_seconds :
  GoTime.FormatUnixSeconds (GoTime.mkTime 1761018328 0 0) = "1761018328".
Proof. vm_compute. reflexivity. Qed.

(** ** The worker *)

Section WorkerFacts.


Context {W : Type} `{!Store W} `{!BlockchainClient W} `{!GoMapRange}.
Variable maxTaskRetries : Z.

Lemma map_range_elem {V} (m : gmap string V) k v :
  (k, v) ∈ map_range m <-> m !! k = Some v.
Proof.
  rewrite (map_range_perm V m). apply elem_of_map_to_list.
Qed.

Lemma map_range_NoDup {V} (m : gmap string V) : NoDup (map_range m).*1.
Proof.
  rewrite (map_range_perm V m). apply NoDup_fst_map_to_list.
Qed.

(** Rows that are not in PROCESSING leave the accumulator alone. *)
Lemma select_valid_none mm l acc :
  Forall (fun kv : string * LogStatus => ls_Status kv.2 <> StatusProcessing) l ->
  Worker.select_valid mm l acc = Some acc.
Proof.
  induction 1 as [|[k v] l Hx _ IH]; simpl; [done|].
  simpl in Hx. destruct (ls_Status v); try done; apply IH.
Qed.

Lemma select_valid_lookup mm l : forall acc res,
  Worker.select_valid mm l acc = Some res ->
  NoDup l.*1 ->
  forall k v,
    res.1 !! k = Some v <->
    ((k, v) ∈ l /\ ls_Status v = StatusProcessing)
    \/ (acc.1 !! k = Some v /\ forall v', (k, v') ∈ l -> ls_Status v' <> StatusProcessing).
Proof.
  induction l as [|[k0 v0] l IH]; intros acc res Hsel Hnd k v; simpl in *.
  - injection Hsel as <-. split.
    + intros Hk. right. split; [done|]. intros v' Hin. by apply elem_of_nil in Hin.
    + intros [[Hin _]|[Hk _]]; [by apply elem_of_nil in Hin | done].
  - apply NoDup_cons in Hnd as [Hk0 Hnd].
    assert (Hfresh : forall v', (k0, v') ∉ l).
    { intros v' Hin. apply Hk0. apply list_elem_of_fmap. by exists (k0, v'). }
    destruct (ls_Status v0) eqn:Hst.
    1,3,4: rewrite (IH _ _ Hsel Hnd k v); split;
      [ intros [[Hin Hp]|[Hk Hno]];
        [ left; split; [by apply elem_of_cons; right | done]
        | right; split; [done|]; intros v' Hin; apply elem_of_cons in Hin as [Heq|Hin];
          [ injection Heq as -> ->; congruence | by apply Hno ] ]
      | intros [[Hin Hp]|[Hk Hno]];
        [ apply elem_of_cons in Hin as [Heq|Hin];
          [ injection Heq as -> ->; congruence | left; done ]
        | right; split; [done|]; intros v' Hin; apply Hno, elem_of_cons; by right ] ].
    destruct (mm !! k0) as [msg|] eqn:Hmm; [|done].
    rewrite (IH _ _ Hsel Hnd k v). simpl. split.
    + intros [[Hin Hp]|[Hk Hno]].
      * left. split; [by apply elem_of_cons; right | done].
      * destruct (decide (k0 = k)) as [->|Hne].
        -- rewrite lookup_insert_eq in Hk. injection Hk as ->.
           left. split; [apply elem_of_cons; by left | done].
        -- rewrite lookup_insert_ne in Hk by done.
           right. split; [done|]. intros v' Hin.
           apply elem_of_cons in Hin as [Heq|Hin]; [congruence | by apply Hno].
    + intros [[Hin Hp]|[Hk Hno]].
      * apply elem_of_cons in Hin as [Heq|Hin].
        -- injection Heq as -> ->. right. split; [by rewrite lookup_insert_eq|].
           intros v' Hin. by apply Hfresh in Hin.
        -- by left.
      * right. destruct (decide (k0 = k)) as [->|Hne].
        -- exfalso. apply (Hno v0); [apply elem_of_cons; by left | done].
        -- rewrite lookup_insert_ne by done. split; [done|].
           intros v' Hin. apply Hno, elem_of_cons. by right.
Qed.

(** The loop over the claimed rows keeps exactly those in PROCESSING. *)
Lemma select_valid_filter mm (tasks : gmap string LogStatus) vt ve :
  Worker.select_valid mm (map_range tasks) (∅, []) = Some (vt, ve) ->
  vt = claimed_processing tasks.
Proof.
  intros Hsel. apply map_eq. intros k. apply option_eq. intros v.
  rewrite (select_valid_lookup _ _ _ _ Hsel (map_range_NoDup tasks) k v). simpl.
  unfold claimed_processing. rewrite map_lookup_filter_Some. simpl.
  rewrite map_range_elem. split.
  - intros [[? ?]|[Hk _]]; [done | by rewrite lookup_empty in Hk].
  - intros [? ?]. by left.
Qed.


Lemma select_valid_grows mm l : forall acc res,
  Worker.select_valid mm l acc = Some res ->
  (List.length acc.2 <= List.length res.2)%nat /\
  (List.length res.2 = List.length acc.2 -> res = acc).
Proof.
  induction l as [|[k0 v0] l IH]; intros acc res Hsel; simpl in *.
  - injection Hsel as <-. done.
  - destruct (ls_Status v0); try (by apply IH).
    destruct (mm !! k0) as [msg|]; [|done].
    apply IH in Hsel as [Hle Heq]. simpl in *. rewrite length_app in Hle. simpl in Hle.
    split; [lia|]. intros Hlen. lia.
Qed.

Lemma select_valid_no_entries mm (tasks : gmap string LogStatus) vt :
  Worker.select_valid mm (map_range tasks) (∅, []) = Some (vt, []) ->
  claimed_processing tasks = ∅.
Proof.
  intros Hsel. rewrite <- (select_valid_filter _ _ _ _ Hsel).
  apply select_valid_grows in Hsel as [_ Heq]. simpl in Heq.
  specialize (Heq eq_refl). by injection Heq.
Qed.

Lemma handleBatch_handled batch w :
  Worker.handled maxTaskRetries batch (outcome (Worker.handleBatch maxTaskRetries batch w))
                (trace (Worker.handleBatch maxTaskRetries batch w)).
Proof.
  unfold Worker.handleBatch.
  destruct (List.length batch =? 0)%nat eqn:Hb.
  { apply Nat.eqb_eq in Hb. destruct batch; [|done]. by apply Worker.handled_skip. }
  destruct (Worker.collect batch) as [ids mm] eqn:Hc.
  destruct (List.length ids =? 0)%nat eqn:Hi.
  { apply Nat.eqb_eq in Hi. destruct ids; [|done]. apply Worker.handled_skip. by rewrite Hc. }
  unfold bind, call, ret, panic, logf, emit, outcome, trace.
  replace ids with (Worker.collect batch).1 by (by rewrite Hc).
  replace mm with (Worker.collect batch).2 by (by rewrite Hc).
  destruct (GetAndMarkBatchAsProcessing _ _ w) as [w1 [err|tasks]]; simpl.
  { apply Worker.handled_claim_error. }
  destruct (Worker.select_valid _ (map_range tasks) (∅, [])) as [[vt ve]|] eqn:Hsel; simpl.
  2: { by apply Worker.handled_panic. }
  destruct (List.length ve =? 0)%nat eqn:Hve; simpl.
  { apply Nat.eqb_eq in Hve. destruct ve; [|done].
    apply Worker.handled_nothing. by eapply select_valid_no_entries. }
  assert (Hne : ve <> []) by (by destruct ve).
  pose proof (select_valid_filter _ _ _ _ Hsel) as ->.
  destruct (SubmitLogsBatch ve w1) as [w2 [err|[proof results]]]; simpl.
  - destruct (MarkBatchForRetry _ err w2) as [w3 [e|]]; simpl.
    + by apply Worker.handled_ledger_error
        with (lines := ["CRITICAL: MarkBatchForRetry failed: " +++ e]).
    + by apply Worker.handled_ledger_error with (lines := []).
  - pose proof (Worker.handled_resolved maxTaskRetries batch tasks ve proof results) as Hres.
    unfold mark_calls in Hres. simpl in Hres.
    destruct (Worker.resolve proof results (claimed_processing tasks)) as [cs fs]; simpl in *.
    destruct (0 <? List.length cs)%nat; simpl.
    + destruct (MarkBatchAsCompleted cs w2) as [w3 [e1|]]; simpl.
      * destruct (0 <? List.length fs)%nat; simpl.
        -- destruct (MarkBatchAsFailed fs w3) as [w4 [e2|]]; simpl.
           ++ by apply (Hres (Some e1) (Some e2) [_]).
           ++ by apply (Hres (Some e1) None [_]).
        -- by apply (Hres (Some e1) None [_]).
      * destruct (0 <? List.length fs)%nat; simpl.
        -- destruct (MarkBatchAsFailed fs w3) as [w4 [e2|]]; simpl.
           ++ by apply (Hres None (Some e2) [_]).
           ++ by apply (Hres None None []).
        -- by apply (Hres None None []).
    + destruct (0 <? List.length fs)%nat; simpl.
      -- destruct (MarkBatchAsFailed fs w2) as [w4 [e2|]]; simpl.
         ++ by apply (Hres None (Some e2) [_]).
         ++ by apply (Hres None None []).
      -- by apply (Hres None None []).
Qed.

Lemma acks_of_app t1 t2 : acks_of (t1 ++ t2) = acks_of t1 ++ acks_of t2.
Proof. apply omap_app. Qed.

Lemma calls_app t1 t2 : calls (t1 ++ t2) = calls t1 ++ calls t2.
Proof. apply List.filter_app. Qed.

Lemma acks_of_logs lines : acks_of (List.map ELog lines) = [].
Proof. induction lines; simpl; auto. Qed.

Lemma calls_logs lines : calls (List.map ELog lines) = [].
Proof. induction lines; simpl; auto. Qed.

Lemma acks_of_in_ack i evs : acks_of (List.map (EInAck i) evs) = [].
Proof. induction evs; simpl; auto. Qed.

Lemma calls_in_ack i evs : calls (List.map (EInAck i) evs) = [].
Proof. induction evs; simpl; auto. Qed.

Lemma acks_of_mark_calls cs r1 fs r2 : acks_of (mark_calls cs r1 fs r2) = [].
Proof. unfold mark_calls. by do 2 case_match. Qed.

Lemma calls_mark_calls cs r1 fs r2 :
  calls (mark_calls cs r1 fs r2) = mark_calls cs r1 fs r2.
Proof. unfold mark_calls. by do 2 case_match. Qed.

Lemma handled_no_acks batch o tr : Worker.handled maxTaskRetries batch o tr -> acks_of tr = [].
Proof.
  destruct 1; simpl; try done.
  - by rewrite acks_of_logs.
  - by rewrite acks_of_app, acks_of_mark_calls, acks_of_logs.
Qed.

Lemma call_in_calls e tr : e ∈ tr -> is_call e = true -> e ∈ calls tr.
Proof.
  intros Hin Hc. apply list_elem_of_In. apply List.filter_In.
  split; [by apply list_elem_of_In | done].
Qed.

Lemma in_calls e tr : e ∈ calls tr -> e ∈ tr /\ is_call e = true.
Proof.
  intros Hin. apply list_elem_of_In, List.filter_In in Hin as [Hin Hc].
  split; [by apply list_elem_of_In | done].
Qed.

(** The acknowledgement loop invokes every callback once, in order. *)
Lemma for_each_ack_run b (acks : list (AckFn W)) : forall i w,
  outcome (for_each (Worker.invoke_ack b) i acks w) = Done tt /\
  acks_of (trace (for_each (Worker.invoke_ack b) i acks w))
    = List.map (fun j => (j, b)) (List.seq i (List.length acks)) /\
  calls (trace (for_each (Worker.invoke_ack b) i acks w)) = [].
Proof.
  induction acks as [|ack acks IH]; intros i w; simpl; [done|].
  unfold bind, Worker.invoke_ack at 1 3 5.
  destruct (ack b w) as [w1 evs].
  specialize (IH (S i) w1).
  destruct (for_each (Worker.invoke_ack b) (S i) acks w1) as [[o w2] t2].
  unfold outcome, trace in *. simpl in *. destruct IH as (-> & Ha & Hc).
  split; [done|]. split.
  - rewrite acks_of_app, acks_of_in_ack, Ha. done.
  - rewrite calls_app, calls_in_ack, Hc. done.
Qed.

(** A run of [processAndAckBatch]: a run of [handleBatch], then the
    acknowledgements. *)
Lemma processAndAckBatch_run workerID batch acks w :
  exists o htr atr,
    Worker.handled maxTaskRetries batch o htr /\
    trace (Worker.processAndAckBatch maxTaskRetries workerID batch acks w) = htr ++ atr /\
    calls atr = [] /\
    match o with
    | Done None =>
        outcome (Worker.processAndAckBatch maxTaskRetries workerID batch acks w) = Done tt
        /\ acks_of atr = all_acks true (List.length acks)
    | Done (Some _) =>
        outcome (Worker.processAndAckBatch maxTaskRetries workerID batch acks w) = Done tt
        /\ acks_of atr = all_acks false (List.length acks)
    | Panic why =>
        outcome (Worker.processAndAckBatch maxTaskRetries workerID batch acks w) = Panic why
        /\ atr = []
    end.
Proof.
  pose proof (handleBatch_handled batch w) as Hh.
  unfold Worker.processAndAckBatch, bind.
  destruct (Worker.handleBatch maxTaskRetries batch w) as [[o w1] htr].
  unfold outcome, trace in Hh. simpl in Hh.
  exists o, htr. destruct o as [[e|]|why].
  - unfold logf, emit.
    destruct (for_each_ack_run false acks 0%nat w1) as (Ho & Ha & Hc).
    destruct (for_each (Worker.invoke_ack false) 0 acks w1) as [[o2 w2] t2].
    unfold outcome, trace in *. simpl in *.
    eexists. split; [done|]. split; [done|]. split; [done|]. done.
  - destruct (for_each_ack_run true acks 0%nat w1) as (Ho & Ha & Hc).
    destruct (for_each (Worker.invoke_ack true) 0 acks w1) as [[o2 w2] t2].
    unfold outcome, trace in *. simpl in *.
    eexists. split; [done|]. split; [done|]. split; [done|]. done.
  - exists []. unfold outcome, trace. simpl. by rewrite app_nil_r.
Qed.


(** *** The result vector, keyed by log hash *)

Lemma resultsMap_fold_None h l : forall acc : gmap string LogStatusInfo,
  (forall info, info ∈ l -> si_LogHash info <> h) ->
  List.fold_left (fun m res => <[si_LogHash res := res]> m) l acc !! h = acc !! h.
Proof.
  induction l as [|x l IH]; intros acc Hno; simpl; [done|].
  rewrite IH.
  - rewrite lookup_insert_ne; [done|]. apply Hno, elem_of_cons. by left.
  - intros info Hin. apply Hno, elem_of_cons. by right.
Qed.

Lemma resultsMap_fold_Some h info l : forall acc : gmap string LogStatusInfo,
  List.fold_left (fun m res => <[si_LogHash res := res]> m) l acc !! h = Some info ->
  (info ∈ l /\ si_LogHash info = h) \/ acc !! h = Some info.
Proof.
  induction l as [|x l IH]; intros acc Hl; simpl in *; [by right|].
  apply IH in Hl as [[Hin Hh]|Hl].
  - left. split; [apply elem_of_cons; by right | done].
  - destruct (decide (si_LogHash x = h)) as [Heq|Hne].
    + rewrite <- Heq, lookup_insert_eq in Hl. injection Hl as ->.
      left. split; [apply elem_of_cons; by left | done].
    + rewrite lookup_insert_ne in Hl by done. by right.
Qed.

Lemma resultsMap_None results h :
  (forall info, info ∈ results -> si_LogHash info <> h) ->
  Worker.resultsMap results !! h = None.
Proof.
  intros Hno. unfold Worker.resultsMap. by rewrite resultsMap_fold_None.
Qed.

Lemma resultsMap_Some results h info :
  Worker.resultsMap results !! h = Some info ->
  info ∈ results /\ si_LogHash info = h.
Proof.
  intros Hl. apply resultsMap_fold_Some in Hl as [?|Hl]; [done|].
  by rewrite lookup_empty in Hl.
Qed.

Lemma resolved_as_mono proof results id row cs fs cs' fs' :
  Worker.resolved_as proof results id row cs fs ->
  (forall c, c ∈ cs -> c ∈ cs') -> (forall f, f ∈ fs -> f ∈ fs') ->
  Worker.resolved_as proof results id row cs' fs'.
Proof.
  unfold Worker.resolved_as. intros Hr Hc Hf.
  destruct (Worker.resultsMap results !! ls_LogHash row) as [info|]; [|auto].
  destruct (String.eqb (si_Status info) StatusSuccess); auto.
Qed.

Lemma resolve_fold proof results l : forall acc,
  let res := List.fold_left
               (Worker.resolve_step proof (Worker.resultsMap results)) l acc in
  (forall c, c ∈ acc.1 -> c ∈ res.1) /\
  (forall f, f ∈ acc.2 -> f ∈ res.2) /\
  (forall id row, (id, row) ∈ l -> Worker.resolved_as proof results id row res.1 res.2).
Proof.
  induction l as [|[k v] l IH]; intros acc; simpl.
  - split; [done|]. split; [done|]. intros id row Hin. by apply elem_of_nil in Hin.
  - specialize (IH (Worker.resolve_step proof (Worker.resultsMap results) acc (k, v))).
    simpl in IH. destruct IH as (Hc & Hf & Hr).
    assert (Hstep : (forall c, c ∈ acc.1 ->
               c ∈ (Worker.resolve_step proof (Worker.resultsMap results) acc (k, v)).1) /\
            (forall f, f ∈ acc.2 ->
               f ∈ (Worker.resolve_step proof (Worker.resultsMap results) acc (k, v)).2) /\
            Worker.resolved_as proof results k v
              (Worker.resolve_step proof (Worker.resultsMap results) acc (k, v)).1
              (Worker.resolve_step proof (Worker.resultsMap results) acc (k, v)).2).
    { unfold Worker.resolve_step, Worker.resolved_as.
      destruct (Worker.resultsMap results !! ls_LogHash v) as [info|]; simpl.
      - destruct (String.eqb (si_Status info) StatusSuccess); simpl.
        + split; [intros; apply elem_of_app; by left|]. split; [done|].
          apply elem_of_app. right. apply list_elem_of_singleton. done.
        + split; [done|]. split; [intros; apply elem_of_app; by left|].
          apply elem_of_app. right. apply list_elem_of_singleton. done.
      - split; [done|]. split; [intros; apply elem_of_app; by left|].
        apply elem_of_app. right. apply list_elem_of_singleton. done. }
    destruct Hstep as (Hc1 & Hf1 & Hr1).
    split; [auto|]. split; [auto|].
    intros id row Hin. apply elem_of_cons in Hin as [Heq|Hin].
    + injection Heq as -> ->. eapply resolved_as_mono; eauto.
    + by apply Hr.
Qed.

Lemma resolve_covers proof results (vt : gmap string LogStatus) id row :
  vt !! id = Some row ->
  Worker.resolved_as proof results id row
    (Worker.resolve proof results vt).1 (Worker.resolve proof results vt).2.
Proof.
  intros Hl. unfold Worker.resolve.
  apply (resolve_fold proof results (map_range vt) ([], [])).
  by apply map_range_elem.
Qed.

Lemma resolved_as_named proof results id row cs fs :
  Worker.resolved_as proof results id row cs fs ->
  id ∈ List.map cr_RequestID cs \/ id ∈ List.map fr_RequestID fs.
Proof.
  unfold Worker.resolved_as. intros Hr.
  destruct (Worker.resultsMap results !! ls_LogHash row) as [info|].
  - destruct (String.eqb (si_Status info) StatusSuccess).
    + left. apply list_elem_of_In, List.in_map_iff. eexists. split; [|by apply list_elem_of_In]. done.
    + right. apply list_elem_of_In, List.in_map_iff. eexists. split; [|by apply list_elem_of_In]. done.
  - right. apply list_elem_of_In, List.in_map_iff. eexists. split; [|by apply list_elem_of_In]. done.
Qed.


Lemma not_call_in_logs e lines : e ∈ List.map ELog lines -> is_call e = false.
Proof.
  intros Hin. apply list_elem_of_In, List.in_map_iff in Hin as (l & <- & _). done.
Qed.

Lemma call_in_prefix e htr atr :
  e ∈ htr ++ atr -> calls atr = [] -> is_call e = true -> e ∈ htr.
Proof.
  intros Hin Hc He. apply elem_of_app in Hin as [Hin|Hin]; [done|].
  pose proof (call_in_calls _ _ Hin He) as Hin'. rewrite Hc in Hin'.
  by apply elem_of_nil in Hin'.
Qed.

Lemma in_mark_calls e cs r1 fs r2 :
  e ∈ mark_calls cs r1 fs r2 ->
  (e = EMarkBatchAsCompleted cs r1 /\ cs <> []) \/
  (e = EMarkBatchAsFailed fs r2 /\ fs <> []).
Proof.
  unfold mark_calls. intros Hin. apply elem_of_app in Hin as [Hin|Hin].
  - destruct cs; simpl in Hin; [by apply elem_of_nil in Hin|].
    apply list_elem_of_singleton in Hin. by left.
  - destruct fs; simpl in Hin; [by apply elem_of_nil in Hin|].
    apply list_elem_of_singleton in Hin. by right.
Qed.

Lemma no_processing_Forall (tasks : gmap string LogStatus) :
  (forall id row, tasks !! id = Some row -> ls_Status row <> StatusProcessing) ->
  Forall (fun kv : string * LogStatus => ls_Status kv.2 <> StatusProcessing)
         (map_range tasks).
Proof.
  intros Hno. apply Forall_forall. intros [k v] Hin.
  apply map_range_elem in Hin. by apply (Hno k).
Qed.

(** C7: when no row returned by the claim has status [PROCESSING], the
    worker makes no call besides the claim (no ledger call, no
    completion or failure update), acknowledges every pending message
    positively, in order, and returns. *)
Theorem nothing_claimed_is_acked workerID batch acks w ids tasks :
  EGetAndMarkBatchAsProcessing ids maxTaskRetries (inr tasks)
    ∈ trace (Worker.processAndAckBatch maxTaskRetries workerID batch acks w) ->
  (forall id row, tasks !! id = Some row -> ls_Status row <> StatusProcessing) ->
  outcome (Worker.processAndAckBatch maxTaskRetries workerID batch acks w) = Done tt
  /\ calls (trace (Worker.processAndAckBatch maxTaskRetries workerID batch acks w))
     = [EGetAndMarkBatchAsProcessing ids maxTaskRetries (inr tasks)]
  /\ acks_of (trace (Worker.processAndAckBatch maxTaskRetries workerID batch acks w))
     = all_acks true (List.length acks).
Proof.
  intros Hin Hno.
  destruct (processAndAckBatch_run workerID batch acks w)
    as (o & htr & atr & Hh & Htr & Hc & Ho).
  rewrite Htr in Hin |- *.
  apply call_in_prefix in Hin; [|done..].
  pose proof (select_valid_none (Worker.collect batch).2 _ (∅, [])
                (no_processing_Forall tasks Hno)) as Hsel.
  pose proof (handled_no_acks _ _ _ Hh) as Hna.
  rewrite calls_app, acks_of_app, Hc, Hna, app_nil_r.
  destruct Hh as [Hskip|err|tasks' why Hp|tasks' Hnone
                 |tasks' entries err res lines Hs Hne
                 |tasks' entries proof results r1 r2 lines Hs Hne cf].
  - by apply elem_of_nil in Hin.
  - apply list_elem_of_singleton in Hin. discriminate.
  - apply list_elem_of_singleton in Hin. injection Hin as -> ->. congruence.
  - apply list_elem_of_singleton in Hin. injection Hin as -> ->.
    destruct Ho as [-> ->]. done.
  - elem_cases Hin; try discriminate;
      try (apply in_mark_calls in Hin as [[Hin _]|[Hin _]]; discriminate);
      try (by apply not_call_in_logs in Hin).
    injection Hin as -> ->. rewrite Hsel in Hs. injection Hs as _ <-. done.
  - elem_cases Hin; try discriminate;
      try (apply in_mark_calls in Hin as [[Hin _]|[Hin _]]; discriminate);
      try (by apply not_call_in_logs in Hin).
    injection Hin as -> ->. rewrite Hsel in Hs. injection Hs as _ <-. done.
Qed.

(** C4: when [SubmitLogsBatch] returns a top-level error, the calls of
    the run are the claim, the ledger call, and one [MarkBatchForRetry]
    carrying the error text and the request ids of exactly the rows
    claimed into [PROCESSING] (in the order the map is ranged over); no
    completion or failure update is made and every pending message is
    acknowledged negatively. *)
Theorem ledger_error_is_nacked workerID batch acks w entries err :
  ESubmitLogsBatch entries (inl err)
    ∈ trace (Worker.processAndAckBatch maxTaskRetries workerID batch acks w) ->
  exists tasks retryIDs res,
    calls (trace (Worker.processAndAckBatch maxTaskRetries workerID batch acks w))
      = [ EGetAndMarkBatchAsProcessing (Worker.collect batch).1 maxTaskRetries (inr tasks);
          ESubmitLogsBatch entries (inl err);
          EMarkBatchForRetry retryIDs err res ]
    /\ retryIDs ≡ₚ (map_to_list (claimed_processing tasks)).*1
    /\ acks_of (trace (Worker.processAndAckBatch maxTaskRetries workerID batch acks w))
       = all_acks false (List.length acks)
    /\ outcome (Worker.processAndAckBatch maxTaskRetries workerID batch acks w) = Done tt.
Proof.
  intros Hin.
  destruct (processAndAckBatch_run workerID batch acks w)
    as (o & htr & atr & Hh & Htr & Hc & Ho).
  rewrite Htr in Hin |- *.
  apply call_in_prefix in Hin; [|done..].
  pose proof (handled_no_acks _ _ _ Hh) as Hna.
  rewrite calls_app, acks_of_app, Hc, Hna, app_nil_r.
  destruct Hh as [Hskip|err'|tasks' why Hp|tasks' Hnone
                 |tasks' entries' err' res lines Hs Hne
                 |tasks' entries' proof results r1 r2 lines Hs Hne cf].
  - by apply elem_of_nil in Hin.
  - apply list_elem_of_singleton in Hin. discriminate.
  - apply list_elem_of_singleton in Hin. discriminate.
  - apply list_elem_of_singleton in Hin. discriminate.
  - elem_cases Hin; try discriminate;
      try (apply in_mark_calls in Hin as [[Hin _]|[Hin _]]; discriminate);
      try (by apply not_call_in_logs in Hin).
    injection Hin as -> ->.
    exists tasks', (Worker.getValidRequestIDs (claimed_processing tasks')), res.
    destruct Ho as [-> ->]. simpl. rewrite calls_logs.
    split; [done|]. split; [|done].
    unfold Worker.getValidRequestIDs.
    apply fmap_Permutation, map_range_perm.
  - elem_cases Hin; try discriminate;
      try (apply in_mark_calls in Hin as [[Hin _]|[Hin _]]; discriminate);
      try (by apply not_call_in_logs in Hin).
Qed.


Lemma completed_in_mark_calls c cs r1 fs r2 :
  c ∈ cs -> EMarkBatchAsCompleted cs r1 ∈ mark_calls cs r1 fs r2.
Proof.
  intros Hin. unfold mark_calls. apply elem_of_app. left.
  destruct cs; [by apply elem_of_nil in Hin|]. simpl. apply elem_of_cons. by left.
Qed.

Lemma failed_in_mark_calls f cs r1 fs r2 :
  f ∈ fs -> EMarkBatchAsFailed fs r2 ∈ mark_calls cs r1 fs r2.
Proof.
  intros Hin. unfold mark_calls. apply elem_of_app. right.
  destruct fs; [by apply elem_of_nil in Hin|]. simpl. apply elem_of_cons. by left.
Qed.

(** After a successful ledger call every row claimed into
    [PROCESSING] is resolved by the lookup of its log hash in
    [resultsMap], which keeps one result for each hash: a [Success]
    result gives a completion record with the transaction id and block
    height of the batch; any other status gives a failure record with
    the status and message of the ledger; a log hash that no result
    carries gives a failure record with the missing-result message
    naming the log hash and the transaction id.  The records are the
    arguments of the update calls of the run. *)
Theorem claimed_rows_are_resolved batch w entries proof results :
  ESubmitLogsBatch entries (inr (proof, results))
    ∈ trace (Worker.handleBatch maxTaskRetries batch w) ->
  exists tasks cs fs r1 r2,
    calls (trace (Worker.handleBatch maxTaskRetries batch w))
      = [ EGetAndMarkBatchAsProcessing (Worker.collect batch).1 maxTaskRetries (inr tasks);
          ESubmitLogsBatch entries (inr (proof, results)) ]
        ++ mark_calls cs r1 fs r2
    /\ forall id row,
         claimed_processing tasks !! id = Some row ->
         (forall info,
             Worker.resultsMap results !! ls_LogHash row = Some info ->
             si_Status info = StatusSuccess ->
             mkCompletionRecord id (bp_TransactionID proof) (si_LogHash info)
               (bp_BlockHeight proof) ∈ cs)
         /\ (forall info,
             Worker.resultsMap results !! ls_LogHash row = Some info ->
             si_Status info <> StatusSuccess ->
             mkFailureRecord id
               ("Contract failed: " +++ si_Status info +++ " - " +++ si_Message info) ∈ fs)
         /\ ((forall info, info ∈ results -> si_LogHash info <> ls_LogHash row) ->
             mkFailureRecord id
               ("Missing result for log_hash " +++ ls_LogHash row
                  +++ " (TxID: " +++ bp_TransactionID proof +++ ")") ∈ fs).
Proof.
  intros Hin.
  pose proof (handleBatch_handled batch w) as Hh.
  revert Hin Hh.
  generalize (trace (Worker.handleBatch maxTaskRetries batch w)) as tr.
  generalize (outcome (Worker.handleBatch maxTaskRetries batch w)) as o.
  intros o tr Hin Hh.
  destruct Hh as [Hskip|err'|tasks' why Hp|tasks' Hnone
                 |tasks' entries' err' res lines Hs Hne
                 |tasks' entries' proof' results' r1 r2 lines Hs Hne cf].
  - by apply elem_of_nil in Hin.
  - apply list_elem_of_singleton in Hin. discriminate.
  - apply list_elem_of_singleton in Hin. discriminate.
  - apply list_elem_of_singleton in Hin. discriminate.
  - elem_cases Hin; try discriminate;
      try (apply in_mark_calls in Hin as [[Hin _]|[Hin _]]; discriminate);
      try (by apply not_call_in_logs in Hin).
  - elem_cases Hin; try discriminate;
      try (apply in_mark_calls in Hin as [[Hin _]|[Hin _]]; discriminate);
      try (by apply not_call_in_logs in Hin).
    injection Hin as -> -> ->.
    exists tasks', cf.1, cf.2, r1, r2. split.
    { simpl. by rewrite calls_app, calls_mark_calls, calls_logs, app_nil_r. }
    intros id row Hrow.
    pose proof (resolve_covers proof' results' _ id row Hrow) as Hr.
    fold cf in Hr. unfold Worker.resolved_as in Hr.
    split; [|split].
    + intros info Hinfo Hst. rewrite Hinfo in Hr.
      rewrite Hst in Hr. by rewrite String.eqb_refl in Hr.
    + intros info Hinfo Hst. rewrite Hinfo in Hr.
      apply String.eqb_neq in Hst. by rewrite Hst in Hr.
    + intros Hno. by rewrite (resultsMap_None _ _ Hno) in Hr.
Qed.

Lemma not_in_all_acks_false i n : (i, true) ∉ all_acks false n.
Proof.
  unfold all_acks. intros Hin.
  apply list_elem_of_In, List.in_map_iff in Hin as (j & Heq & _). discriminate.
Qed.

(** C1, as amended: in a run that acknowledges positively, every store
    and ledger call precedes every acknowledgement, and for every row
    claimed into [PROCESSING] a completion or failure update naming it
    has been called and has returned, with whatever result. *)
Theorem positive_ack_follows_mark_calls workerID batch acks w :
  ack_after_marks (fun _ => True)
    (trace (Worker.processAndAckBatch maxTaskRetries workerID batch acks w)).
Proof.
  intros [i Hi].
  destruct (processAndAckBatch_run workerID batch acks w)
    as (o & htr & atr & Hh & Htr & Hc & Ho).
  rewrite Htr in Hi |- *.
  pose proof (handled_no_acks _ _ _ Hh) as Hna.
  rewrite acks_of_app, Hna in Hi. simpl in Hi.
  split; [by exists htr, atr|].
  intros ids mr tasks id row Hin Hrow.
  apply call_in_prefix in Hin; [|done..].
  destruct Hh as [Hskip|err'|tasks' why Hp|tasks' Hnone
                 |tasks' entries' err' res lines Hs Hne
                 |tasks' entries' proof' results' r1 r2 lines Hs Hne cf].
  - by apply elem_of_nil in Hin.
  - destruct Ho as [_ Ho]. rewrite Ho in Hi. by apply not_in_all_acks_false in Hi.
  - destruct Ho as [_ ->]. by apply elem_of_nil in Hi.
  - apply list_elem_of_singleton in Hin. injection Hin as -> -> ->.
    rewrite Hnone in Hrow. by rewrite lookup_empty in Hrow.
  - destruct Ho as [_ Ho]. rewrite Ho in Hi. by apply not_in_all_acks_false in Hi.
  - elem_cases Hin; try discriminate;
      try (apply in_mark_calls in Hin as [[Hin _]|[Hin _]]; discriminate);
      try (by apply not_call_in_logs in Hin).
    injection Hin as -> -> ->.
    pose proof (resolve_covers proof' results' _ id row Hrow) as Hr.
    fold cf in Hr.
    pose proof (resolved_as_named _ _ _ _ _ _ Hr) as [Hid|Hid].
    + exists (EMarkBatchAsCompleted cf.1 r1), r1. split; [|done].
      apply elem_of_app. left. do 2 (apply elem_of_cons; right).
      apply elem_of_app. left.
      apply list_elem_of_In, List.in_map_iff in Hid as (c & _ & Hc').
      eapply completed_in_mark_calls. by apply list_elem_of_In.
    + exists (EMarkBatchAsFailed cf.2 r2), r2. split; [|done].
      apply elem_of_app. left. do 2 (apply elem_of_cons; right).
      apply elem_of_app. left.
      apply list_elem_of_In, List.in_map_iff in Hid as (c & _ & Hc').
      eapply failed_in_mark_calls. by apply list_elem_of_In.
Qed.

End WorkerFacts.

(** *** Runs of the worker in concrete worlds *)

Section WorkerRuns.

Import Scenario.

(** The ledger accepts the entry and the completion update fails: the
    failure is logged and the message is acknowledged positively. *)
Example lost_update_trace :
  trace lost_update_run
  = [ EGetAndMarkBatchAsProcessing ["r1"] 3
        (inr {[ "r1" := row "r1" "h1" StatusProcessing 1 ]});
      ESubmitLogsBatch [entry "h1"]
        (inr (mkBatchProof "tx1" 7, [mkLogStatusInfo "h1" StatusSuccess "ok"]));
      EMarkBatchAsCompleted [mkCompletionRecord "r1" "tx1" "h1" 7] (Some "connection reset");
      ELog "DB update errors: completion update failed: connection reset";
      EAck 0 true;
      EInAck 0 (ALog "m0 ACK") ].
Proof. vm_compute. reflexivity. Qed.

(** At that positive acknowledgement the row is still [PROCESSING]. *)
Example lost_update_row :
  Sim.rows (final lost_update_run) !! "r1" = Some (row "r1" "h1" StatusProcessing 1).
Proof. vm_compute. reflexivity. Qed.

(** C1, as stated, fails: the run acknowledges positively although the
    only terminal update of the claimed row returned an error. *)
Lemma positive_ack_without_commit :
  ~ ack_after_marks (fun res => res = None) (trace lost_update_run).
Proof.
  rewrite lost_update_trace. intros Hclaim.
  destruct Hclaim as [_ Hmarks].
  { exists 0%nat. simpl. apply elem_of_cons. by left. }
  destruct (Hmarks ["r1"] 3 {[ "r1" := row "r1" "h1" StatusProcessing 1 ]}
              "r1" (row "r1" "h1" StatusProcessing 1))
    as (e & res & He & Hm & Hres).
  { apply elem_of_cons. by left. }
  { unfold claimed_processing. apply map_lookup_filter_Some. split; [|done].
    apply lookup_singleton_eq. }
  subst res.
  repeat (apply elem_of_cons in He as [->|He]); try (by apply elem_of_nil in He);
    simpl in Hm; try done.
  by destruct Hm.
Qed.

Lemma positive_ack_follows_mark_calls_witness :
  (exists i, (i, true) ∈ acks_of (trace lost_update_run))
  /\ ack_after_marks (fun _ => True) (trace lost_update_run).
Proof.
  split.
  - exists 0%nat. vm_compute. constructor.
  - exact (positive_ack_follows_mark_calls 3 1 [message "r1" "h1"]
             [Sim.plain_ack "m0"] lost_update).
Defined.

Lemma nothing_claimed_is_acked_witness :
  EGetAndMarkBatchAsProcessing ["r1"] 3 (inr at_cap_claimed) ∈ trace at_cap_run
  /\ (forall id r, at_cap_claimed !! id = Some r -> ls_Status r <> StatusProcessing)
  /\ outcome at_cap_run = Done tt
  /\ calls (trace at_cap_run)
     = [ EGetAndMarkBatchAsProcessing ["r1"] 3 (inr at_cap_claimed) ]
  /\ acks_of (trace at_cap_run) = all_acks true 1.
Proof.
  assert (Hin : EGetAndMarkBatchAsProcessing ["r1"] 3 (inr at_cap_claimed)
                  ∈ trace at_cap_run).
  { vm_compute. constructor. }
  assert (Hno : forall id r,
             at_cap_claimed !! id = Some r -> ls_Status r <> StatusProcessing).
  { intros id r Hl. unfold at_cap_claimed in Hl.
    apply lookup_singleton_Some in Hl as [_ <-]. discriminate. }
  split; [exact Hin|]. split; [exact Hno|].
  exact (nothing_claimed_is_acked 3 1 [message "r1" "h1"] [Sim.plain_ack "m0"] at_cap
           ["r1"] at_cap_claimed Hin Hno).
Defined.

Example ledger_down_calls :
  calls (trace ledger_down_run)
  = [ EGetAndMarkBatchAsProcessing ["r1"; "r2"] 3
        (inr {[ "r1" := row "r1" "h1" StatusProcessing 1 ]});
      ESubmitLogsBatch [entry "h1"] (inl "rpc timeout");
      EMarkBatchForRetry ["r1"] "rpc timeout" None ].
Proof. vm_compute. reflexivity. Qed.

Lemma ledger_error_is_nacked_witness :
  ESubmitLogsBatch [entry "h1"] (inl "rpc timeout") ∈ trace ledger_down_run
  /\ exists tasks retryIDs res,
      calls (trace ledger_down_run)
        = [ EGetAndMarkBatchAsProcessing
              (Worker.collect [message "r1" "h1"; message "r2" "h2"]).1 3 (inr tasks);
            ESubmitLogsBatch [entry "h1"] (inl "rpc timeout");
            EMarkBatchForRetry retryIDs "rpc timeout" res ]
      /\ retryIDs ≡ₚ (map_to_list (claimed_processing tasks)).*1
      /\ acks_of (trace ledger_down_run) = all_acks false 2
      /\ outcome ledger_down_run = Done tt.
Proof.
  assert (Hin : ESubmitLogsBatch [entry "h1"] (inl "rpc timeout") ∈ trace ledger_down_run).
  { vm_compute. constructor. constructor. }
  split; [exact Hin|].
  exact (ledger_error_is_nacked 3 1 [message "r1" "h1"; message "r2" "h2"]
           [Sim.plain_ack "m0"; Sim.plain_ack "m1"] ledger_down
           [entry "h1"] "rpc timeout" Hin).
Defined.

(** One success, one duplicate, one missing result (the order of the
    entries is that of the map enumeration). *)
Example mixed_calls :
  calls (trace mixed_run)
  = [ EGetAndMarkBatchAsProcessing ["r1"; "r2"; "r3"] 3 (inr mixed_claimed);
      ESubmitLogsBatch [entry "h3"; entry "h1"; entry "h2"]
        (inr (mkBatchProof "tx9" 42, mixed_results));
      EMarkBatchAsCompleted [mkCompletionRecord "r1" "tx9" "h1" 42] None;
      EMarkBatchAsFailed
        [ mkFailureRecord "r3" "Missing result for log_hash h3 (TxID: tx9)";
          mkFailureRecord "r2"
            "Contract failed: SkippedDuplicate - Skipped duplicate log hash" ]
        None ].
Proof. vm_compute. reflexivity. Qed.

Lemma claimed_rows_are_resolved_witness :
  ESubmitLogsBatch [entry "h3"; entry "h1"; entry "h2"]
    (inr (mkBatchProof "tx9" 42, mixed_results)) ∈ trace mixed_run
  /\ exists tasks cs fs r1 r2,
      calls (trace mixed_run)
        = [ EGetAndMarkBatchAsProcessing (Worker.collect mixed_batch).1 3 (inr tasks);
            ESubmitLogsBatch [entry "h3"; entry "h1"; entry "h2"]
              (inr (mkBatchProof "tx9" 42, mixed_results)) ]
          ++ mark_calls cs r1 fs r2
      /\ forall id r,
           claimed_processing tasks !! id = Some r ->
           (forall info,
               Worker.resultsMap mixed_results !! ls_LogHash r = Some info ->
               si_Status info = StatusSuccess ->
               mkCompletionRecord id "tx9" (si_LogHash info) 42 ∈ cs)
           /\ (forall info,
               Worker.resultsMap mixed_results !! ls_LogHash r = Some info ->
               si_Status info <> StatusSuccess ->
               mkFailureRecord id
                 ("Contract failed: " +++ si_Status info +++ " - " +++ si_Message info) ∈ fs)
           /\ ((forall info, info ∈ mixed_results -> si_LogHash info <> ls_LogHash r) ->
               mkFailureRecord id
                 ("Missing result for log_hash " +++ ls_LogHash r
                    +++ " (TxID: " +++ "tx9" +++ ")") ∈ fs).
Proof.
  assert (Hin : ESubmitLogsBatch [entry "h3"; entry "h1"; entry "h2"]
                  (inr (mkBatchProof "tx9" 42, mixed_results)) ∈ trace mixed_run).
  { vm_compute. constructor. constructor. }
  split; [exact Hin|].
  exact (claimed_rows_are_resolved 3 mixed_batch mixed
           [entry "h3"; entry "h1"; entry "h2"] (mkBatchProof "tx9" 42) mixed_results Hin).
Defined.

End WorkerRuns.

(** ** The ingestion batcher *)

Lemma in_map_inv {A} (f : A -> Event) (l : list A) e :
  e ∈ List.map f l -> exists a, a ∈ l /\ e = f a.
Proof.
  intros Hin. apply list_elem_of_In, List.in_map_iff in Hin as (a & <- & Ha).
  exists a. split; [by apply list_elem_of_In | done].
Qed.

Lemma Forall2_elem_r {A B} (P : A -> B -> Prop) l k y :
  Forall2 P l k -> y ∈ k -> exists x, x ∈ l /\ P x y.
Proof.
  induction 1 as [|x y' l k Hxy _ IH]; intros Hin.
  - by apply elem_of_nil in Hin.
  - apply elem_of_cons in Hin as [->|Hin].
    + exists x. split; [apply elem_of_cons; by left | done].
    + destruct (IH Hin) as (x' & Hx' & HP). exists x'.
      split; [apply elem_of_cons; by right | done].
Qed.

Section BatcherFacts.

Context {W : Type} `{!Store W} `{!Producer W} `{!Clock W}.

Lemma prepare_all_run batch : forall w,
  exists rows msgs w' ts,
    BatchProcessor.prepare_all batch w = (Done (rows, msgs), w', List.map ENow ts)
    /\ Forall2 (fun e r => exists t, t ∈ ts /\ r = BatchProcessor.row_of e t) batch rows
    /\ Forall2 (fun e m => exists t, t ∈ ts /\ m = BatchProcessor.message_of e t) batch msgs.
Proof.
  induction batch as [|e batch IH]; intros w; simpl.
  - exists [], [], w, []. split; [reflexivity|]. split; constructor.
  - unfold bind at 1. unfold BatchProcessor.prepare, bind, call, ret.
    destruct (Now w) as [w1 t1]. destruct (Now w1) as [w2 t2]. simpl.
    destruct (IH w2) as (rows & msgs & w' & ts & Hrun & Hrows & Hmsgs).
    rewrite Hrun. simpl.
    exists (BatchProcessor.row_of e t1 :: rows), (BatchProcessor.message_of e t2 :: msgs), w', (t1 :: t2 :: ts).
    split; [by rewrite ?app_nil_r|]. split.
    + constructor.
      * exists t1. split; [apply elem_of_cons; by left | done].
      * eapply Forall2_impl; [exact Hrows|]. intros x y (t & Ht & ->).
        exists t. split; [|done]. do 2 (apply elem_of_cons; right). done.
    + constructor.
      * exists t2. split; [apply elem_of_cons; right; apply elem_of_cons; by left | done].
      * eapply Forall2_impl; [exact Hmsgs|]. intros x y (t & Ht & ->).
        exists t. split; [|done]. do 2 (apply elem_of_cons; right). done.
Qed.

Lemma processBatch_flushed batch w :
  outcome (BatchProcessor.processBatch batch w) = Done tt
  /\ BatchProcessor.flushed batch (trace (BatchProcessor.processBatch batch w)).
Proof.
  unfold BatchProcessor.processBatch.
  destruct (List.length batch =? 0)%nat eqn:Hb.
  { apply Nat.eqb_eq in Hb. destruct batch; [|done]. split; [done|]. by constructor. }
  destruct (prepare_all_run batch w) as (rows & msgs & w1 & ts & Hrun & Hrows & Hmsgs).
  unfold bind, call, logf, emit, ret, BatchProcessor.publish, outcome, trace.
  rewrite Hrun. simpl.
  destruct (InsertLogStatusBatch rows w1) as [w2 [e|]]; simpl.
  - split; [done|]. by apply BatchProcessor.flushed_insert_failed.
  - destruct (PublishBatch msgs w2) as [[w3 res] evs] eqn:Hpub; simpl.
    destruct res as [e|]; simpl.
    + split; [done|].
      pose proof (BatchProcessor.flushed_published batch rows msgs ts w2 w3 evs (Some e)
                    ["Batch Kafka publish failed: " +++ e] Hrows Hmsgs Hpub) as Hf.
      simpl in Hf. rewrite <- !app_assoc. simpl. exact Hf.
    + split; [done|].
      pose proof (BatchProcessor.flushed_published batch rows msgs ts w2 w3 evs None
                    [] Hrows Hmsgs Hpub) as Hf.
      simpl in Hf. rewrite <- !app_assoc. simpl. exact Hf.
Qed.


Lemma calls_now ts : calls (List.map ENow ts) = [].
Proof. induction ts; simpl; auto. Qed.

Lemma calls_in_publish evs : calls (List.map EInPublish evs) = [].
Proof. induction evs; simpl; auto. Qed.

Lemma calls_log_lines lines : calls (List.map ELog lines) = [].
Proof. induction lines; simpl; auto. Qed.

Lemma prepared_request_ids batch rows msgs (ts ts' : list GoTime.Time) :
  Forall2 (fun e r => exists t, t ∈ ts /\ r = BatchProcessor.row_of e t) batch rows ->
  Forall2 (fun e m => exists t, t ∈ ts' /\ m = BatchProcessor.message_of e t) batch msgs ->
  List.map msg_RequestID msgs = List.map ls_RequestID rows
  /\ Forall (fun r => ls_Status r = StatusReceived) rows.
Proof.
  intros Hrows. revert msgs.
  induction Hrows as [|e r batch rows (t & _ & ->) _ IH]; intros msgs Hmsgs;
    inversion Hmsgs as [|e' m ? msgs' (t' & _ & ->) Hrest]; subst; simpl.
  - split; [done | constructor].
  - destruct (IH _ Hrest) as [-> Hall]. split; [done|]. by constructor.
Qed.

(** C3: in every run of [processBatch] a publish is preceded by exactly
    one bulk insert, which succeeded, of rows at status [RECEIVED] with
    the request ids of the published messages, in the same order; when
    the insert fails the insert is the only call and the producer is not
    entered. *)
Theorem publish_follows_insert batch w :
  (forall msgs res,
      EPublishBatch msgs res ∈ trace (BatchProcessor.processBatch batch w) ->
      exists rows,
        calls (trace (BatchProcessor.processBatch batch w))
          = [EInsertLogStatusBatch rows None; EPublishBatch msgs res]
        /\ List.map msg_RequestID msgs = List.map ls_RequestID rows
        /\ Forall (fun r => ls_Status r = StatusReceived) rows)
  /\ (forall rows e,
      EInsertLogStatusBatch rows (Some e) ∈ trace (BatchProcessor.processBatch batch w) ->
      calls (trace (BatchProcessor.processBatch batch w))
        = [EInsertLogStatusBatch rows (Some e)]
      /\ forall ev, EInPublish ev ∉ trace (BatchProcessor.processBatch batch w)).
Proof.
  destruct (processBatch_flushed batch w) as [_ Hf].
  revert Hf. generalize (trace (BatchProcessor.processBatch batch w)) as tr.
  intros tr Hf.
  destruct Hf as [Hb|rows ts e Hrows|rows msgs ts w1 w2 evs res lines Hrows Hmsgs Hpub].
  - split; intros; exfalso; eapply elem_of_nil; eauto.
  - split.
    + intros msgs res Hin. elem_cases Hin; try discriminate;
        try (apply in_map_inv in Hin as (? & ? & Hin); discriminate).
    + intros rows' e' Hin. elem_cases Hin; try discriminate;
        try (apply in_map_inv in Hin as (? & ? & Hin); discriminate).
      injection Hin as -> ->. split.
      * rewrite calls_app, calls_now. done.
      * intros ev Hev. elem_cases Hev; try discriminate;
        try (apply in_map_inv in Hev as (? & ? & Hev); discriminate).
  - split.
    + intros msgs' res' Hin. elem_cases Hin; try discriminate;
        try (apply in_map_inv in Hin as (? & ? & Hin); discriminate).
      injection Hin as -> ->. exists rows. split.
      * rewrite !calls_app, calls_now, calls_in_publish, calls_log_lines. done.
      * eapply prepared_request_ids; eauto.
    + intros rows' e' Hin. elem_cases Hin; try discriminate;
        try (apply in_map_inv in Hin as (? & ? & Hin); discriminate).
Qed.

End BatcherFacts.

Section KafkaBatcherFacts.

Context {W : Type} `{!Store W} `{!KafkaWriter W} `{!Clock W} `{!GoLib}.
Variable topic : string.

(** C8, as amended: every Kafka message the ingestion batcher writes
    has the request id as key and, as value, the JSON object
    [{RequestID, LogContent, LogHash, SourceOrgID, ReceivedTimestamp}]
    of an entry of the batch, where [ReceivedTimestamp] is the
    RFC 3339 text, with nanoseconds, of a clock reading of the flush. *)
Theorem published_timestamp_is_rfc3339 batch w kmsgs res km :
  EInPublish (PWriteMessages kmsgs res)
    ∈ trace (@BatchProcessor.processBatch W _ (KafkaProducer.producer topic) _ batch w) ->
  km ∈ kmsgs ->
  exists e t,
    e ∈ batch
    /\ ENow t ∈ trace (@BatchProcessor.processBatch W _ (KafkaProducer.producer topic) _
                         batch w)
    /\ km_Key km = be_requestID e
    /\ km_Value km
       = json_Marshal
           [ ("RequestID", JStr (be_requestID e));
             ("LogContent", JStr (in_LogContent (be_input e)));
             ("LogHash", JStr (in_ClientLogHash (be_input e)));
             ("SourceOrgID", JStr (in_ClientSourceOrgID (be_input e)));
             ("ReceivedTimestamp", JStr (GoTime.FormatRFC3339Nano t)) ].
Proof.
  intros Hin Hkm.
  destruct (@processBatch_flushed W _ (KafkaProducer.producer topic) _ batch w) as [_ Hf].
  revert Hin Hf.
  generalize (trace (@BatchProcessor.processBatch W _ (KafkaProducer.producer topic) _
                       batch w)) as tr.
  intros tr Hin Hf.
  destruct Hf as [Hb|rows ts e Hrows|rows msgs ts w1 w2 evs res' lines Hrows Hmsgs Hpub].
  - by apply elem_of_nil in Hin.
  - elem_cases Hin; try discriminate;
        try (apply in_map_inv in Hin as (? & ? & Hin); discriminate).
  - assert (Hev : PWriteMessages kmsgs res ∈ evs).
    { elem_cases Hin; try discriminate;
        apply in_map_inv in Hin as (pe & Hpe & Hin); try discriminate.
      by injection Hin as ->. }
    simpl in Hpub. unfold KafkaProducer.PublishBatch in Hpub.
    destruct (List.length msgs =? 0)%nat.
    { injection Hpub as _ _ <-. by apply elem_of_nil in Hev. }
    destruct (WriteMessages _ w1) as [w3 [err|]]; injection Hpub as _ _ <-;
      (apply elem_of_cons in Hev as [Hev|Hev];
       [ injection Hev as -> _
       | apply elem_of_cons in Hev as [Hev|Hev];
         [discriminate | by apply elem_of_nil in Hev] ]).
    all: apply list_elem_of_In, List.in_map_iff in Hkm as (m & <- & Hm);
      apply list_elem_of_In in Hm;
      destruct (Forall2_elem_r _ _ _ _ Hmsgs Hm) as (e & He & t & Ht & ->);
      exists e, t; split; [done|]; split;
        [ apply elem_of_app; left; apply list_elem_of_In, List.in_map;
          by apply list_elem_of_In
        | done ].
Qed.

End KafkaBatcherFacts.

(** *** Time stamps, the submit path, and runs in concrete worlds *)

Lemma contains_byte_app c a b :
  GoString.contains_byte c (a +++ b)
  = GoString.contains_byte c a || GoString.contains_byte c b.
Proof.
  unfold GoString.contains_byte.
  induction a as [|x a IH]; simpl; [done|].
  rewrite IH. by rewrite orb_assoc.
Qed.

Lemma digit_is_not_T n :
  Ascii.eqb "T" (ascii_of_N (Z.to_N (48 + n mod 10))) = false.
Proof.
  assert (Hb : 0 <= n mod 10 < 10) by (apply Z.mod_pos_bound; lia).
  assert (Hc : n mod 10 = 0 \/ n mod 10 = 1 \/ n mod 10 = 2 \/ n mod 10 = 3
               \/ n mod 10 = 4 \/ n mod 10 = 5 \/ n mod 10 = 6 \/ n mod 10 = 7
               \/ n mod 10 = 8 \/ n mod 10 = 9) by lia.
  repeat destruct Hc as [->|Hc]; try reflexivity. by rewrite Hc.
Qed.

Lemma contains_byte_cons c d s :
  GoString.contains_byte c (String d s)
  = Ascii.eqb c d || GoString.contains_byte c s.
Proof. reflexivity. Qed.

Lemma format_nat_digits_no_T fuel : forall n acc,
  GoString.contains_byte "T" (GoString.format_nat_digits fuel n acc)
  = GoString.contains_byte "T" acc.
Proof.
  induction fuel as [|fuel IH]; intros n acc; [done|].
  cbn [GoString.format_nat_digits].
  destruct (n / 10 =? 0); rewrite ?IH, contains_byte_cons, digit_is_not_T; done.
Qed.

Lemma format_int_no_T n : GoString.contains_byte "T" (GoString.format_int n) = false.
Proof.
  unfold GoString.format_int. destruct (n <? 0).
  - rewrite contains_byte_cons. apply (format_nat_digits_no_T _ _ EmptyString).
  - apply (format_nat_digits_no_T _ _ EmptyString).
Qed.

Lemma rfc3339_has_T t :
  GoString.contains_byte "T" (GoTime.FormatRFC3339Nano t) = true.
Proof.
  unfold GoTime.FormatRFC3339Nano.
  destruct (GoTime.civil _) as [[y m] d].
  rewrite !contains_byte_app.
  replace (GoString.contains_byte "T" "T") with true by reflexivity.
  rewrite !orb_true_r. rewrite ?orb_true_l. reflexivity.
Qed.

(** An RFC 3339 time stamp is never a unix-second string. *)
Lemma rfc3339_is_not_unix_seconds t t' :
  GoTime.FormatRFC3339Nano t <> GoTime.FormatUnixSeconds t'.
Proof.
  intros Heq.
  pose proof (rfc3339_has_T t) as Ht. rewrite Heq in Ht.
  unfold GoTime.FormatUnixSeconds in Ht. by rewrite format_int_no_T in Ht.
Qed.

Section SubmitFacts.
Context {W : Type}.

(** When the buffer reaches [batchSize] and the flush channel is full,
    [SubmitLog] empties the buffer and sends nothing. *)
Lemma SubmitLog_full_channel (bp : BatchProcessor.t) input requestID (w : W) :
  BatchProcessor.can_send bp = false ->
  BatchProcessor.batchSize bp <= Z.of_nat (List.length (BatchProcessor.buffer bp)) + 1 ->
  BatchProcessor.SubmitLog bp input requestID w
  = (Done (BatchProcessor.set_buffer bp []), w,
     [ELog "Flush channel full, will flush on next timer"]).
Proof.
  intros Hfull Hsize. unfold BatchProcessor.SubmitLog. simpl.
  rewrite length_app. simpl.
  destruct (Z.geb_spec (Z.of_nat (List.length (BatchProcessor.buffer bp) + 1))
              (BatchProcessor.batchSize bp)) as [_|Hlt]; [|lia].
  unfold BatchProcessor.can_send in *. simpl. rewrite Hfull.
  reflexivity.
Qed.

(** The timer path keeps every entry: a batch that cannot be sent goes
    back to the buffer. *)
Lemma flushIfNeeded_keeps_held (bp : BatchProcessor.t) :
  BatchProcessor.held (BatchProcessor.flushIfNeeded bp) = BatchProcessor.held bp.
Proof.
  unfold BatchProcessor.flushIfNeeded, BatchProcessor.held.
  destruct (List.length (BatchProcessor.buffer bp) =? 0)%nat; [done|].
  destruct (BatchProcessor.can_send _); simpl.
  - rewrite List.concat_app. simpl. by rewrite !app_nil_r.
  - by rewrite app_nil_r.
Qed.

End SubmitFacts.

Section BatcherRuns.
Import Scenario.

(** C2 fails on the code: with [batch_size = 2] and a full flush channel
    of capacity 1, the submission that fills the buffer empties it and
    sends nothing; the two entries are neither in the buffer nor on the
    channel, and the next timer tick finds nothing to flush. *)
Theorem full_channel_drops_batch :
  outcome full_channel_submit
    = Done (BatchProcessor.mk 2 [] [[accepted "id-0" "a"]] 1)
  /\ trace full_channel_submit = [ELog "Flush channel full, will flush on next timer"]
  /\ BatchProcessor.held (BatchProcessor.mk 2 [] [[accepted "id-0" "a"]] 1)
     = [accepted "id-0" "a"]
  /\ BatchProcessor.flushIfNeeded (BatchProcessor.mk 2 [] [[accepted "id-0" "a"]] 1)
     = BatchProcessor.mk 2 [] [[accepted "id-0" "a"]] 1.
Proof. vm_compute. repeat split. Qed.

Example flush_trace :
  trace flush_run
  = [ ENow (GoTime.mkTime 1761018328 0 0);
      ENow (GoTime.mkTime 1761018329 0 0);
      EInsertLogStatusBatch
        [ mkLogStatus "id-1"
            "2cf24dba5fb0a30e26e83b2ac5b9e29e1b161e5c1fa7425e73043362938b9824" "org-1"
            (GoTime.mkTime 1761018328 0 0) StatusReceived 0
            EmptyString EmptyString 0 EmptyString ]
        None;
      EInPublish
        (PWriteMessages
           [ mkKafkaMessage "id-1"
               (Sim.marshal (KafkaProducer.LogMessage_json flushed_message)) 0 ]
           None);
      EInPublish
        (PLog "Successfully added 1 Kafka messages to send queue (Topic: log_submissions)");
      EPublishBatch [flushed_message] None ].
Proof. vm_compute. reflexivity. Qed.

(** C8, as stated, fails: the published time stamp is not the
    unix-second string of any instant. *)
Lemma published_timestamp_not_unix_seconds :
  ~ unix_second_timestamps (trace flush_run).
Proof.
  rewrite flush_trace. intros Hclaim.
  destruct (Hclaim [flushed_message] None flushed_message) as [t Ht].
  - do 5 (apply elem_of_cons; right). apply elem_of_cons. by left.
  - apply elem_of_cons. by left.
  - apply (rfc3339_is_not_unix_seconds (GoTime.mkTime 1761018329 0 0) t). exact Ht.
Qed.

Lemma publish_follows_insert_witness :
  EPublishBatch [flushed_message] None ∈ trace flush_run
  /\ (exists rows,
        calls (trace flush_run)
          = [EInsertLogStatusBatch rows None; EPublishBatch [flushed_message] None]
        /\ List.map msg_RequestID [flushed_message] = List.map ls_RequestID rows
        /\ Forall (fun r => ls_Status r = StatusReceived) rows)
  /\ (forall rows, EInsertLogStatusBatch rows (Some "connection refused")
                     ∈ trace flush_insert_fails_run ->
        calls (trace flush_insert_fails_run)
          = [EInsertLogStatusBatch rows (Some "connection refused")]
        /\ forall ev, EInPublish ev ∉ trace flush_insert_fails_run).
Proof.
  assert (Hin : EPublishBatch [flushed_message] None ∈ trace flush_run).
  { vm_compute. do 5 constructor. constructor. }
  split; [exact Hin|]. split.
  - exact (proj1 (@publish_follows_insert Sim.World Sim.store
             (@KafkaProducer.producer Sim.World Sim.writer json_lib "log_submissions")
             Sim.clock_inst [accepted "id-1" "hello"] Sim.empty)
             [flushed_message] None Hin).
  - intros rows Hrows.
    exact (proj2 (@publish_follows_insert Sim.World Sim.store
             (@KafkaProducer.producer Sim.World Sim.writer json_lib "log_submissions")
             Sim.clock_inst [accepted "id-1" "hello"] _) rows "connection refused" Hrows).
Defined.

Lemma published_timestamp_is_rfc3339_witness :
  EInPublish
    (PWriteMessages
       [ mkKafkaMessage "id-1"
           (Sim.marshal (KafkaProducer.LogMessage_json flushed_message)) 0 ] None)
    ∈ trace flush_run
  /\ exists e t,
      e ∈ [accepted "id-1" "hello"]
      /\ ENow t ∈ trace flush_run
      /\ "id-1" = be_requestID e
      /\ Sim.marshal (KafkaProducer.LogMessage_json flushed_message)
         = Sim.marshal
             [ ("RequestID", JStr (be_requestID e));
               ("LogContent", JStr (in_LogContent (be_input e)));
               ("LogHash", JStr (in_ClientLogHash (be_input e)));
               ("SourceOrgID", JStr (in_ClientSourceOrgID (be_input e)));
               ("ReceivedTimestamp", JStr (GoTime.FormatRFC3339Nano t)) ].
Proof.
  assert (Hin : EInPublish
    (PWriteMessages
       [ mkKafkaMessage "id-1"
           (Sim.marshal (KafkaProducer.LogMessage_json flushed_message)) 0 ] None)
    ∈ trace flush_run).
  { vm_compute. do 3 constructor. constructor. }
  split; [exact Hin|].
  apply (@published_timestamp_is_rfc3339 Sim.World Sim.store Sim.writer Sim.clock_inst
           json_lib "log_submissions" [accepted "id-1" "hello"] Sim.empty _ None
           (mkKafkaMessage "id-1"
              (Sim.marshal (KafkaProducer.LogMessage_json flushed_message)) 0) Hin).
  apply elem_of_cons. by left.
Defined.

End BatcherRuns.

(** ** The receipt service, the HTTP handler and the consumer *)

Section ServiceFacts.

Context {W : Type} `{!Clock W} `{!UUIDSource W}.

Lemma is_empty_true s : GoString.is_empty s = true <-> s = EmptyString.
Proof. unfold GoString.is_empty, GoString.eqb. apply String.eqb_eq. Qed.

Lemma is_empty_false s : GoString.is_empty s = false <-> s <> EmptyString.
Proof. unfold GoString.is_empty, GoString.eqb. apply String.eqb_neq. Qed.

(** [Service.SubmitLog] fails exactly on empty content and on a client
    hash that is present and differs from the hex SHA-256 of the
    content. *)
Lemma SubmitLog_fails_iff input (w : W) :
  (exists e, outcome (Service.SubmitLog input w) = Done (inl e))
  <-> in_LogContent input = EmptyString
      \/ (in_ClientLogHash input <> EmptyString
          /\ in_ClientLogHash input <> Sha256.hex_sum (in_LogContent input)).
Proof.
  unfold Service.SubmitLog.
  destruct (GoString.is_empty (in_LogContent input)) eqn:Hc.
  { apply is_empty_true in Hc. split; [by left | by exists Service.err_empty]. }
  apply is_empty_false in Hc.
  unfold bind, call, ret, emit, outcome. destruct (Now w) as [w1 t]. simpl.
  destruct (GoString.is_empty (in_ClientLogHash input)) eqn:Hh; simpl.
  - apply is_empty_true in Hh. destruct (NewString w1) as [w2 id]. simpl. split.
    + intros [e He]. discriminate.
    + intros [?|[? _]]; done.
  - apply is_empty_false in Hh.
    destruct (String.eqb_spec (in_ClientLogHash input)
                (Sha256.hex_sum (in_LogContent input))) as [Heq|Hne]; simpl.
    + destruct (NewString w1) as [w2 id]. simpl. split.
      * intros [e He]. discriminate.
      * intros [?|[_ ?]]; done.
    + split; [by right | by eexists].
Qed.

(** The receipt of an accepted submission carries the hex SHA-256 of
    the content. *)
Lemma SubmitLog_receipt_hash input (w : W) result :
  outcome (Service.SubmitLog input w) = Done (inr result) ->
  res_ServerLogHash result = Sha256.hex_sum (in_LogContent input).
Proof.
  unfold Service.SubmitLog.
  destruct (GoString.is_empty (in_LogContent input)); [discriminate|].
  unfold bind, call, ret, emit, outcome. destruct (Now w) as [w1 t]. simpl.
  destruct (negb _ && negb _); simpl; [discriminate|].
  destruct (NewString w1) as [w2 id]. simpl. by intros [= <-].
Qed.

End ServiceFacts.

Section HandlerFacts.

Context {W : Type} `{!Clock W} `{!UUIDSource W} `{!GoLib}.

Lemma responses_app t1 t2 :
  LogHandler.responses (t1 ++ t2) = LogHandler.responses t1 ++ LogHandler.responses t2.
Proof. apply omap_app. Qed.

(** Past the guards on method, content type and size, with a body that
    decodes to a payload with content: the response is decided by the
    receipt service. *)
Lemma SubmitLog_past_guards (r : Request) (w : W) payload :
  rq_Method r = "POST" ->
  rq_ContentType r = "application/json" ->
  rq_ContentLength r <= LogHandler.maxContentLength ->
  json_Decode_ReqPayload (rq_Body r) = inr payload ->
  rp_LogContent payload <> EmptyString ->
  LogHandler.responses (trace (LogHandler.SubmitLog r w))
  = if negb (GoString.is_empty (rp_ClientLogHash payload))
       && negb (String.eqb (rp_ClientLogHash payload)
                           (Sha256.hex_sum (rp_LogContent payload)))
    then
      let err := Service.err_mismatch (rp_ClientLogHash payload)
                   (Sha256.hex_sum (rp_LogContent payload)) in
      [(LogHandler.statusCodeFor err,
        LogHandler.errorResp err (LogHandler.statusCodeFor err))]
    else
      [(202,
        LogHandler.respPayload
          {| res_RequestID := (NewString (Now w).1).2;
             res_ServerLogHash := Sha256.hex_sum (rp_LogContent payload);
             res_ServerReceivedTimestamp := (Now w).2 |})].
Proof.
  intros Hm Hct Hcl Hdec Hne.
  unfold LogHandler.SubmitLog. rewrite Hm, Hct. simpl.
  destruct (Z.gtb_spec (rq_ContentLength r) LogHandler.maxContentLength) as [Hgt|_]; [lia|].
  apply is_empty_false in Hne.
  unfold bind, call, ret, logf, emit, trace, LogHandler.respondError,
    LogHandler.respondJSON, emit, Service.SubmitLog, bind, call, ret, emit.
  rewrite Hdec, Hne. simpl. rewrite Hne.
  destruct (GoString.is_empty (rp_ClientTimestamp payload)); simpl;
    [|destruct (time_Parse_RFC3339Nano (rp_ClientTimestamp payload)); simpl];
    destruct (Now w) as [w1 now]; simpl;
    (destruct (negb (GoString.is_empty (rp_ClientLogHash payload))
               && negb (String.eqb (rp_ClientLogHash payload)
                          (Sha256.hex_sum (rp_LogContent payload)))); simpl;
     [done | destruct (NewString w1) as [w2 id]; done]).
Qed.

(** Empty content is answered with 400 by the handler itself. *)
Lemma empty_content_is_400 (r : Request) (w : W) payload :
  rq_Method r = "POST" ->
  rq_ContentType r = "application/json" ->
  rq_ContentLength r <= LogHandler.maxContentLength ->
  json_Decode_ReqPayload (rq_Body r) = inr payload ->
  rp_LogContent payload = EmptyString ->
  LogHandler.SubmitLog r w
  = (Done tt, w,
     [ EDecodeBody (inr payload);
       ERespond 400 (LogHandler.errorResp "log_content is required" 400) ]).
Proof.
  intros Hm Hct Hcl Hdec He.
  unfold LogHandler.SubmitLog. rewrite Hm, Hct. simpl.
  destruct (Z.gtb_spec (rq_ContentLength r) LogHandler.maxContentLength) as [Hgt|_]; [lia|].
  unfold bind, call. rewrite Hdec, He. reflexivity.
Qed.

(** The service error for empty content is mapped to 400 as well. *)
Lemma empty_error_is_400 : LogHandler.statusCodeFor Service.err_empty = 400.
Proof. reflexivity. Qed.

(** C10, as amended: a POST with [Content-Type: application/json] whose
    declared length exceeds 10 MiB is answered with 413 and nothing
    else happens: the body is not decoded, the service is not called,
    the world is unchanged. *)
Theorem oversize_json_post_is_413 (r : Request) (w : W) :
  rq_Method r = "POST" ->
  rq_ContentType r = "application/json" ->
  rq_ContentLength r > LogHandler.maxContentLength ->
  LogHandler.SubmitLog r w
  = (Done tt, w,
     [ERespond 413 (LogHandler.errorResp "Request body too large" 413)]).
Proof.
  intros Hm Hct Hcl. unfold LogHandler.SubmitLog.
  rewrite Hm, Hct. simpl.
  destruct (Z.gtb_spec (rq_ContentLength r) LogHandler.maxContentLength) as [_|Hle]; [|lia].
  reflexivity.
Qed.

End HandlerFacts.

Section ConsumerFacts.

Context {W : Type} `{!KafkaReader W} `{!GoLib}.

(** C9, as amended: when the fetched message does not deserialize,
    [Consume] logs, calls [CommitMessages] on that message once and
    drops what the call returns: the reader is left exactly as that
    call leaves it, whether it succeeded or not.  [Consume] returns the
    deserialization error with no message and no callback, and makes no
    call to the state store. *)
Theorem malformed_message_commit_is_called ctx (w : W) km err :
  EFetchMessage (inr km) ∈ trace (KafkaConsumer.Consume ctx w) ->
  json_Unmarshal_LogMessage (km_Value km) = inl err ->
  trace (KafkaConsumer.Consume ctx w)
    = [ EFetchMessage (inr km);
        ELog ("Kafka consumer: Failed to deserialize message (Offset: "
              +++ GoString.format_int (km_Offset km) +++ "): " +++ err
              +++ ". Message will be discarded.");
        ECommitMessages km (CommitMessages km (FetchMessage w).1).2 ]
  /\ final (KafkaConsumer.Consume ctx w) = (CommitMessages km (FetchMessage w).1).1
  /\ outcome (KafkaConsumer.Consume ctx w)
     = Done (None, None, Some ("message deserialization failed: " +++ err))
  /\ calls (trace (KafkaConsumer.Consume ctx w)) = [].
Proof.
  unfold KafkaConsumer.Consume, bind, call, ret, logf, emit, outcome, final, trace.
  destruct (FetchMessage w) as [w1 [e|km']]; simpl.
  - intros Hin. destruct (is_Canceled e); simpl in Hin;
      repeat (apply elem_of_cons in Hin as [Hin|Hin]; [discriminate|]);
      by apply elem_of_nil in Hin.
  - intros Hin Hbad.
    assert (km' = km) as ->.
    { destruct (json_Unmarshal_LogMessage (km_Value km')); simpl in Hin.
      - destruct (CommitMessages km' w1) as [w2 res]. simpl in Hin.
        apply elem_of_cons in Hin as [Hin|Hin]; [by injection Hin|].
        repeat (apply elem_of_cons in Hin as [Hin|Hin]; [discriminate|]).
        by apply elem_of_nil in Hin.
      - apply list_elem_of_singleton in Hin. by injection Hin. }
    rewrite Hbad. simpl.
    destruct (CommitMessages km w1) as [w2 res]. simpl. done.
Qed.

End ConsumerFacts.

Section FrontEndRuns.
Import Scenario.

(** C6 fails on the code: a client hash that contains a line feed
    differs from the server hash, and the handler answers 500 instead
    of 400, because the [.] of the pattern does not match a line
    feed. *)
Theorem mismatch_with_line_feed_is_500 :
  rp_ClientLogHash mismatch_payload <> EmptyString
  /\ rp_ClientLogHash mismatch_payload <> Sha256.hex_sum (rp_LogContent mismatch_payload)
  /\ LogHandler.responses (trace mismatch_run)
     = [ (500, LogHandler.errorResp
                 (Service.err_mismatch hash_with_line_feed (Sha256.hex_sum "x")) 500) ].
Proof.
  split; [discriminate|]. split; [vm_compute; discriminate|].
  vm_compute. reflexivity.
Qed.

(** An ordinary mismatch is answered with 400. *)
Example mismatch_is_400 :
  LogHandler.statusCodeFor (Service.err_mismatch "abc" (Sha256.hex_sum "x")) = 400.
Proof. vm_compute. reflexivity. Qed.

(** C10, as stated, fails: an oversize POST that is not declared as
    JSON is answered with 400. *)
Lemma oversize_is_not_always_413 :
  ~ (forall (r : Request) (w : Sim.World),
        rq_Method r = "POST" ->
        rq_ContentLength r > LogHandler.maxContentLength ->
        exists body,
          LogHandler.responses
            (trace (@LogHandler.SubmitLog Sim.World Sim.clock_inst Sim.uuid_inst http_lib r w))
          = [(413, body)]).
Proof.
  intros Hclaim.
  destruct (Hclaim oversize_plain_request Sim.empty) as [body Hresp];
    [reflexivity | reflexivity |].
  vm_compute in Hresp. discriminate.
Qed.

Lemma oversize_json_post_is_413_witness :
  rq_Method oversize_json_request = "POST"
  /\ rq_ContentType oversize_json_request = "application/json"
  /\ rq_ContentLength oversize_json_request > LogHandler.maxContentLength
  /\ @LogHandler.SubmitLog Sim.World Sim.clock_inst Sim.uuid_inst http_lib
       oversize_json_request Sim.empty
     = (Done tt, Sim.empty,
        [ERespond 413 (LogHandler.errorResp "Request body too large" 413)]).
Proof.
  split; [reflexivity|]. split; [reflexivity|]. split; [reflexivity|].
  apply (@oversize_json_post_is_413 Sim.World Sim.clock_inst Sim.uuid_inst http_lib
           oversize_json_request Sim.empty); reflexivity.
Defined.

Lemma malformed_message_commit_is_called_witness :
  EFetchMessage (inr malformed) ∈ trace malformed_run
  /\ @json_Unmarshal_LogMessage json_lib (km_Value malformed)
     = inl "invalid character in JSON input"
  /\ trace malformed_run
     = [ EFetchMessage (inr malformed);
         ELog ("Kafka consumer: Failed to deserialize message (Offset: "
               +++ GoString.format_int (km_Offset malformed) +++ "): "
               +++ "invalid character in JSON input"
               +++ ". Message will be discarded.");
         ECommitMessages malformed
           (Sim.commit malformed (Sim.fetch malformed_inbox).1).2 ]
  /\ final malformed_run = (Sim.commit malformed (Sim.fetch malformed_inbox).1).1
  /\ outcome malformed_run
     = Done (None, None,
             Some ("message deserialization failed: "
                   +++ "invalid character in JSON input"))
  /\ calls (trace malformed_run) = [].
Proof.
  assert (Hin : EFetchMessage (inr malformed) ∈ trace malformed_run).
  { vm_compute. constructor. }
  assert (Hbad : @json_Unmarshal_LogMessage json_lib (km_Value malformed)
                 = inl "invalid character in JSON input") by reflexivity.
  split; [exact Hin|]. split; [exact Hbad|].
  exact (@malformed_message_commit_is_called Sim.World Sim.reader json_lib (mkContext None)
           malformed_inbox malformed "invalid character in JSON input" Hin Hbad).
Defined.

(** When the commit fails the run is the same but for the result of the
    call, and no offset is committed. *)
Example malformed_commit_fails_trace :
  trace malformed_commit_fails_run
  = [ EFetchMessage (inr malformed);
      ELog "Kafka consumer: Failed to deserialize message (Offset: 17): invalid character in JSON input. Message will be discarded.";
      ECommitMessages malformed (Some "group coordinator not available") ]
  /\ outcome malformed_commit_fails_run
     = Done (None, None,
             Some "message deserialization failed: invalid character in JSON input")
  /\ Sim.committed (final malformed_commit_fails_run) = [].
Proof. vm_compute. done. Qed.

(** C9, as stated, fails: the message does not deserialize, [Consume]
    returns the deserialization error, and the offset of the message is
    not committed, because the commit failed and its result is dropped. *)
Lemma malformed_offset_not_committed :
  ~ malformed_offsets_committed malformed_commit_fails_run.
Proof.
  intros Hclaim.
  specialize (Hclaim malformed "invalid character in JSON input").
  assert (Hin : EFetchMessage (inr malformed) ∈ trace malformed_commit_fails_run).
  { vm_compute. constructor. }
  specialize (Hclaim Hin eq_refl).
  vm_compute in Hclaim. by apply elem_of_nil in Hclaim.
Qed.

(** The happy path: 202, [ACCEPTED], and the hash of the specification. *)
Example hello_is_accepted :
  LogHandler.responses (trace hello_run)
  = [ (202,
       [ ("request_id", JStr "00000000-0000-4000-8000-000000000000");
         ("server_log_hash",
           JStr "2cf24dba5fb0a30e26e83b2ac5b9e29e1b161e5c1fa7425e73043362938b9824");
         ("server_received_timestamp", JStr "2025-10-21T03:45:28Z");
         ("status", JStr "ACCEPTED") ]) ].
Proof. vm_compute. reflexivity. Qed.

(** When the commit succeeds the offset of the malformed message is
    committed and no row of the state table is touched. *)
Example malformed_offset_committed :
  Sim.committed (final malformed_run) = [17]
  /\ Sim.rows (final malformed_run) = Sim.rows malformed_inbox.
Proof. vm_compute. done. Qed.

End FrontEndRuns.

(** ** More about the worker *)

Lemma Forall2_elem_l {A B} (P : A -> B -> Prop) l k x :
  Forall2 P l k -> x ∈ l -> exists y, y ∈ k /\ P x y.
Proof.
  induction 1 as [|x' y l k HP _ IH]; intros Hin.
  - by apply elem_of_nil in Hin.
  - apply elem_of_cons in Hin as [->|Hin].
    + exists y. split; [apply elem_of_cons; by left | done].
    + destruct (IH Hin) as (y' & Hy' & HP'). exists y'.
      split; [apply elem_of_cons; by right | done].
Qed.


Section WorkerMore.

Context {W : Type} `{!Store W} `{!BlockchainClient W} `{!GoMapRange}.
Variable maxTaskRetries : Z.

Lemma collect_fold batch : forall acc : list string * gmap string LogMessage,
  (List.fold_left Worker.collect_step batch acc).1 = acc.1 ++ claimable_ids batch
  /\ forall id, id <> EmptyString ->
       (List.fold_left Worker.collect_step batch acc).2 !! id
       = match last_message batch id with
         | Some m => Some m
         | None => acc.2 !! id
         end.
Proof.
  induction batch as [|m batch IH]; intros acc; simpl.
  - split; [by rewrite app_nil_r | done].
  - destruct (IH (Worker.collect_step acc m)) as [Hids Hmap].
    unfold Worker.collect_step in *. unfold claimable_ids in *. simpl.
    destruct (GoString.is_empty (msg_RequestID m)) eqn:He; simpl in *.
    + apply is_empty_true in He. split; [done|]. intros id Hid.
      rewrite (Hmap id Hid). unfold last_message.
      rewrite filter_cons_False by congruence. done.
    + apply is_empty_false in He. split; [by rewrite Hids, <- app_assoc|].
      intros id Hid. rewrite (Hmap id Hid). unfold last_message.
      destruct (decide (msg_RequestID m = id)) as [Heq|Hne].
      * rewrite filter_cons_True by done. rewrite last_cons.
        destruct (last (filter _ batch)); [done|].
        by rewrite Heq, lookup_insert_eq.
      * rewrite filter_cons_False by done.
        destruct (last (filter _ batch)); [done|].
        by rewrite lookup_insert_ne.
Qed.

Lemma collect_empty_key batch : forall acc : list string * gmap string LogMessage,
  acc.2 !! EmptyString = None ->
  (List.fold_left Worker.collect_step batch acc).2 !! EmptyString = None.
Proof.
  induction batch as [|m batch IH]; intros acc Hacc; simpl; [done|].
  apply IH. unfold Worker.collect_step.
  destruct (GoString.is_empty (msg_RequestID m)) eqn:He; [done|]. simpl.
  apply is_empty_false in He. by rewrite lookup_insert_ne.
Qed.

(** X1: the request ids claimed for a batch are its non-empty request
    ids in batch order, duplicates included, and the message kept for a
    request id is the last one of the batch with that id. *)
Theorem collect_ids_and_messages batch :
  (Worker.collect batch).1 = claimable_ids batch
  /\ forall id,
       (Worker.collect batch).2 !! id
       = if GoString.is_empty id then None else last_message batch id.
Proof.
  unfold Worker.collect. destruct (collect_fold batch ([], ∅)) as [Hids Hmap].
  split; [done|]. intros id.
  destruct (GoString.is_empty id) eqn:He.
  - apply is_empty_true in He. subst id. by apply collect_empty_key.
  - apply is_empty_false in He. rewrite (Hmap id He). simpl.
    destruct (last_message batch id); [done | apply lookup_empty].
Qed.

Lemma collect_ids batch : (Worker.collect batch).1 = claimable_ids batch.
Proof. unfold Worker.collect. by destruct (collect_fold batch ([], ∅)) as [-> _]. Qed.

Lemma claimable_ids_nil batch :
  (forall m, m ∈ batch -> msg_RequestID m = EmptyString) -> claimable_ids batch = [].
Proof.
  unfold claimable_ids. induction batch as [|m batch IH]; intros Hall; simpl; [done|].
  rewrite (Hall m) by (apply elem_of_cons; by left). simpl.
  apply IH. intros m' Hm'. apply Hall, elem_of_cons. by right.
Qed.

(** X2: a batch in which no message has a request id (the empty batch
    included) causes no call at all, and every pending message is
    acknowledged positively. *)
Theorem no_request_ids_is_acked workerID batch acks (w : W) :
  (forall m, m ∈ batch -> msg_RequestID m = EmptyString) ->
  outcome (Worker.processAndAckBatch maxTaskRetries workerID batch acks w) = Done tt
  /\ calls (trace (Worker.processAndAckBatch maxTaskRetries workerID batch acks w)) = []
  /\ acks_of (trace (Worker.processAndAckBatch maxTaskRetries workerID batch acks w))
     = all_acks true (List.length acks).
Proof.
  intros Hall.
  assert (Hh : Worker.handleBatch maxTaskRetries batch w = (Done None, w, [])).
  { unfold Worker.handleBatch.
    destruct (List.length batch =? 0)%nat; [done|].
    pose proof (collect_ids batch) as Hids.
    rewrite (claimable_ids_nil batch Hall) in Hids.
    destruct (Worker.collect batch) as [ids mm]. simpl in Hids. subst ids. done. }
  unfold Worker.processAndAckBatch, bind. rewrite Hh.
  destruct (for_each_ack_run true acks 0%nat w) as (Ho & Ha & Hc).
  destruct (for_each (Worker.invoke_ack true) 0 acks w) as [[o w2] t2].
  unfold outcome, trace in *. simpl in *. done.
Qed.

(** X3: when the claim itself fails, the claim is the only call of the
    run (no ledger call, no update) and every pending message is
    acknowledged negatively. *)
Theorem claim_error_is_nacked workerID batch acks (w : W) ids err :
  EGetAndMarkBatchAsProcessing ids maxTaskRetries (inl err)
    ∈ trace (Worker.processAndAckBatch maxTaskRetries workerID batch acks w) ->
  outcome (Worker.processAndAckBatch maxTaskRetries workerID batch acks w) = Done tt
  /\ calls (trace (Worker.processAndAckBatch maxTaskRetries workerID batch acks w))
     = [EGetAndMarkBatchAsProcessing ids maxTaskRetries (inl err)]
  /\ acks_of (trace (Worker.processAndAckBatch maxTaskRetries workerID batch acks w))
     = all_acks false (List.length acks).
Proof.
  intros Hin.
  destruct (processAndAckBatch_run maxTaskRetries workerID batch acks w)
    as (o & htr & atr & Hh & Htr & Hc & Ho).
  rewrite Htr in Hin |- *.
  apply call_in_prefix in Hin; [|done..].
  pose proof (handled_no_acks _ _ _ _ Hh) as Hna.
  rewrite calls_app, acks_of_app, Hc, Hna, app_nil_r.
  destruct Hh as [Hskip|err'|tasks' why Hp|tasks' Hnone
                 |tasks' entries' err' res lines Hs Hne
                 |tasks' entries' proof results r1 r2 lines Hs Hne cf];
    elem_cases Hin; try discriminate;
    try (apply in_mark_calls in Hin as [[Hin _]|[Hin _]]; discriminate);
    try (by apply not_call_in_logs in Hin).
  injection Hin as -> ->. destruct Ho as [-> ->]. done.
Qed.


(** *** What is sent to the ledger *)

Lemma processing_rows_range (tasks : gmap string LogStatus) :
  filter (fun kv : string * LogStatus => ls_Status kv.2 = StatusProcessing) (map_range tasks)
  ≡ₚ map_to_list (claimed_processing tasks).
Proof.
  apply NoDup_Permutation.
  - apply NoDup_filter. rewrite (map_range_perm _ tasks). apply NoDup_map_to_list.
  - apply NoDup_map_to_list.
  - intros [k v]. rewrite list_elem_of_filter, map_range_elem, elem_of_map_to_list.
    unfold claimed_processing. rewrite map_lookup_filter_Some. simpl. tauto.
Qed.

Lemma select_valid_entries mm l : forall acc res,
  Worker.select_valid mm l acc = Some res ->
  exists new,
    res.2 = acc.2 ++ new /\
    Forall2 (fun (kv : string * LogStatus) e =>
               exists msg, mm !! kv.1 = Some msg /\ e = entry_of_message msg)
            (filter (fun kv : string * LogStatus => ls_Status kv.2 = StatusProcessing) l)
            new.
Proof.
  induction l as [|[k0 v0] l IH]; intros acc res Hsel; simpl in Hsel.
  - injection Hsel as <-. exists []. by rewrite app_nil_r.
  - destruct (ls_Status v0) eqn:Hst.
    1,3,4: rewrite filter_cons_False by (simpl; congruence); by apply IH.
    destruct (mm !! k0) as [msg|] eqn:Hmm; [|done].
    rewrite filter_cons_True by done.
    apply IH in Hsel as (new & Hres & Hall). simpl in Hres.
    exists (entry_of_message msg :: new). split.
    + rewrite Hres, <- app_assoc. done.
    + constructor; [|done]. by exists msg.
Qed.

Lemma select_valid_panics mm l : forall acc,
  Worker.select_valid mm l acc = None <->
  exists k v, (k, v) ∈ l /\ ls_Status v = StatusProcessing /\ mm !! k = None.
Proof.
  induction l as [|[k0 v0] l IH]; intros acc; simpl.
  - split; [done|]. intros (k & v & Hin & _). by apply elem_of_nil in Hin.
  - destruct (ls_Status v0) eqn:Hst.
    1,3,4: rewrite IH; split;
      [ intros (k & v & Hin & Hp & Hm); exists k, v;
        split; [apply elem_of_cons; by right | done]
      | intros (k & v & Hin & Hp & Hm); apply elem_of_cons in Hin as [Heq|Hin];
        [ injection Heq as -> ->; congruence | by exists k, v ] ].
    destruct (mm !! k0) as [msg|] eqn:Hmm.
    + rewrite IH. split.
      * intros (k & v & Hin & Hp & Hm). exists k, v.
        split; [apply elem_of_cons; by right | done].
      * intros (k & v & Hin & Hp & Hm). apply elem_of_cons in Hin as [Heq|Hin].
        -- injection Heq as -> ->. congruence.
        -- by exists k, v.
    + split; [|done]. intros _. exists k0, v0.
      split; [apply elem_of_cons; by left | done].
Qed.

(** The message kept for a request id, after [collect]. *)
Lemma collect_lookup batch id :
  (Worker.collect batch).2 !! id
  = if GoString.is_empty id then None else last_message batch id.
Proof.
  unfold Worker.collect. destruct (collect_fold batch ([], ∅)) as [_ Hmap].
  destruct (GoString.is_empty id) eqn:He.
  - apply is_empty_true in He. subst id. by apply collect_empty_key.
  - apply is_empty_false in He. rewrite (Hmap id He). simpl.
    destruct (last_message batch id); [done | apply lookup_empty].
Qed.

(** X4: the ledger is called with one entry per row claimed into
    PROCESSING, and never with an empty batch; an entry carries the
    hash, content, organisation and timestamp of the last message of the
    batch with the row's request id, and nothing of the row. *)
Theorem ledger_entries_come_from_messages batch (w : W) entries res :
  ESubmitLogsBatch entries res ∈ trace (Worker.handleBatch maxTaskRetries batch w) ->
  exists tasks claimed,
    EGetAndMarkBatchAsProcessing (claimable_ids batch) maxTaskRetries (inr tasks)
      ∈ trace (Worker.handleBatch maxTaskRetries batch w)
    /\ claimed ≡ₚ map_to_list (claimed_processing tasks)
    /\ Forall2 (fun (kv : string * LogStatus) e =>
                  exists msg, last_message batch kv.1 = Some msg
                              /\ e = entry_of_message msg)
               claimed entries
    /\ (0 < List.length entries)%nat.
Proof.
  intros Hin.
  pose proof (handleBatch_handled maxTaskRetries batch w) as Hh.
  revert Hin Hh.
  generalize (trace (Worker.handleBatch maxTaskRetries batch w)) as tr.
  generalize (outcome (Worker.handleBatch maxTaskRetries batch w)) as o.
  intros o tr Hin Hh.
  rewrite <- (collect_ids batch).
  assert (Hgoal : forall tasks entries',
    Worker.select_valid (Worker.collect batch).2 (map_range tasks) (∅, [])
      = Some (claimed_processing tasks, entries') ->
    exists claimed,
      claimed ≡ₚ map_to_list (claimed_processing tasks)
      /\ Forall2 (fun (kv : string * LogStatus) e =>
                    exists msg, last_message batch kv.1 = Some msg
                                /\ e = entry_of_message msg)
                 claimed entries').
  { intros tasks entries' Hs.
    apply select_valid_entries in Hs as (new & Hres & Hall). simpl in Hres. subst new.
    eexists. split; [apply processing_rows_range|].
    eapply Forall2_impl; [exact Hall|].
    intros [k v] e (msg & Hm & ->). exists msg. split; [|done].
    rewrite collect_lookup in Hm. simpl in Hm. by destruct (GoString.is_empty k). }
  destruct Hh as [Hskip|err'|tasks' why Hp|tasks' Hnone
                 |tasks' entries' err' res' lines Hs Hne
                 |tasks' entries' proof results r1 r2 lines Hs Hne cf];
    elem_cases Hin; try discriminate;
    try (apply in_mark_calls in Hin as [[Hin _]|[Hin _]]; discriminate);
    try (apply in_map_inv in Hin as (? & ? & Hin); discriminate).
  - injection Hin as -> ->. destruct (Hgoal _ _ Hs) as (claimed & Hp & Hall).
    exists tasks', claimed. split; [apply elem_of_cons; by left|].
    split; [done|]. split; [done|]. destruct entries'; [done | simpl; lia].
  - injection Hin as -> ->. destruct (Hgoal _ _ Hs) as (claimed & Hp & Hall).
    exists tasks', claimed. split; [apply elem_of_cons; by left|].
    split; [done|]. split; [done|]. destruct entries'; [done | simpl; lia].
Qed.

Lemma collect_lookup_None batch id :
  (Worker.collect batch).2 !! id = None <-> id ∉ claimable_ids batch.
Proof.
  rewrite collect_lookup. unfold claimable_ids, last_message.
  rewrite list_elem_of_In, List.filter_In, List.in_map_iff.
  destruct (GoString.is_empty id) eqn:He.
  - split; [|done]. intros _ [_ Hne]. done.
  - rewrite last_None. split.
    + intros Hnil [(m & Hid & Hin) _].
      assert (Hm : m ∈ filter (fun m => msg_RequestID m = id) batch).
      { apply list_elem_of_filter. split; [done | by apply list_elem_of_In]. }
      rewrite Hnil in Hm. by apply elem_of_nil in Hm.
    + intros Hno. destruct (filter _ batch) as [|m rest] eqn:Hf; [done|].
      exfalso. apply Hno.
      assert (Hm : m ∈ filter (fun m => msg_RequestID m = id) batch).
      { rewrite Hf. apply elem_of_cons. by left. }
      apply list_elem_of_filter in Hm as [Hid Hin].
      split; [|done]. exists m. split; [done | by apply list_elem_of_In].
Qed.

(** X5: the run of [handleBatch] ends in a nil dereference exactly when
    the store returned a row in PROCESSING whose request id is not that
    of a message of the batch; the claim is then the only call: nothing
    is sent to the ledger and no row is updated. *)
Theorem unknown_processing_row_panics batch (w : W) :
  ((exists why, outcome (Worker.handleBatch maxTaskRetries batch w) = Panic why)
   <-> exists tasks id row,
         EGetAndMarkBatchAsProcessing (claimable_ids batch) maxTaskRetries (inr tasks)
           ∈ trace (Worker.handleBatch maxTaskRetries batch w)
         /\ tasks !! id = Some row /\ ls_Status row = StatusProcessing
         /\ id ∉ claimable_ids batch)
  /\ ((exists why, outcome (Worker.handleBatch maxTaskRetries batch w) = Panic why)
      -> exists tasks,
           trace (Worker.handleBatch maxTaskRetries batch w)
           = [EGetAndMarkBatchAsProcessing (claimable_ids batch) maxTaskRetries (inr tasks)]).
Proof.
  pose proof (handleBatch_handled maxTaskRetries batch w) as Hh.
  revert Hh.
  generalize (trace (Worker.handleBatch maxTaskRetries batch w)) as tr.
  generalize (outcome (Worker.handleBatch maxTaskRetries batch w)) as o.
  intros o tr Hh.
  pose proof (collect_ids batch) as Hids.
  assert (Hsome : forall tasks id row res,
    Worker.select_valid (Worker.collect batch).2 (map_range tasks) (∅, []) = Some res ->
    tasks !! id = Some row -> ls_Status row = StatusProcessing ->
    id ∉ claimable_ids batch -> False).
  { intros tasks id row res Hs Hl Hp Hno.
    assert (Hn : Worker.select_valid (Worker.collect batch).2 (map_range tasks) (∅, []) = None).
    { apply select_valid_panics. exists id, row.
      split; [by apply map_range_elem|]. split; [done|]. by apply collect_lookup_None. }
    congruence. }
  destruct Hh as [Hskip|err'|tasks' why Hp|tasks' Hnone
                 |tasks' entries' err' res' lines Hs Hne
                 |tasks' entries' proof results r1 r2 lines Hs Hne cf];
    rewrite ?Hids.
  - split; [split|]; [by intros [? ?]| |by intros [? ?]].
    intros (tasks & id & row & Hin & _). by apply elem_of_nil in Hin.
  - split; [split|]; [by intros [? ?]| |by intros [? ?]].
    intros (tasks & id & row & Hin & _). elem_cases Hin. discriminate.
  - split; [split|].
    + intros _. apply select_valid_panics in Hp as (k & v & Hin & Hst & Hm).
      exists tasks', k, v. split; [apply elem_of_cons; by left|].
      split; [by apply map_range_elem|]. split; [done|]. by apply collect_lookup_None.
    + intros _. by exists why.
    + intros _. by exists tasks'.
  - split; [split|]; [by intros [? ?]| |by intros [? ?]].
    intros (tasks & id & row & Hin & Hl & Hp & Hno). elem_cases Hin.
    injection Hin as ->.
    assert (Hc : claimed_processing tasks' !! id = Some row).
    { unfold claimed_processing. by apply map_lookup_filter_Some. }
    rewrite Hnone in Hc. by rewrite lookup_empty in Hc.
  - split; [split|]; [by intros [? ?]| |by intros [? ?]].
    intros (tasks & id & row & Hin & Hl & Hp & Hno). exfalso.
    elem_cases Hin; try discriminate;
      try (apply in_map_inv in Hin as (? & ? & Hin); discriminate).
    injection Hin as ->. by eapply Hsome.
  - split; [split|]; [by intros [? ?]| |by intros [? ?]].
    intros (tasks & id & row & Hin & Hl & Hp & Hno). exfalso.
    elem_cases Hin; try discriminate;
      try (apply in_mark_calls in Hin as [[Hin _]|[Hin _]]; discriminate);
      try (apply in_map_inv in Hin as (? & ? & Hin); discriminate).
    injection Hin as ->. by eapply Hsome.
Qed.

(** *** Every claimed row gets one record *)

Lemma resolve_fold_ids proof rm l : forall acc,
  let res := List.fold_left (Worker.resolve_step proof rm) l acc in
  List.map cr_RequestID res.1 ++ List.map fr_RequestID res.2
  ≡ₚ (List.map cr_RequestID acc.1 ++ List.map fr_RequestID acc.2) ++ l.*1.
Proof.
  induction l as [|[k v] l IH]; intros acc; simpl.
  - by rewrite app_nil_r.
  - rewrite IH. clear IH.
    destruct (rm !! ls_LogHash v) as [info|]; simpl.
    + destruct (String.eqb (si_Status info) StatusSuccess); simpl.
      * rewrite List.map_app. simpl. rewrite <- !app_assoc.
        apply Permutation_app_head. simpl. apply Permutation_middle.
      * rewrite List.map_app. simpl. rewrite <- !app_assoc. done.
    + rewrite List.map_app. simpl. rewrite <- !app_assoc. done.
Qed.

(** X6: after an answer of the ledger, the completion and failure records
    together name every row claimed into PROCESSING exactly once: no row
    is both completed and failed, none is recorded twice, and no other
    request id is recorded. *)
Theorem one_record_per_claimed_row batch (w : W) entries proof results :
  ESubmitLogsBatch entries (inr (proof, results))
    ∈ trace (Worker.handleBatch maxTaskRetries batch w) ->
  exists tasks cs fs r1 r2,
    calls (trace (Worker.handleBatch maxTaskRetries batch w))
      = [ EGetAndMarkBatchAsProcessing (claimable_ids batch) maxTaskRetries (inr tasks);
          ESubmitLogsBatch entries (inr (proof, results)) ]
        ++ mark_calls cs r1 fs r2
    /\ List.map cr_RequestID cs ++ List.map fr_RequestID fs
       ≡ₚ (map_to_list (claimed_processing tasks)).*1
    /\ NoDup (List.map cr_RequestID cs ++ List.map fr_RequestID fs).
Proof.
  intros Hin.
  pose proof (handleBatch_handled maxTaskRetries batch w) as Hh.
  revert Hin Hh.
  generalize (trace (Worker.handleBatch maxTaskRetries batch w)) as tr.
  generalize (outcome (Worker.handleBatch maxTaskRetries batch w)) as o.
  intros o tr Hin Hh.
  rewrite <- (collect_ids batch).
  destruct Hh as [Hskip|err'|tasks' why Hp|tasks' Hnone
                 |tasks' entries' err' res' lines Hs Hne
                 |tasks' entries' proof' results' r1 r2 lines Hs Hne cf];
    elem_cases Hin; try discriminate;
    try (apply in_mark_calls in Hin as [[Hin _]|[Hin _]]; discriminate);
    try (apply in_map_inv in Hin as (? & ? & Hin); discriminate).
  injection Hin as <- <- <-.
  assert (Hperm : List.map cr_RequestID cf.1 ++ List.map fr_RequestID cf.2
                  ≡ₚ (map_to_list (claimed_processing tasks')).*1).
  { unfold cf, Worker.resolve.
    rewrite (resolve_fold_ids proof (Worker.resultsMap results)
               (map_range (claimed_processing tasks')) ([], [])). simpl.
    by rewrite (map_range_perm _ (claimed_processing tasks')). }
  exists tasks', cf.1, cf.2, r1, r2. split; [|split; [done|]].
  - simpl. rewrite calls_app, calls_mark_calls, calls_logs, app_nil_r. done.
  - rewrite Hperm. apply NoDup_fst_map_to_list.
Qed.

(** X7: of several results of the ledger with the same log hash, the last
    one decides; a hash without a result is not found. *)
Theorem resultsMap_last results h :
  Worker.resultsMap results !! h = last (filter (fun r => si_LogHash r = h) results).
Proof.
  unfold Worker.resultsMap.
  assert (Hgen : forall acc : gmap string LogStatusInfo,
    List.fold_left (fun m res => <[si_LogHash res := res]> m) results acc !! h
    = match last (filter (fun r => si_LogHash r = h) results) with
      | Some r => Some r
      | None => acc !! h
      end).
  { induction results as [|r rest IH]; intros acc; simpl; [done|].
    rewrite IH. destruct (decide (si_LogHash r = h)) as [Heq|Hne].
    - rewrite filter_cons_True by done. rewrite last_cons.
      destruct (last (filter _ rest)); [done|]. by rewrite <- Heq, lookup_insert_eq.
    - rewrite filter_cons_False by done.
      destruct (last (filter _ rest)); [done|]. by rewrite lookup_insert_ne. }
  rewrite Hgen. destruct (last _); [done|]. apply lookup_empty.
Qed.


Lemma resultsMap_fold_found h l : forall acc : gmap string LogStatusInfo,
  (exists info, info ∈ l /\ si_LogHash info = h) \/ is_Some (acc !! h) ->
  is_Some (List.fold_left (fun m res => <[si_LogHash res := res]> m) l acc !! h).
Proof.
  induction l as [|r l IH]; intros acc Hcase; simpl.
  - destruct Hcase as [(info & Hin & _)|Hacc]; [by apply elem_of_nil in Hin | done].
  - apply IH. destruct Hcase as [(info & Hin & Hh)|Hacc].
    + apply elem_of_cons in Hin as [->|Hin]; [|left; by exists info].
      right. rewrite Hh, lookup_insert_eq. by eexists.
    + right. destruct (decide (si_LogHash r = h)) as [->|Hne].
      * rewrite lookup_insert_eq. by eexists.
      * by rewrite lookup_insert_ne.
Qed.

(** X24: the worker looks a result up under the hash of the row, while
    the entry it sent carries the hash of the message.  When the ledger
    answers with one result per entry under the entry's hash (as the
    contract does) and every claimed row has the hash of its message,
    every claimed row finds a result: none is failed for a missing
    result. *)
Theorem mirrored_results_are_found batch (w : W) entries proof results tasks :
  ESubmitLogsBatch entries (inr (proof, results))
    ∈ trace (Worker.handleBatch maxTaskRetries batch w) ->
  EGetAndMarkBatchAsProcessing (claimable_ids batch) maxTaskRetries (inr tasks)
    ∈ trace (Worker.handleBatch maxTaskRetries batch w) ->
  List.map si_LogHash results = List.map le_LogHash entries ->
  (forall id row msg,
      claimed_processing tasks !! id = Some row ->
      last_message batch id = Some msg ->
      msg_LogHash msg = ls_LogHash row) ->
  forall id row,
    claimed_processing tasks !! id = Some row ->
    exists info,
      Worker.resultsMap results !! ls_LogHash row = Some info
      /\ info ∈ results /\ si_LogHash info = ls_LogHash row.
Proof.
  intros Hsub Hget Hmirror Hhash id row Hrow.
  pose proof (handleBatch_handled maxTaskRetries batch w) as Hh.
  revert Hsub Hget Hh.
  generalize (trace (Worker.handleBatch maxTaskRetries batch w)) as tr.
  generalize (outcome (Worker.handleBatch maxTaskRetries batch w)) as o.
  intros o tr Hsub Hget Hh.
  destruct Hh as [Hskip|err'|tasks' why Hp|tasks' Hnone
                 |tasks' entries' err' res' lines Hs Hne
                 |tasks' entries' proof' results' r1 r2 lines Hs Hne cf];
    elem_cases Hsub; try discriminate;
    try (apply in_mark_calls in Hsub as [[Hsub _]|[Hsub _]]; discriminate);
    try (apply in_map_inv in Hsub as (? & ? & Hsub); discriminate).
  injection Hsub as <- <- <-.
  elem_cases Hget; try discriminate;
    try (apply in_mark_calls in Hget as [[Hget _]|[Hget _]]; discriminate);
    try (apply in_map_inv in Hget as (? & ? & Hget); discriminate).
  injection Hget as _ <-.
  apply select_valid_entries in Hs as (new & Hres & Hall). simpl in Hres. subst new.
  assert (Hin : (id, row) ∈ filter (fun kv : string * LogStatus =>
                                      ls_Status kv.2 = StatusProcessing)
                                   (map_range tasks)).
  { rewrite processing_rows_range. by apply elem_of_map_to_list. }
  destruct (Forall2_elem_l _ _ _ _ Hall Hin) as (e & He & msg & Hmsg & ->).
  simpl in Hmsg. rewrite collect_lookup in Hmsg.
  destruct (GoString.is_empty id); [done|].
  specialize (Hhash id row msg Hrow Hmsg).
  assert (Hfound : is_Some (Worker.resultsMap results !! ls_LogHash row)).
  { apply resultsMap_fold_found. left.
    assert (Hh' : ls_LogHash row ∈ List.map si_LogHash results).
    { rewrite Hmirror, <- Hhash.
      change (msg_LogHash msg) with (le_LogHash (entry_of_message msg)).
      apply list_elem_of_In, List.in_map. by apply list_elem_of_In. }
    apply list_elem_of_In, List.in_map_iff in Hh' as (info & Hi & Hin').
    exists info. split; [by apply list_elem_of_In | done]. }
  destruct Hfound as [info Hinfo]. exists info. split; [done|].
  by apply resultsMap_Some.
Qed.

End WorkerMore.

(** ** The consuming loop of the worker *)

Lemma bind_Done {W A B} (c : M W A) (k : A -> M W B) w b :
  outcome (bind c k w) = Done b ->
  exists a,
    outcome (c w) = Done a
    /\ outcome (k a (final (c w))) = Done b
    /\ final (bind c k w) = final (k a (final (c w)))
    /\ trace (bind c k w) = trace (c w) ++ trace (k a (final (c w))).
Proof.
  unfold bind, outcome, final, trace.
  destruct (c w) as [[[a|why] w1] t1]; simpl; [|done].
  destruct (k a w1) as [[o w2] t2] eqn:Hk; simpl. intros ->. exists a.
  rewrite Hk. done.
Qed.

Section LoopFacts.

Context {W : Type} `{!Store W} `{!BlockchainClient W} `{!GoMapRange}.
Variable maxTaskRetries : Z.
Variable workerID : Z.
Variable batchSize : Z.
Variable consume : Context -> M W (option LogMessage * option (AckFn W) * option error).

Lemma processBatch_Done st w st' :
  outcome (WorkerLoop.processBatch maxTaskRetries workerID st w) = Done st' ->
  (st' = st /\ WorkerLoop.batchMessages st = []) \/ st' = WorkerLoop.mk [] [] false.
Proof.
  unfold WorkerLoop.processBatch.
  destruct (List.length (WorkerLoop.batchMessages st) =? 0)%nat eqn:Hlen.
  - apply Nat.eqb_eq in Hlen. intros Ho. cbv [ret outcome] in Ho; simpl in Ho; injection Ho as <-. left.
    split; [done|]. by destruct (WorkerLoop.batchMessages st).
  - intros Ho. apply bind_Done in Ho as (_ & _ & Ho & _). cbv [ret outcome] in Ho; simpl in Ho; injection Ho as <-. by right.
Qed.

Lemma step_keeps_pending_ok sel st w st' :
  1 <= batchSize -> pending_ok batchSize st ->
  outcome (WorkerLoop.step maxTaskRetries workerID batchSize consume sel st w) = Done (Some st') -> pending_ok batchSize st'.
Proof.
  intros Hsize (Hlen & Hlt & Htimer) Ho.
  assert (Hempty : pending_ok (W := W) batchSize (WorkerLoop.mk [] [] false)).
  { unfold pending_ok. simpl. split; [done|]. split; [lia|]. split; done. }
  destruct sel as [| |cctx]; simpl in Ho.
  - apply bind_Done in Ho as (_ & _ & Ho & _).
    apply bind_Done in Ho as (_ & _ & Ho & _). done.
  - apply bind_Done in Ho as (st1 & Hp & Ho & _). cbv [ret outcome] in Ho; simpl in Ho; injection Ho as <-.
    apply processBatch_Done in Hp as [[-> Hnil]| ->]; [|done].
    simpl in Hnil. unfold pending_ok. simpl. rewrite Hnil in *. simpl in *.
    split; [done|]. split; [lia|]. split; done.
  - apply bind_Done in Ho as ([[msg ack] err] & _ & Ho & _).
    assert (Herr : forall err : error,
      outcome ((if is_DeadlineExceeded err || is_Canceled err then ret (Some st)
                else run logf ("Worker " +++ GoString.format_int workerID
                               +++ ": Consumer error: " +++ err) in ret (Some st))
                 (final (consume cctx w))) = Done (Some st') -> pending_ok batchSize st').
    { intros e. destruct (is_DeadlineExceeded e || is_Canceled e); intros Hr.
      - cbv [ret outcome] in Hr; simpl in Hr; injection Hr as <-. done.
      - apply bind_Done in Hr as (_ & _ & Hr & _).
        cbv [ret outcome] in Hr; simpl in Hr; injection Hr as <-. done. }
    destruct msg as [msg|], err as [e|]; try (by apply (Herr e)).
    2: { cbv [ret outcome] in Ho; simpl in Ho; injection Ho as <-; done. }
    clear Herr.
    simpl in Ho.
    destruct (Z.geb_spec (Z.of_nat (List.length (WorkerLoop.batchMessages st ++ [msg])))
                batchSize) as [Hge|Hsmall].
    + apply bind_Done in Ho as (st2 & Hp & Ho & _). cbv [ret outcome] in Ho; simpl in Ho; injection Ho as <-.
      apply processBatch_Done in Hp as [[_ Hnil]| ->]; [|exact Hempty].
      simpl in Hnil. by destruct (WorkerLoop.batchMessages st).
    + cbv [ret outcome] in Ho; simpl in Ho; injection Ho as <-. unfold pending_ok. simpl.
      rewrite length_app in Hsmall. simpl in Hsmall.
      rewrite !length_app. simpl. split; [lia|]. split; [lia|].
      split; [intros _; by destruct (WorkerLoop.batchMessages st)|].
      intros _. destruct (WorkerLoop.batchMessages st) eqn:Hm; simpl; [done|].
      apply Htimer. done.
Qed.

Lemma loop_keeps_pending_ok sels : forall st w st',
  1 <= batchSize -> pending_ok batchSize st ->
  outcome (WorkerLoop.loop maxTaskRetries workerID batchSize consume sels st w) = Done (Some st') -> pending_ok batchSize st'.
Proof.
  induction sels as [|sel sels IH]; intros st w st' Hsize Hok Ho; simpl in Ho.
  - cbv [ret outcome] in Ho; simpl in Ho; injection Ho as <-. done.
  - apply bind_Done in Ho as (next & Hs & Ho & _).
    destruct next as [st1|]; [|done].
    eapply IH; [done| |exact Ho]. eapply step_keeps_pending_ok; eauto.
Qed.


Lemma for_each_invoke_Some b (acks : list (AckFn W)) : forall i w,
  for_each (WorkerLoop.invoke b) i (List.map Some acks) w
  = for_each (Worker.invoke_ack b) i acks w.
Proof.
  induction acks as [|ack acks IH]; intros i w; simpl; [done|].
  unfold bind. destruct (Worker.invoke_ack b i ack w) as [[[[]|why] w1] t1]; [|done].
  by rewrite IH.
Qed.

(** With callbacks that are all present, the loop acknowledges a batch
    as [Worker.processAndAckBatch] does. *)
Lemma processAndAckBatch_Some batch (acks : list (AckFn W)) w :
  WorkerLoop.processAndAckBatch maxTaskRetries workerID batch (List.map Some acks) w
  = Worker.processAndAckBatch maxTaskRetries workerID batch acks w.
Proof.
  unfold WorkerLoop.processAndAckBatch, Worker.processAndAckBatch, bind.
  destruct (Worker.handleBatch maxTaskRetries batch w) as [[[[e|]|why] w1] t1]; [| |done].
  - rewrite length_map. unfold logf, emit. by rewrite for_each_invoke_Some.
  - by rewrite for_each_invoke_Some.
Qed.

End LoopFacts.

(** X8: between two turns of the consuming loop of a worker built by
    [New], there are as many pending callbacks as pending messages, fewer
    than the batch size (a batch is processed as soon as it is full), and
    the batch timer runs exactly when messages are pending. *)
Theorem pending_batch_invariant {W : Type} `{!Store W} `{!BlockchainClient W}
    `{!GoMapRange} maxTaskRetries workerID cfgBatchSize
    (consume : Context -> M W (option LogMessage * option (AckFn W) * option error))
    sels (w : W) st :
  outcome (WorkerLoop.processMessagesInBatch maxTaskRetries workerID
             (WorkerLoop.New_BatchSize cfgBatchSize) consume sels w) = Done (Some st) ->
  List.length (WorkerLoop.kafkaAcks st) = List.length (WorkerLoop.batchMessages st)
  /\ Z.of_nat (List.length (WorkerLoop.batchMessages st))
     < WorkerLoop.New_BatchSize cfgBatchSize
  /\ (WorkerLoop.timerRunning st = true <-> WorkerLoop.batchMessages st <> []).
Proof.
  intros Ho.
  assert (Hsize : 1 <= WorkerLoop.New_BatchSize cfgBatchSize).
  { unfold WorkerLoop.New_BatchSize. destruct (Z.leb_spec cfgBatchSize 0); lia. }
  assert (Hinit : pending_ok (W := W) (WorkerLoop.New_BatchSize cfgBatchSize)
                    (WorkerLoop.mk [] [] false)).
  { unfold pending_ok. simpl. split; [done|]. split; [lia|]. split; done. }
  destruct (loop_keeps_pending_ok maxTaskRetries workerID _ consume sels _ w st
              Hsize Hinit Ho) as (Hlen & Hlt & Htimer).
  done.
Qed.

(** X9: when the context is done the loop does not process the pending
    batch: it makes no call to the state store or the ledger, invokes
    every pending callback once, in order, with [false], and returns. *)
Theorem ctx_done_nacks_pending {W : Type} `{!Store W} `{!BlockchainClient W}
    `{!GoMapRange} maxTaskRetries workerID batchSize
    (consume : Context -> M W (option LogMessage * option (AckFn W) * option error))
    (st : WorkerLoop.t W) (acks : list (AckFn W)) (w : W) :
  WorkerLoop.kafkaAcks st = List.map Some acks ->
  outcome (WorkerLoop.step maxTaskRetries workerID batchSize consume
             WorkerLoop.CtxDone st w) = Done None
  /\ calls (trace (WorkerLoop.step maxTaskRetries workerID batchSize consume
                     WorkerLoop.CtxDone st w)) = []
  /\ acks_of (trace (WorkerLoop.step maxTaskRetries workerID batchSize consume
                       WorkerLoop.CtxDone st w))
     = all_acks false (List.length acks).
Proof.
  intros Hacks. simpl. rewrite Hacks, length_map.
  unfold bind, logf, emit, ret.
  destruct (0 <? List.length acks)%nat eqn:Hlen.
  - rewrite for_each_invoke_Some.
    destruct (for_each_ack_run false acks 0%nat w) as (Ho & Ha & Hc).
    destruct (for_each (Worker.invoke_ack false) 0 acks w) as [[o w2] t2].
    unfold outcome, trace in *. simpl in *. subst o. simpl.
    rewrite app_nil_r. done.
  - apply Nat.ltb_ge in Hlen. destruct acks; [|simpl in Hlen; lia]. done.
Qed.

(** *** The loop over a Kafka consumer *)

Section KafkaLoopFacts.

Context {W : Type} `{!Store W} `{!BlockchainClient W} `{!GoMapRange}
        `{!KafkaReader W} `{!GoLib}.
Variable maxTaskRetries : Z.
Variable workerID : Z.
Variable batchSize : Z.

Lemma deliveries_app t1 t2 : deliveries (t1 ++ t2) = (deliveries t1 + deliveries t2)%nat.
Proof. unfold deliveries. by rewrite List.filter_app, length_app. Qed.

Lemma deliveries_logs lines : deliveries (List.map ELog lines) = 0%nat.
Proof. induction lines; simpl; auto. Qed.

Lemma deliveries_in_ack i evs : deliveries (List.map (EInAck i) evs) = 0%nat.
Proof. induction evs; simpl; auto. Qed.

Lemma deliveries_mark_calls cs r1 fs r2 : deliveries (mark_calls cs r1 fs r2) = 0%nat.
Proof. unfold mark_calls. by do 2 case_match. Qed.

Lemma handled_no_deliveries batch o tr :
  Worker.handled maxTaskRetries batch o tr -> deliveries tr = 0%nat.
Proof.
  destruct 1; try done.
  - rewrite deliveries_app, deliveries_logs. done.
  - rewrite !deliveries_app, deliveries_mark_calls, deliveries_logs. done.
Qed.

Lemma for_each_invoke_counts b (acks : list (option (AckFn W))) : forall i w,
  outcome (for_each (WorkerLoop.invoke b) i acks w) = Done tt ->
  List.length (acks_of (trace (for_each (WorkerLoop.invoke b) i acks w)))
    = List.length acks
  /\ deliveries (trace (for_each (WorkerLoop.invoke b) i acks w)) = 0%nat.
Proof.
  induction acks as [|ack acks IH]; intros i w Ho; simpl in *; [done|].
  apply bind_Done in Ho as ([] & Hack & Ho & _ & ->).
  apply IH in Ho as [Ha Hd].
  rewrite acks_of_app, deliveries_app, length_app, Ha, Hd.
  destruct ack as [f|]; [|done]. simpl.
  unfold Worker.invoke_ack, trace. destruct (f b w) as [w1 evs]. simpl.
  rewrite acks_of_in_ack.
  change (EAck i b :: List.map (EInAck i) evs)
    with ([EAck i b] ++ List.map (EInAck i) evs).
  rewrite deliveries_app, deliveries_in_ack. done.
Qed.

Lemma processAndAckBatch_counts batch (acks : list (option (AckFn W))) w :
  outcome (WorkerLoop.processAndAckBatch maxTaskRetries workerID batch acks w) = Done tt ->
  List.length (acks_of (trace (WorkerLoop.processAndAckBatch maxTaskRetries workerID
                                  batch acks w)))
    = List.length acks
  /\ deliveries (trace (WorkerLoop.processAndAckBatch maxTaskRetries workerID
                          batch acks w)) = 0%nat.
Proof.
  intros Ho. unfold WorkerLoop.processAndAckBatch in *.
  apply bind_Done in Ho as (e & Hh & Ho & _ & ->).
  pose proof (handleBatch_handled maxTaskRetries batch w) as Hhd.
  rewrite acks_of_app, deliveries_app, length_app.
  rewrite (handled_no_acks _ _ _ _ Hhd), (handled_no_deliveries _ _ _ Hhd). simpl.
  destruct e as [e|].
  - apply bind_Done in Ho as ([] & _ & Ho & _ & ->).
    apply for_each_invoke_counts in Ho as [Ha Hd].
    rewrite acks_of_app, deliveries_app, length_app, Ha, Hd. done.
  - by apply for_each_invoke_counts in Ho.
Qed.

(** [Consume] hands over a message, with its callback, exactly when it
    fetched one that deserializes. *)
Lemma Consume_counts ctx w :
  exists msg ack err,
    outcome (KafkaConsumer.Consume ctx w) = Done (msg, ack, err)
    /\ acks_of (trace (KafkaConsumer.Consume ctx w)) = []
    /\ ((exists m f, msg = Some m /\ ack = Some f /\ err = None
                     /\ deliveries (trace (KafkaConsumer.Consume ctx w)) = 1%nat)
        \/ (msg = None /\ deliveries (trace (KafkaConsumer.Consume ctx w)) = 0%nat)).
Proof.
  unfold KafkaConsumer.Consume, bind, call, ret, logf, emit, outcome, trace.
  destruct (FetchMessage w) as [w1 [err|km]] eqn:Hf; simpl.
  - destruct (is_Canceled err); simpl; eexists _, _, _;
      (split; [done|]); (split; [done|]); right; done.
  - destruct (json_Unmarshal_LogMessage (km_Value km)) as [err|m] eqn:Hu; simpl.
    + destruct (CommitMessages km w1) as [w2 res]. simpl.
      eexists _, _, _. split; [done|]. split; [done|]. right. split; [done|].
      unfold deliveries. simpl. by rewrite Hu.
    + eexists _, _, _. split; [done|]. split; [done|]. left.
      eexists _, _. split; [done|]. split; [done|]. split; [done|].
      unfold deliveries. simpl. by rewrite Hu.
Qed.

Lemma processBatch_counts (st st1 : WorkerLoop.t W) w :
  List.length (WorkerLoop.batchMessages st) = List.length (WorkerLoop.kafkaAcks st) ->
  outcome (WorkerLoop.processBatch maxTaskRetries workerID st w) = Done st1 ->
  deliveries (trace (WorkerLoop.processBatch maxTaskRetries workerID st w)) = 0%nat
  /\ (List.length (acks_of (trace (WorkerLoop.processBatch maxTaskRetries workerID st w)))
      + List.length (WorkerLoop.batchMessages st1))%nat
     = List.length (WorkerLoop.batchMessages st)
  /\ List.length (WorkerLoop.batchMessages st1) = List.length (WorkerLoop.kafkaAcks st1).
Proof.
  intros Hlen Ho. unfold WorkerLoop.processBatch in *.
  destruct (List.length (WorkerLoop.batchMessages st) =? 0)%nat.
  - cbv [ret outcome] in Ho; simpl in Ho; injection Ho as <-. done.
  - apply bind_Done in Ho as ([] & Hp & Ho & _ & ->).
    cbv [ret outcome] in Ho; simpl in Ho; injection Ho as <-.
    apply processAndAckBatch_counts in Hp as [Ha Hd].
    rewrite acks_of_app, deliveries_app, length_app, Ha, Hd. simpl.
    split; [done|]. lia.
Qed.

Lemma step_counts sel (st : WorkerLoop.t W) w r :
  List.length (WorkerLoop.batchMessages st) = List.length (WorkerLoop.kafkaAcks st) ->
  outcome (WorkerLoop.step maxTaskRetries workerID batchSize KafkaConsumer.Consume
             sel st w) = Done r ->
  (deliveries (trace (WorkerLoop.step maxTaskRetries workerID batchSize
                        KafkaConsumer.Consume sel st w))
   + List.length (WorkerLoop.batchMessages st))%nat
  = (List.length (acks_of (trace (WorkerLoop.step maxTaskRetries workerID batchSize
                                     KafkaConsumer.Consume sel st w)))
     + pending_count r)%nat
  /\ forall st1, r = Some st1 ->
       List.length (WorkerLoop.batchMessages st1) = List.length (WorkerLoop.kafkaAcks st1).
Proof.
  intros Hlen Ho. destruct sel as [| |cctx]; simpl in *.
  - apply bind_Done in Ho as ([] & _ & Ho & _ & ->).
    apply bind_Done in Ho as ([] & Hacks & Ho & _ & ->).
    cbv [ret outcome] in Ho; simpl in Ho; injection Ho as <-.
    split; [|done].
    rewrite !acks_of_app, !deliveries_app, !length_app.
    destruct (0 <? List.length (WorkerLoop.kafkaAcks st))%nat eqn:Hpos.
    + apply for_each_invoke_counts in Hacks as [Ha Hd]. rewrite Ha, Hd.
      unfold deliveries. simpl. lia.
    + apply Nat.ltb_ge in Hpos. unfold deliveries. simpl. lia.
  - apply bind_Done in Ho as (st1 & Hp & Ho & _ & ->).
    cbv [ret outcome] in Ho; simpl in Ho; injection Ho as <-.
    apply processBatch_counts in Hp as (Hd & Ha & Hl); [|done]. simpl in Ha.
    rewrite acks_of_app, deliveries_app, length_app, Hd. simpl.
    split; [lia|]. by intros ? [= <-].
  - destruct (Consume_counts cctx w) as (msg & ack & err & Hc & Hna & Hcase).
    apply bind_Done in Ho as (res & Hc' & Ho & _ & ->).
    rewrite Hc in Hc'. injection Hc' as <-.
    rewrite acks_of_app, deliveries_app, length_app, Hna. simpl.
    destruct Hcase as [(m & f & -> & -> & -> & Hd)|[-> Hd]]; rewrite Hd.
    + destruct (Z.of_nat (List.length (WorkerLoop.batchMessages st ++ [m])) >=? batchSize).
      * apply bind_Done in Ho as (st2 & Hp & Ho & _ & ->).
        cbv [ret outcome] in Ho; simpl in Ho; injection Ho as <-.
        apply processBatch_counts in Hp as (Hd2 & Ha & Hl);
          [|simpl; rewrite !length_app; simpl; lia].
        simpl in Ha. rewrite length_app in Ha. simpl in Ha.
        rewrite acks_of_app, deliveries_app, length_app, Hd2. simpl.
        split; [lia|]. by intros ? [= <-].
      * cbv [ret outcome trace] in *; simpl in *; injection Ho as <-. simpl.
        rewrite !length_app. simpl. split; [lia|]. intros ? [= <-]. simpl.
        rewrite !length_app. simpl. lia.
    + assert (Hsame : r = Some st
                /\ deliveries (trace ((match err with
                     | Some e =>
                         if is_DeadlineExceeded e || is_Canceled e then ret (Some st)
                         else run logf ("Worker " +++ GoString.format_int workerID
                                        +++ ": Consumer error: " +++ e) in ret (Some st)
                     | None => ret (Some st)
                     end) (final (KafkaConsumer.Consume cctx w)))) = 0%nat
                /\ acks_of (trace ((match err with
                     | Some e =>
                         if is_DeadlineExceeded e || is_Canceled e then ret (Some st)
                         else run logf ("Worker " +++ GoString.format_int workerID
                                        +++ ": Consumer error: " +++ e) in ret (Some st)
                     | None => ret (Some st)
                     end) (final (KafkaConsumer.Consume cctx w)))) = []).
      { destruct err as [e|].
        - destruct (is_DeadlineExceeded e || is_Canceled e).
          + cbv [ret outcome] in Ho; simpl in Ho; injection Ho as <-. done.
          + apply bind_Done in Ho as ([] & _ & Ho & _ & ->).
            cbv [ret outcome] in Ho; simpl in Ho; injection Ho as <-. done.
        - cbv [ret outcome] in Ho; simpl in Ho; injection Ho as <-. done. }
      destruct Hsame as (-> & Hd0 & Ha0). rewrite Hd0, Ha0. simpl.
      split; [lia|]. by intros ? [= <-].
Qed.

Lemma loop_counts sels : forall (st : WorkerLoop.t W) w r,
  List.length (WorkerLoop.batchMessages st) = List.length (WorkerLoop.kafkaAcks st) ->
  outcome (WorkerLoop.loop maxTaskRetries workerID batchSize KafkaConsumer.Consume
             sels st w) = Done r ->
  (deliveries (trace (WorkerLoop.loop maxTaskRetries workerID batchSize
                        KafkaConsumer.Consume sels st w))
   + List.length (WorkerLoop.batchMessages st))%nat
  = (List.length (acks_of (trace (WorkerLoop.loop maxTaskRetries workerID batchSize
                                     KafkaConsumer.Consume sels st w)))
     + pending_count r)%nat.
Proof.
  induction sels as [|sel sels IH]; intros st w r Hlen Ho; simpl in *.
  - cbv [ret outcome] in Ho; simpl in Ho; injection Ho as <-. done.
  - apply bind_Done in Ho as (next & Hs & Ho & _ & ->).
    apply step_counts in Hs as [Hcount Hnext]; [|done].
    rewrite acks_of_app, deliveries_app, length_app.
    destruct next as [st1|].
    + apply IH in Ho; [|by apply Hnext]. simpl in Hcount. lia.
    + cbv [ret outcome] in Ho; simpl in Ho; injection Ho as <-.
      unfold deliveries in *. simpl in *. lia.
Qed.

(** X10: in a run of the consuming loop over the Kafka consumer, the
    acknowledgements and the pending messages account for the messages
    the consumer handed over: the number of handed-over messages is the
    number of acknowledgements plus the number of pending messages. *)
Theorem consumed_messages_are_acknowledged_once sels (w : W) r :
  outcome (WorkerLoop.processMessagesInBatch maxTaskRetries workerID batchSize
             KafkaConsumer.Consume sels w) = Done r ->
  deliveries (trace (WorkerLoop.processMessagesInBatch maxTaskRetries workerID batchSize
                       KafkaConsumer.Consume sels w))
  = (List.length (acks_of (trace (WorkerLoop.processMessagesInBatch maxTaskRetries
                                     workerID batchSize KafkaConsumer.Consume sels w)))
     + pending_count r)%nat.
Proof.
  intros Ho. unfold WorkerLoop.processMessagesInBatch in *.
  apply loop_counts in Ho; [|done]. simpl in Ho. lia.
Qed.

End KafkaLoopFacts.

(** ** The batcher, one operation after another *)

Section BatcherOrder.

Context {W : Type} `{!Store W} `{!Producer W} `{!Clock W}.

Lemma insert_attempts_app t1 t2 :
  insert_attempts (t1 ++ t2) = insert_attempts t1 ++ insert_attempts t2.
Proof. unfold insert_attempts. apply List.flat_map_app. Qed.

Lemma insert_attempts_now ts : insert_attempts (List.map ENow ts) = [].
Proof. induction ts; simpl; auto. Qed.

Lemma insert_attempts_in_publish evs : insert_attempts (List.map EInPublish evs) = [].
Proof. induction evs; simpl; auto. Qed.

Lemma insert_attempts_logs lines : insert_attempts (List.map ELog lines) = [].
Proof. induction lines; simpl; auto. Qed.

Lemma drops_app t1 t2 : drops (t1 ++ t2) = (drops t1 + drops t2)%nat.
Proof. unfold drops. by rewrite List.filter_app, length_app. Qed.

Lemma rows_request_ids batch rows (ts : list GoTime.Time) :
  Forall2 (fun e r => exists t, t ∈ ts /\ r = BatchProcessor.row_of e t) batch rows ->
  List.map ls_RequestID rows = request_ids batch.
Proof.
  induction 1 as [|e r batch rows (t & _ & ->) _ IH]; simpl; [done|]. by rewrite IH.
Qed.

(** A flush hands the request ids of its batch to the store, once and in
    order. *)
Lemma processBatch_attempts batch (w : W) :
  outcome (BatchProcessor.processBatch batch w) = Done tt
  /\ insert_attempts (trace (BatchProcessor.processBatch batch w)) = request_ids batch.
Proof.
  destruct (processBatch_flushed batch w) as [Ho Hf]. split; [done|].
  revert Hf. generalize (trace (BatchProcessor.processBatch batch w)) as tr.
  intros tr Hf.
  destruct Hf as [->|rows ts e Hrows|rows msgs ts w1 w2 evs res lines Hrows Hmsgs Hpub].
  - done.
  - rewrite insert_attempts_app, insert_attempts_now. simpl.
    rewrite app_nil_r. by eapply rows_request_ids.
  - rewrite !insert_attempts_app, insert_attempts_now, insert_attempts_in_publish,
      insert_attempts_logs. simpl.
    rewrite !app_nil_r. by eapply rows_request_ids.
Qed.

Lemma request_ids_app l1 l2 : request_ids (l1 ++ l2) = request_ids l1 ++ request_ids l2.
Proof. apply List.map_app. Qed.

Lemma held_request_ids (bp : BatchProcessor.t) :
  request_ids (BatchProcessor.held bp)
  = request_ids (List.concat (BatchProcessor.flushChan bp))
    ++ request_ids (BatchProcessor.buffer bp).
Proof. unfold BatchProcessor.held. apply request_ids_app. Qed.

Lemma op_in_order o (bp : BatchProcessor.t) (w : W) :
  drops (trace (BatcherRun.op o bp w)) = 0%nat ->
  exists bp',
    outcome (BatcherRun.op o bp w) = Done bp'
    /\ insert_attempts (trace (BatcherRun.op o bp w))
         ++ request_ids (BatchProcessor.held bp')
       = request_ids (BatchProcessor.held bp) ++ BatcherRun.submitted [o].
Proof.
  destruct o as [input requestID| |]; simpl.
  - unfold BatchProcessor.SubmitLog. simpl.
    destruct (Z.of_nat (List.length (BatchProcessor.buffer bp ++ [_])) >=? _).
    + unfold BatchProcessor.can_send. simpl.
      destruct (List.length (BatchProcessor.flushChan bp) <? BatchProcessor.flushCap bp)%nat.
      * intros _. eexists. split; [done|]. simpl.
        unfold BatchProcessor.held. simpl.
        rewrite concat_app. simpl. rewrite !app_nil_r, !request_ids_app. simpl.
        by rewrite <- app_assoc.
      * intros Hd. discriminate.
    + intros _. eexists. split; [done|]. simpl.
      unfold BatchProcessor.held. simpl. rewrite !request_ids_app. simpl.
      by rewrite <- app_assoc.
  - intros _. eexists. split; [done|]. simpl.
    by rewrite flushIfNeeded_keeps_held, app_nil_r.
  - intros _. unfold BatchProcessor.flushWorkerStep.
    destruct (BatchProcessor.flushChan bp) as [|batch rest] eqn:Hchan.
    + eexists. split; [done|]. simpl. by rewrite app_nil_r.
    + unfold bind, ret.
      destruct (0 <? List.length batch)%nat eqn:Hlen.
      * destruct (processBatch_attempts batch w) as [Ho Ha].
        destruct (BatchProcessor.processBatch batch w) as [[o w1] tr].
        unfold outcome, trace in *. simpl in *. subst o. simpl.
        eexists. split; [done|]. simpl.
        rewrite !app_nil_r, Ha. unfold BatchProcessor.held. simpl. rewrite Hchan. simpl.
        rewrite !request_ids_app. by rewrite <- app_assoc.
      * apply Nat.ltb_ge in Hlen. destruct batch; [|simpl in Hlen; lia].
        eexists. split; [done|]. simpl.
        unfold BatchProcessor.held. simpl. rewrite Hchan. simpl. by rewrite app_nil_r.
Qed.

(** X11: as long as no call of [SubmitLog] reports a dropped buffer, the
    batcher keeps the order of submission and loses nothing: the request
    ids handed to the state store, followed by those still held, are the
    ids held before followed by those submitted (operations taken one
    after another). *)
Theorem batcher_keeps_submission_order l : forall (bp : BatchProcessor.t) (w : W),
  drops (trace (BatcherRun.ops l bp w)) = 0%nat ->
  exists bp',
    outcome (BatcherRun.ops l bp w) = Done bp'
    /\ insert_attempts (trace (BatcherRun.ops l bp w))
         ++ request_ids (BatchProcessor.held bp')
       = request_ids (BatchProcessor.held bp) ++ BatcherRun.submitted l.
Proof.
  induction l as [|o l IH]; intros bp w Hd; simpl in *.
  - exists bp. split; [done|]. by rewrite app_nil_r.
  - unfold bind in *.
    pose proof (op_in_order o bp w) as Hop.
    destruct (BatcherRun.op o bp w) as [[[bp1|why] w1] t1]; unfold outcome, trace in *;
      simpl in *.
    + specialize (IH bp1 w1).
      destruct (BatcherRun.ops l bp1 w1) as [[o2 w2] t2]. simpl in *.
      rewrite drops_app in Hd.
      specialize (Hop ltac:(lia)). specialize (IH ltac:(lia)).
      destruct Hop as (bp1' & [= <-] & Ha1).
      destruct IH as (bp' & -> & Ha2).
      exists bp'. split; [done|].
      rewrite insert_attempts_app, <- app_assoc, Ha2, app_assoc, Ha1.
      rewrite app_nil_r. by rewrite <- !app_assoc.
    + specialize (Hop Hd). destruct Hop as (bp1' & Hbad & _). discriminate.
Qed.

Lemma doneCase_run (bp : BatchProcessor.t) (w : W) :
  exists bp',
    outcome (BatcherRun.doneCase bp w) = Done bp'
    /\ BatchProcessor.buffer bp' = []
    /\ BatchProcessor.flushChan bp' = BatchProcessor.flushChan bp
    /\ insert_attempts (trace (BatcherRun.doneCase bp w))
       = request_ids (BatchProcessor.buffer bp).
Proof.
  unfold BatcherRun.doneCase, bind, ret.
  destruct (0 <? List.length (BatchProcessor.buffer bp))%nat eqn:Hlen.
  - destruct (processBatch_attempts (BatchProcessor.buffer bp) w) as [Ho Ha].
    destruct (BatchProcessor.processBatch (BatchProcessor.buffer bp) w) as [[o w1] tr].
    unfold outcome, trace in *. simpl in *. subst o. simpl.
    eexists. split; [done|]. simpl. by rewrite app_nil_r.
  - apply Nat.ltb_ge in Hlen.
    destruct (BatchProcessor.buffer bp); [|simpl in Hlen; lia].
    eexists. split; [done|]. done.
Qed.

Lemma flushWorkerStep_run (bp : BatchProcessor.t) (w : W) batch rest :
  BatchProcessor.flushChan bp = batch :: rest ->
  outcome (BatchProcessor.flushWorkerStep bp w)
  = Done (BatchProcessor.set_flushChan bp rest)
  /\ insert_attempts (trace (BatchProcessor.flushWorkerStep bp w)) = request_ids batch.
Proof.
  intros Hchan. unfold BatchProcessor.flushWorkerStep. rewrite Hchan.
  unfold bind, ret.
  destruct (0 <? List.length batch)%nat eqn:Hlen.
  - destruct (processBatch_attempts batch w) as [Ho Ha].
    destruct (BatchProcessor.processBatch batch w) as [[o w1] tr].
    unfold outcome, trace in *. simpl in *. subst o. simpl.
    split; [done|]. by rewrite app_nil_r.
  - apply Nat.ltb_ge in Hlen. destruct batch; [|simpl in Hlen; lia]. done.
Qed.

(** X12: once the context is cancelled the flush worker receives some
    of the waiting batches, as many as the [select] picks the receive
    case for, and then takes the [ctx.Done] case.  It hands to the state
    store the batches it received and then the buffered entries, in
    order, and returns with an empty buffer; the batches it did not
    receive are left on the flush channel and are not processed: the
    [ctx.Done] case does not drain the channel. *)
Theorem shutdown_leaves_unreceived_batches (receives : nat)
    (bp : BatchProcessor.t) (w : W) :
  exists bp',
    outcome (BatcherRun.batchProcessor receives bp w) = Done bp'
    /\ BatchProcessor.buffer bp' = []
    /\ BatchProcessor.flushChan bp'
       = drop (Nat.min receives (List.length (BatchProcessor.flushChan bp)))
              (BatchProcessor.flushChan bp)
    /\ insert_attempts (trace (BatcherRun.batchProcessor receives bp w))
       = request_ids
           (concat (take (Nat.min receives (List.length (BatchProcessor.flushChan bp)))
                         (BatchProcessor.flushChan bp)))
         ++ request_ids (BatchProcessor.buffer bp).
Proof.
  revert bp w. induction receives as [|receives IH]; intros bp w.
  - simpl. destruct (doneCase_run bp w) as (bp' & Ho & Hb & Hc & Ha).
    exists bp'. rewrite drop_0. by destruct (BatchProcessor.flushChan bp).
  - simpl. destruct (BatchProcessor.flushChan bp) as [|batch rest] eqn:Hchan.
    + destruct (doneCase_run bp w) as (bp' & Ho & Hb & Hc & Ha).
      exists bp'. by rewrite Hchan in Hc.
    + destruct (flushWorkerStep_run bp w batch rest Hchan) as [Ho Ha].
      unfold bind.
      destruct (BatchProcessor.flushWorkerStep bp w) as [[o w1] tr1].
      unfold outcome, trace in Ho, Ha. simpl in Ho, Ha. subst o.
      destruct (IH (BatchProcessor.set_flushChan bp rest) w1)
        as (bp' & Ho' & Hb & Hc & Ha').
      destruct (BatcherRun.batchProcessor receives
                  (BatchProcessor.set_flushChan bp rest) w1) as [[o2 w2] tr2].
      unfold outcome, trace in *. simpl in *. subst o2.
      exists bp'. split; [done|]. split; [done|]. split; [done|].
      rewrite insert_attempts_app, Ha, Ha', request_ids_app. by rewrite <- app_assoc.
Qed.

End BatcherOrder.

(** ** The front ends *)

Section FrontEndFacts.

Context {W : Type} `{!Clock W} `{!UUIDSource W} `{!GoLib}.

(** The hand-overs to the batcher in a trace. *)
Lemma statusCodeFor_cases err :
  LogHandler.statusCodeFor err = 400 \/ LogHandler.statusCodeFor err = 500.
Proof.
  unfold LogHandler.statusCodeFor.
  destruct (String.eqb err _); [by left|].
  destruct (Regexp.MatchString _ err); [by left | by right].
Qed.

(** A run of the receipt service: a rejection without hand-over, or a
    receipt with one hand-over. *)
Lemma Service_SubmitLog_run input (w : W) :
  (exists e tr,
      outcome (Service.SubmitLog input w) = Done (inl e)
      /\ trace (Service.SubmitLog input w) = tr
      /\ (forall i id, EGoSubmitLog i id ∉ tr)
      /\ (forall id, ENewUUID id ∉ tr)
      /\ LogHandler.responses tr = [])
  \/ (exists t id,
      outcome (Service.SubmitLog input w)
        = Done (inr (mkLogResult id (Sha256.hex_sum (in_LogContent input)) t))
      /\ trace (Service.SubmitLog input w)
         = [ENow t; ENewUUID id;
            EGoSubmitLog (Service.with_hash input (Sha256.hex_sum (in_LogContent input))) id]
      /\ in_LogContent input <> EmptyString
      /\ (in_ClientLogHash input = EmptyString
          \/ in_ClientLogHash input = Sha256.hex_sum (in_LogContent input))).
Proof.
  unfold Service.SubmitLog.
  destruct (GoString.is_empty (in_LogContent input)) eqn:Hc.
  { left. exists Service.err_empty, []. split; [done|]. split; [done|].
    split; [intros ? ? Hin; by apply elem_of_nil in Hin|].
    split; [intros ? Hin; by apply elem_of_nil in Hin | done]. }
  apply is_empty_false in Hc.
  unfold bind, call, ret, emit, outcome, trace. destruct (Now w) as [w1 t]. simpl.
  destruct (GoString.is_empty (in_ClientLogHash input)) eqn:Hh; simpl.
  - apply is_empty_true in Hh. destruct (NewString w1) as [w2 id]. simpl.
    right. exists t, id. split; [done|]. split; [done|]. split; [done|]. by left.
  - destruct (String.eqb_spec (in_ClientLogHash input)
                (Sha256.hex_sum (in_LogContent input))) as [Heq|Hne]; simpl.
    + destruct (NewString w1) as [w2 id]. simpl.
      right. exists t, id. split; [done|]. split; [done|]. split; [done|]. by right.
    + left. eexists _, _. split; [done|]. split; [done|].
      split; [intros ? ? Hin; elem_cases Hin; discriminate|].
      split; [intros ? Hin; elem_cases Hin; discriminate | done].
Qed.


Lemma responses_logs lines : LogHandler.responses (List.map ELog lines) = [].
Proof. induction lines; simpl; auto. Qed.

(** A run of the handler: a rejection, or an acceptance with the
    hand-over of [handler_input]. *)
Lemma Handler_SubmitLog_run (r : Request) (w : W) :
  outcome (LogHandler.SubmitLog r w) = Done tt
  /\ ((exists code body pre,
         trace (LogHandler.SubmitLog r w) = pre ++ [ERespond code body]
         /\ (code = 400 \/ code = 405 \/ code = 413 \/ code = 500)
         /\ LogHandler.responses pre = []
         /\ (forall i id, EGoSubmitLog i id ∉ pre))
      \/ (exists payload t id lines,
         json_Decode_ReqPayload (rq_Body r) = inr payload
         /\ rq_Method r = "POST"
         /\ rq_ContentType r = "application/json"
         /\ rq_ContentLength r <= LogHandler.maxContentLength
         /\ rp_LogContent payload <> EmptyString
         /\ (rp_ClientLogHash payload = EmptyString
             \/ rp_ClientLogHash payload = Sha256.hex_sum (rp_LogContent payload))
         /\ trace (LogHandler.SubmitLog r w)
            = [EDecodeBody (inr payload)] ++ List.map ELog lines
              ++ [ENow t; ENewUUID id;
                  EGoSubmitLog (handler_input r payload) id;
                  ERespond 202
                    (LogHandler.respPayload
                       (mkLogResult id (Sha256.hex_sum (rp_LogContent payload)) t))])).
Proof.
  destruct (LogHandler.SubmitLog r w) as [[o w'] tr] eqn:Hrun.
  unfold outcome, trace. simpl.
  unfold LogHandler.SubmitLog, handler_input in *.
  destruct (String.eqb_spec (rq_Method r) "POST") as [Hm|Hm]; simpl in Hrun.
  2: { injection Hrun as <- <- <-. split; [done|]. left. eexists 405, _, [].
       split; [done|]. split; [tauto|].
       split; [done|]. intros ? ? Hin. by apply elem_of_nil in Hin. }
  destruct (String.eqb_spec (rq_ContentType r) "application/json") as [Hct|Hct];
    simpl in Hrun.
  2: { injection Hrun as <- <- <-. split; [done|]. left. eexists 400, _, [].
       split; [done|]. split; [tauto|].
       split; [done|]. intros ? ? Hin. by apply elem_of_nil in Hin. }
  destruct (Z.gtb_spec (rq_ContentLength r) LogHandler.maxContentLength) as [Hlen|Hlen].
  { injection Hrun as <- <- <-. split; [done|]. left. eexists 413, _, [].
    split; [done|]. split; [tauto|].
    split; [done|]. intros ? ? Hin. by apply elem_of_nil in Hin. }
  unfold bind at 1 in Hrun. unfold call at 1 in Hrun.
  destruct (json_Decode_ReqPayload (rq_Body r)) as [err|payload] eqn:Hdec.
  { injection Hrun as <- <- <-. split; [done|]. left.
    eexists 400, _, [EDecodeBody (inl err); ELog _].
    split; [done|]. split; [tauto|]. split; [done|].
    intros ? ? Hin. elem_cases Hin; discriminate. }
  destruct (GoString.is_empty (rp_LogContent payload)) eqn:Hc.
  { injection Hrun as <- <- <-. split; [done|]. left.
    eexists 400, _, [EDecodeBody (inr payload)].
    split; [done|]. split; [tauto|]. split; [done|].
    intros ? ? Hin. elem_cases Hin; discriminate. }
  apply is_empty_false in Hc.
  unfold bind at 1 in Hrun.
  assert (Hnote : exists lines,
    (match (if GoString.is_empty (rp_ClientTimestamp payload) then None
            else Some (time_Parse_RFC3339Nano (rp_ClientTimestamp payload))) with
     | Some (inl err) =>
         logf ("HTTP Handler: Invalid client_timestamp format: " +++ err)
     | _ => ret tt
     end) w = (Done tt, w, List.map ELog lines)
    /\ match (if GoString.is_empty (rp_ClientTimestamp payload) then None
              else Some (time_Parse_RFC3339Nano (rp_ClientTimestamp payload))) with
       | Some (inr ts) => Some ts
       | _ => None
       end
       = if GoString.is_empty (rp_ClientTimestamp payload) then None
         else match time_Parse_RFC3339Nano (rp_ClientTimestamp payload) with
              | inr ts => Some ts
              | inl _ => None
              end).
  { destruct (GoString.is_empty (rp_ClientTimestamp payload)).
    - by exists [].
    - destruct (time_Parse_RFC3339Nano _); [by eexists [_] | by exists []]. }
  destruct Hnote as (lines & Hnote & Hts).
  rewrite Hnote, Hts in Hrun. clear Hnote Hts.
  unfold bind at 1 in Hrun.
  match type of Hrun with
  | context [Service.SubmitLog ?i w] => set (input := i) in *
  end.
  destruct (Service_SubmitLog_run input w)
    as [(e & tr0 & Ho & Htr & Hno & _ & Hresp)|(t & id & Ho & Htr & _ & Hhash)].
  - destruct (Service.SubmitLog input w) as [[o1 w1] tr']. unfold outcome, trace in *.
    simpl in *. subst o1 tr'. injection Hrun as <- <- <-. split; [done|]. left.
    eexists (LogHandler.statusCodeFor e), _,
      ([EDecodeBody (inr payload)] ++ List.map ELog lines ++ tr0 ++ [ELog _]).
    split; [simpl; rewrite <- ?app_assoc; done|].
    split; [destruct (statusCodeFor_cases e) as [->| ->]; tauto|].
    split.
    + rewrite !responses_app, responses_logs, Hresp. done.
    + intros i id Hin. elem_cases Hin; try discriminate.
      * apply in_map_inv in Hin as (? & ? & Hin). discriminate.
      * by apply Hno in Hin.
  - destruct (Service.SubmitLog input w) as [[o1 w1] tr']. unfold outcome, trace in *.
    simpl in *. subst o1 tr'. injection Hrun as <- <- <-. split; [done|]. right.
    exists payload, t, id, lines. split; [done|]. split; [done|]. split; [done|].
    split; [lia|]. split; [done|]. split; [done|].
    simpl. rewrite <- ?app_assoc. subst input. reflexivity.
Qed.

(** X13: the handler answers every request exactly once, with status
    202, 400, 405, 413 or 500, and a submission is handed over to the
    batcher exactly when the answer is 202. *)
Theorem every_request_gets_one_response (r : Request) (w : W) :
  outcome (LogHandler.SubmitLog r w) = Done tt
  /\ exists code body,
       LogHandler.responses (trace (LogHandler.SubmitLog r w)) = [(code, body)]
       /\ (code = 202 \/ code = 400 \/ code = 405 \/ code = 413 \/ code = 500)
       /\ ((exists input id, EGoSubmitLog input id ∈ trace (LogHandler.SubmitLog r w))
           <-> code = 202).
Proof.
  destruct (Handler_SubmitLog_run r w)
    as [Ho [(code & body & pre & Htr & Hcode & Hresp & Hno)
           |(payload & t & id & lines & _ & _ & _ & _ & _ & _ & Htr)]];
    split; try done; rewrite Htr.
  - exists code, body. split; [by rewrite responses_app, Hresp|].
    split; [tauto|]. split.
    + intros (i & id & Hin). elem_cases Hin; [by apply Hno in Hin | discriminate].
    + intros ->. destruct Hcode as [?|[?|[?|?]]]; discriminate.
  - eexists 202, _. split; [by rewrite !responses_app, responses_logs|].
    split; [tauto|]. split; [done|]. intros _. eexists _, id.
    apply elem_of_app. right. apply elem_of_app. right.
    do 2 (apply elem_of_cons; right). apply elem_of_cons. by left.
Qed.

(** X14: what the handler hands over for an accepted request: the
    content of the body, the SHA-256 of the content in hex in place of
    the client's hash, the organisation of the [X-Client-Org-ID] header
    or, when the header is empty, of the body; and the receipt of the
    202 answer carries the request id and the hash of the hand-over. *)
Theorem accepted_request_is_handed_over (r : Request) (w : W) input id :
  EGoSubmitLog input id ∈ trace (LogHandler.SubmitLog r w) ->
  exists payload t,
    json_Decode_ReqPayload (rq_Body r) = inr payload
    /\ in_LogContent input = rp_LogContent payload
    /\ in_ClientLogHash input = Sha256.hex_sum (rp_LogContent payload)
    /\ in_ClientSourceOrgID input
       = (if GoString.is_empty (rq_XClientOrgID r)
          then rp_ClientSourceOrgID payload else rq_XClientOrgID r)
    /\ LogHandler.responses (trace (LogHandler.SubmitLog r w))
       = [(202, [ ("request_id", JStr id);
                  ("server_log_hash", JStr (in_ClientLogHash input));
                  ("server_received_timestamp", JStr (GoTime.FormatRFC3339Nano t));
                  ("status", JStr "ACCEPTED") ])].
Proof.
  intros Hin.
  destruct (Handler_SubmitLog_run r w)
    as [_ [(code & body & pre & Htr & Hcode & Hresp & Hno)
          |(payload & t & id' & lines & Hdec & _ & _ & _ & _ & _ & Htr)]];
    rewrite Htr in Hin |- *.
  - elem_cases Hin; [by apply Hno in Hin | discriminate].
  - elem_cases Hin; try discriminate.
    { apply in_map_inv in Hin as (? & ? & Hin). discriminate. }
    injection Hin as -> ->.
    exists payload, t. split; [done|]. split; [done|]. split; [done|]. split; [done|].
    by rewrite !responses_app, responses_logs.
Qed.

End FrontEndFacts.

Section IngestionPath.

Context {W : Type} `{!Store W} `{!Producer W} `{!Clock W} `{!UUIDSource W}.

(** X15: from the receipt service to the queue.  The entry the service
    hands over for a submission is inserted and published, in any flush
    that holds it, under the request id of the receipt and with the
    SHA-256 of the content, in hex, as log hash: whatever hash the
    client sent, the row and the message carry the server's. *)
Theorem accepted_entry_is_published_with_its_hash input (w : W) input' id batch
    (w2 : W) msgs res :
  EGoSubmitLog input' id ∈ trace (Service.SubmitLog input w) ->
  mkBatchEntry input' id ∈ batch ->
  EPublishBatch msgs res ∈ trace (BatchProcessor.processBatch batch w2) ->
  (exists m,
      m ∈ msgs
      /\ msg_RequestID m = id
      /\ msg_LogContent m = in_LogContent input
      /\ msg_LogHash m = Sha256.hex_sum (in_LogContent input)
      /\ msg_SourceOrgID m = in_ClientSourceOrgID input)
  /\ (exists rows row,
      EInsertLogStatusBatch rows None ∈ trace (BatchProcessor.processBatch batch w2)
      /\ row ∈ rows
      /\ ls_RequestID row = id
      /\ ls_LogHash row = Sha256.hex_sum (in_LogContent input)
      /\ ls_SourceOrgID row = in_ClientSourceOrgID input
      /\ ls_Status row = StatusReceived).
Proof.
  intros Hgo Hentry Hpub.
  assert (Hinput : input' = Service.with_hash input (Sha256.hex_sum (in_LogContent input))).
  { destruct (Service_SubmitLog_run input w)
      as [(e & tr & _ & Htr & Hno & _)|(t & id' & _ & Htr & _)]; rewrite Htr in Hgo.
    - by apply Hno in Hgo.
    - elem_cases Hgo; try discriminate. by injection Hgo as -> ->. }
  subst input'.
  destruct (processBatch_flushed batch w2) as [_ Hf].
  revert Hpub Hf. generalize (trace (BatchProcessor.processBatch batch w2)) as tr.
  intros tr Hpub Hf.
  destruct Hf as [->|rows ts e Hrows|rows msgs' ts w3 w4 evs res' lines Hrows Hmsgs Hp].
  - by apply elem_of_nil in Hpub.
  - elem_cases Hpub; try discriminate.
    apply in_map_inv in Hpub as (? & ? & Hpub). discriminate.
  - elem_cases Hpub; try discriminate;
      try (apply in_map_inv in Hpub as (? & ? & Hpub); discriminate).
    injection Hpub as -> ->.
    destruct (Forall2_elem_l _ _ _ _ Hmsgs Hentry) as (m & Hm & t & _ & ->).
    destruct (Forall2_elem_l _ _ _ _ Hrows Hentry) as (row & Hrow & t' & _ & ->).
    split.
    + exists (BatchProcessor.message_of
                (mkBatchEntry (Service.with_hash input (Sha256.hex_sum (in_LogContent input)))
                   id) t).
      done.
    + exists rows, (BatchProcessor.row_of
                (mkBatchEntry (Service.with_hash input (Sha256.hex_sum (in_LogContent input)))
                   id) t').
      split; [|done].
      apply elem_of_app. right. apply elem_of_app. left. apply elem_of_cons. by left.
Qed.

End IngestionPath.

Section GrpcFacts.

Context {W : Type} `{!Clock W} `{!UUIDSource W}.

(** X16: the gRPC server accepts exactly what the receipt service
    accepts.  An accepted request is answered [ACCEPTED] with the
    SHA-256 of the content in hex, and the entry handed over carries the
    request id of the answer; a rejected request (empty content, or a
    client hash that is present and differs) is answered with the
    wrapped service error and nothing is handed over. *)
Theorem grpc_accepts_what_the_service_accepts (req : GrpcServer.SubmitLogRequest) (w : W) :
  (exists resp input,
      outcome (GrpcServer.SubmitLog req w) = Done (inr resp)
      /\ GrpcServer.resp_Status resp = "ACCEPTED"
      /\ GrpcServer.resp_ServerLogHash resp
         = Sha256.hex_sum (GrpcServer.req_LogContent req)
      /\ EGoSubmitLog input (GrpcServer.resp_RequestId resp)
           ∈ trace (GrpcServer.SubmitLog req w)
      /\ in_LogContent input = GrpcServer.req_LogContent req
      /\ in_ClientLogHash input = Sha256.hex_sum (GrpcServer.req_LogContent req)
      /\ in_ClientSourceOrgID input = GrpcServer.req_ClientSourceOrgId req
      /\ GrpcServer.req_LogContent req <> EmptyString
      /\ (GrpcServer.req_ClientLogHash req = EmptyString
          \/ GrpcServer.req_ClientLogHash req
             = Sha256.hex_sum (GrpcServer.req_LogContent req)))
  \/ (exists e,
      outcome (GrpcServer.SubmitLog req w)
        = Done (inl ("failed to process log submission: " +++ e))
      /\ (GrpcServer.req_LogContent req = EmptyString
          \/ (GrpcServer.req_ClientLogHash req <> EmptyString
              /\ GrpcServer.req_ClientLogHash req
                 <> Sha256.hex_sum (GrpcServer.req_LogContent req)))
      /\ forall i id, EGoSubmitLog i id ∉ trace (GrpcServer.SubmitLog req w)).
Proof.
  unfold GrpcServer.SubmitLog.
  match goal with
  | |- context [Service.SubmitLog ?i] => set (input := i)
  end.
  pose proof (Service_SubmitLog_run input w) as Hrun.
  pose proof (SubmitLog_fails_iff input w) as Hfail.
  unfold bind, logf, emit, ret, outcome, trace in *.
  destruct (Service.SubmitLog input w) as [[o w1] tr]. simpl in *.
  destruct Hrun as [(e & tr0 & -> & <- & Hno & _)|(t & id & -> & -> & Hc & Hh)]; simpl.
  - right. exists e. split; [done|]. split.
    + apply Hfail. by exists e.
    + intros i id Hin. elem_cases Hin; try discriminate. by apply Hno in Hin.
  - left. eexists _, _. split; [done|]. split; [done|]. split; [done|].
    split.
    + apply elem_of_cons. right. do 2 (apply elem_of_cons; right).
      apply elem_of_cons. by left.
    + done.
Qed.

End GrpcFacts.

Section ProducerFacts.

Context {W : Type} `{!KafkaWriter W} `{!GoLib}.
Variable topic : string.

(** X17: the Kafka producer hands every message to the writer once, in
    order, keyed by its request id: a batch in one write, an empty batch
    in none; it returns an error exactly when the write failed.
    [Publish] does for one message what [PublishBatch] does for a batch
    of one. *)
Theorem producer_writes_each_message_once (msgs : list LogMessage) (msg : LogMessage)
    (w : W) :
  writes (KafkaProducer.PublishBatch topic msgs w).2
  = (if (List.length msgs =? 0)%nat then []
     else [List.map (KafkaProducer.kafka_message) msgs])
  /\ List.map km_Key (List.map KafkaProducer.kafka_message msgs)
     = List.map msg_RequestID msgs
  /\ ((KafkaProducer.PublishBatch topic msgs w).1.2 = None
      <-> msgs = [] \/ (WriteMessages (List.map KafkaProducer.kafka_message msgs) w).2 = None)
  /\ (KafkaProducerSingle.Publish msg w).1.1 = (KafkaProducer.PublishBatch topic [msg] w).1.1
  /\ writes (KafkaProducerSingle.Publish msg w).2
     = writes (KafkaProducer.PublishBatch topic [msg] w).2
  /\ ((KafkaProducerSingle.Publish msg w).1.2 = None
      <-> (KafkaProducer.PublishBatch topic [msg] w).1.2 = None).
Proof.
  split; [|split; [|split; [|split; [|split]]]].
  - unfold KafkaProducer.PublishBatch.
    destruct (List.length msgs =? 0)%nat; [done|].
    destruct (WriteMessages _ w) as [w1 [e|]]; done.
  - rewrite List.map_map. done.
  - unfold KafkaProducer.PublishBatch.
    destruct (List.length msgs =? 0)%nat eqn:Hlen.
    + apply Nat.eqb_eq in Hlen. destruct msgs; [|done]. simpl. tauto.
    + apply Nat.eqb_neq in Hlen.
      destruct (WriteMessages _ w) as [w1 [e|]]; simpl.
      * split; [done|]. intros [->|?]; done.
      * split; [by right | done].
  - unfold KafkaProducerSingle.Publish, KafkaProducer.PublishBatch. simpl.
    destruct (WriteMessages _ w) as [w1 [e|]]; done.
  - unfold KafkaProducerSingle.Publish, KafkaProducer.PublishBatch. simpl.
    destruct (WriteMessages _ w) as [w1 [e|]]; done.
  - unfold KafkaProducerSingle.Publish, KafkaProducer.PublishBatch. simpl.
    destruct (WriteMessages _ w) as [w1 [e|]]; done.
Qed.

End ProducerFacts.

Section ConsumerMore.

Context {W : Type} `{!KafkaReader W} `{!GoLib}.

(** X18: a message handed over by [Consume] has not been committed: the
    fetch is the only call made, and it comes with a callback.  The
    callback commits that very Kafka message when it is invoked with
    [true], and nothing else; invoked with [false] it commits nothing
    and leaves the reader as it is. *)
Theorem offsets_are_committed_by_positive_acks_only ctx (w : W) m ack err :
  outcome (KafkaConsumer.Consume ctx w) = Done (Some m, ack, err) ->
  exists km f,
    ack = Some f /\ err = None
    /\ trace (KafkaConsumer.Consume ctx w) = [EFetchMessage (inr km)]
    /\ json_Unmarshal_LogMessage (km_Value km) = inr m
    /\ (forall w', (f false w').1 = w'
                   /\ forall km' res, ACommitMessages km' res ∉ (f false w').2)
    /\ (forall w', (f true w').1 = (CommitMessages km w').1
                   /\ ACommitMessages km (CommitMessages km w').2 ∈ (f true w').2
                   /\ forall km' res, ACommitMessages km' res ∈ (f true w').2 -> km' = km).
Proof.
  unfold KafkaConsumer.Consume, bind, call, ret, logf, emit, outcome, trace.
  destruct (FetchMessage w) as [w1 [e|km]]; simpl.
  { destruct (is_Canceled e); simpl; discriminate. }
  destruct (json_Unmarshal_LogMessage (km_Value km)) as [e|logMsg] eqn:Hu; simpl.
  { destruct (CommitMessages km w1). simpl. discriminate. }
  intros [= <- <- <-]. exists km, (KafkaConsumer.ackCallback km logMsg).
  split; [done|]. split; [done|]. split; [done|]. split; [done|].
  unfold KafkaConsumer.ackCallback. split.
  - intros w'. split; [done|]. intros km' res Hin. simpl in Hin.
    elem_cases Hin. discriminate.
  - intros w'. destruct (CommitMessages km w') as [w2 [e|]]; simpl.
    + split; [done|]. split; [apply elem_of_cons; by left|].
      intros km' res Hin. elem_cases Hin; try discriminate. by injection Hin as ->.
    + split; [done|]. split; [apply elem_of_cons; by left|].
      intros km' res Hin. elem_cases Hin; try discriminate. by injection Hin as ->.
Qed.

End ConsumerMore.

(** ** Configuration *)

Lemma Database_SetDefaults_limits c :
  Config.db_DSN (Config.Database_SetDefaults c).1 = Config.db_DSN c
  /\ Config.db_MaxConnections (Config.Database_SetDefaults c).1 = Config.effective_max c
  /\ Config.db_MinConnections (Config.Database_SetDefaults c).1 = Config.effective_min c.
Proof.
  unfold Config.Database_SetDefaults, Config.default_if, Config.effective_max,
    Config.effective_min.
  destruct (Config.db_MaxConnections c <=? 0), (Config.db_MinConnections c <=? 0),
    (GoString.is_empty (Config.db_MaxIdleTime c)),
    (GoString.is_empty (Config.db_MaxLifetime c)); done.
Qed.

Lemma Database_checked c :
  (Config.Database_Validate (Config.Database_SetDefaults c).1 = None
   <-> Config.db_DSN c <> EmptyString /\ Config.effective_min c <= Config.effective_max c)
  /\ 1 <= Config.effective_max c
  /\ 1 <= Config.effective_min c
  /\ (Config.db_DSN c = EmptyString ->
      Config.Database_Validate (Config.Database_SetDefaults c).1
      = Some "database DSN is required")
  /\ (Config.db_DSN c <> EmptyString ->
      Config.effective_max c < Config.effective_min c ->
      Config.Database_Validate (Config.Database_SetDefaults c).1
      = Some ("database min_connections (" +++ GoString.format_int (Config.effective_min c)
              +++ ") cannot be greater than max_connections ("
              +++ GoString.format_int (Config.effective_max c) +++ ")")).
Proof.
  destruct (Database_SetDefaults_limits c) as (Hdsn & Hmax & Hmin).
  unfold Config.Database_Validate. rewrite Hdsn, Hmax, Hmin.
  assert (H1 : 1 <= Config.effective_max c).
  { unfold Config.effective_max. destruct (Z.leb_spec (Config.db_MaxConnections c) 0); lia. }
  assert (H2 : 1 <= Config.effective_min c).
  { unfold Config.effective_min. destruct (Z.leb_spec (Config.db_MinConnections c) 0); lia. }
  destruct (GoString.is_empty (Config.db_DSN c)) eqn:Hd.
  { apply is_empty_true in Hd. split; [split; [done | by intros [? _]]|].
    split; [done|]. split; [done|]. split; [done|]. done. }
  apply is_empty_false in Hd.
  destruct (Z.leb_spec (Config.effective_max c) 0); [lia|].
  destruct (Z.ltb_spec (Config.effective_min c) 0); [lia|].
  destruct (Z.gtb_spec (Config.effective_min c) (Config.effective_max c)).
  - split; [split; [done | intros [_ ?]; lia]|].
    split; [done|]. split; [done|]. split; [done|]. done.
  - split; [split; [done | done]|].
    split; [done|]. split; [done|]. split; [done|]. intros _ ?. lia.
Qed.

(** X19: after [SetDefaults], [Validate] accepts a database
    configuration exactly when the DSN is set and the effective minimum
    of connections (10 for a value that is not positive) is at most the
    effective maximum (50 for a value that is not positive).  Both are
    then at least 1, so that of the four errors of [Validate] only the
    missing DSN and the minimum above the maximum can come out. *)
Theorem database_defaults_then_validate (c : Config.DatabaseConfig) :
  (Config.Database_Validate (Config.Database_SetDefaults c).1 = None
   <-> Config.db_DSN c <> EmptyString /\ Config.effective_min c <= Config.effective_max c)
  /\ 1 <= Config.db_MinConnections (Config.Database_SetDefaults c).1
  /\ 1 <= Config.db_MaxConnections (Config.Database_SetDefaults c).1
  /\ (Config.Database_Validate (Config.Database_SetDefaults c).1 = None
      \/ Config.Database_Validate (Config.Database_SetDefaults c).1
         = Some "database DSN is required"
      \/ Config.Database_Validate (Config.Database_SetDefaults c).1
         = Some ("database min_connections ("
                 +++ GoString.format_int (Config.effective_min c)
                 +++ ") cannot be greater than max_connections ("
                 +++ GoString.format_int (Config.effective_max c) +++ ")")).
Proof.
  destruct (Database_checked c) as (Hiff & Hmax & Hmin & Hdsn & Hgt).
  destruct (Database_SetDefaults_limits c) as (_ & Hmx & Hmn).
  split; [done|]. rewrite Hmx, Hmn. split; [done|]. split; [done|].
  destruct (String.eqb_spec (Config.db_DSN c) EmptyString) as [Hd|Hd]; [right; left; auto|].
  destruct (Z.le_gt_cases (Config.effective_min c) (Config.effective_max c)).
  - left. by apply Hiff.
  - right. right. apply Hgt; [done | lia].
Qed.

(** X20: an engine configuration that loads has a retry cap, a worker
    batch size and a consumer count of at least 1, a DSN, and connection
    limits with 1 <= min <= max; the safeguard of the worker's [New] on
    the batch size then changes nothing. *)
Theorem loaded_engine_configuration path file unmarshal cfg :
  (Config.LoadEngineConfig path file unmarshal).1 = inr cfg ->
  1 <= Config.ec_MaxTaskRetries cfg
  /\ 1 <= Config.wc_BatchSize (Config.ec_Worker cfg)
  /\ WorkerLoop.New_BatchSize (Config.wc_BatchSize (Config.ec_Worker cfg))
     = Config.wc_BatchSize (Config.ec_Worker cfg)
  /\ 1 <= Config.kc_Count (Config.ec_KafkaConsumer cfg)
  /\ Config.db_DSN (Config.ec_Database cfg) <> EmptyString
  /\ 1 <= Config.db_MinConnections (Config.ec_Database cfg)
     <= Config.db_MaxConnections (Config.ec_Database cfg).
Proof.
  unfold Config.LoadEngineConfig.
  destruct file as [err|data]; [discriminate|].
  destruct (unmarshal data) as [err|raw]; [discriminate|].
  pose proof (Database_checked (Config.ec_Database raw)) as (Hiff & Hmax & Hmin & _).
  destruct (Database_SetDefaults_limits (Config.ec_Database raw)) as (Hdsn & Hmx & Hmn).
  destruct (Config.Database_SetDefaults (Config.ec_Database raw)) as [db w1].
  destruct (Config.KafkaConsumer_SetDefaults (Config.ec_KafkaConsumer raw)) as [kc w2] eqn:Hkc.
  destruct (Config.Worker_SetDefaults (Config.ec_Worker raw)) as [wc w3] eqn:Hwc.
  destruct (Config.Monitoring_SetDefaults (Config.ec_Monitoring raw)) as [em w4].
  unfold Config.default_if.
  simpl in *.
  assert (Hsize : 1 <= Config.wc_BatchSize wc).
  { unfold Config.Worker_SetDefaults, Config.default_if in Hwc.
    destruct (Z.leb_spec (Config.wc_BatchSize (Config.ec_Worker raw)) 0);
      destruct (GoString.is_empty _), (GoString.is_empty _), (GoString.is_empty _);
      injection Hwc as <- _; simpl; lia. }
  assert (Hcount : 1 <= Config.kc_Count kc).
  { unfold Config.KafkaConsumer_SetDefaults, Config.default_if in Hkc.
    destruct (Z.leb_spec (Config.kc_Count (Config.ec_KafkaConsumer raw)) 0);
      destruct (GoString.is_empty _), (GoString.is_empty _), (GoString.is_empty _),
        (GoString.is_empty _);
      injection Hkc as <- _; simpl; lia. }
  destruct (Config.Database_Validate db) as [err|] eqn:Hv.
  { destruct (Z.leb_spec (Config.ec_MaxTaskRetries raw) 0); discriminate. }
  destruct (proj1 Hiff eq_refl) as [Hd Hle].
  assert (Hgoal : forall retries, 1 <= retries ->
    1 <= retries
    /\ 1 <= Config.wc_BatchSize wc
    /\ WorkerLoop.New_BatchSize (Config.wc_BatchSize wc) = Config.wc_BatchSize wc
    /\ 1 <= Config.kc_Count kc
    /\ Config.db_DSN db <> EmptyString
    /\ 1 <= Config.db_MinConnections db <= Config.db_MaxConnections db).
  { intros retries Hr. split; [done|]. split; [done|]. split.
    - unfold WorkerLoop.New_BatchSize.
      destruct (Z.leb_spec (Config.wc_BatchSize wc) 0); [lia | done].
    - split; [done|]. rewrite Hdsn, Hmn, Hmx. split; [done | lia]. }
  destruct (Z.leb_spec (Config.ec_MaxTaskRetries raw) 0); simpl;
    intros [= <-]; simpl; apply Hgoal; lia.
Qed.

(** X21: a gateway configuration that loads names a listen address and
    has a batch size and a flush channel buffer different from 0; a
    negative value is kept as it is, and [NewBatchProcessor] called with
    a loaded negative value panics.  When [NewBatchProcessor] returns on
    the loaded values, both are at least 1 and it starts with an empty
    buffer and an empty channel of the loaded sizes. *)
Theorem loaded_gateway_configuration `{!GoMake} path file unmarshal cfg :
  (Config.LoadApiGatewayConfig path file unmarshal).1 = inr cfg ->
  (Config.ag_HttpListenAddr cfg <> EmptyString
   \/ Config.ag_GrpcListenAddr cfg <> EmptyString)
  /\ Config.bc_BatchSize (Config.ag_BatchProcessor cfg) <> 0
  /\ Config.bc_FlushChannelBuffer (Config.ag_BatchProcessor cfg) <> 0
  /\ (Config.bc_BatchSize (Config.ag_BatchProcessor cfg) < 0
      \/ Config.bc_FlushChannelBuffer (Config.ag_BatchProcessor cfg) < 0 ->
      exists why,
        BatcherRun.NewBatchProcessor
          (Config.bc_BatchSize (Config.ag_BatchProcessor cfg))
          (Config.bc_FlushChannelBuffer (Config.ag_BatchProcessor cfg)) = Panic why)
  /\ (forall bp,
         BatcherRun.NewBatchProcessor
           (Config.bc_BatchSize (Config.ag_BatchProcessor cfg))
           (Config.bc_FlushChannelBuffer (Config.ag_BatchProcessor cfg)) = Done bp ->
         BatchProcessor.buffer bp = [] /\ BatchProcessor.flushChan bp = []
         /\ BatchProcessor.batchSize bp
            = Config.bc_BatchSize (Config.ag_BatchProcessor cfg)
         /\ Z.of_nat (BatchProcessor.flushCap bp)
            = Config.bc_FlushChannelBuffer (Config.ag_BatchProcessor cfg)
         /\ 1 <= BatchProcessor.batchSize bp /\ (1 <= BatchProcessor.flushCap bp)%nat).
Proof.
  unfold Config.LoadApiGatewayConfig.
  destruct file as [err|data]; [discriminate|].
  destruct (unmarshal data) as [err|raw]; [discriminate|].
  destruct (Config.Database_SetDefaults (Config.ag_Database raw)) as [db w1].
  destruct (Config.BatchProcessor_SetDefaults (Config.ag_BatchProcessor raw))
    as [bc w2] eqn:Hbc.
  assert (Hnz : Config.bc_BatchSize bc <> 0 /\ Config.bc_FlushChannelBuffer bc <> 0).
  { unfold Config.BatchProcessor_SetDefaults, Config.default_if in Hbc.
    destruct (Z.eqb_spec (Config.bc_BatchSize (Config.ag_BatchProcessor raw)) 0),
      (Z.eqb_spec (Config.bc_FlushChannelBuffer (Config.ag_BatchProcessor raw)) 0),
      (Config.bc_BatchTimeout (Config.ag_BatchProcessor raw) =? 0),
      (Config.bc_MaxBufferSize (Config.ag_BatchProcessor raw) =? 0);
      injection Hbc as <- _; simpl; done. }
  destruct Hnz as [Hbs Hfc].
  destruct (GoString.is_empty (Config.ag_HttpListenAddr raw)) eqn:Hh;
    destruct (GoString.is_empty (Config.ag_GrpcListenAddr raw)) eqn:Hg; simpl;
    try discriminate.
  all: destruct (Config.Database_Validate db); [discriminate|].
  all: intros [= <-]; simpl.
  all: split; [first [left; by apply is_empty_false | right; by apply is_empty_false]|].
  all: split; [done|]; split; [done|].
  all: unfold BatcherRun.NewBatchProcessor.
  all: pose proof (slice_fits_neg (Config.bc_BatchSize bc)) as Hs.
  all: pose proof (chan_fits_neg (Config.bc_FlushChannelBuffer bc)) as Hc.
  all: destruct (slice_fits (Config.bc_BatchSize bc)); simpl;
    [|split; [by eexists | discriminate]].
  all: destruct (chan_fits (Config.bc_FlushChannelBuffer bc)); simpl;
    [|split; [by eexists | discriminate]].
  all: split; [intros [Hn|Hn]; [by specialize (Hs Hn) | by specialize (Hc Hn)]|].
  all: assert (0 <= Config.bc_BatchSize bc)
    by (destruct (Z.lt_ge_cases (Config.bc_BatchSize bc) 0) as [Hn|]; [by specialize (Hs Hn) | done]).
  all: assert (0 <= Config.bc_FlushChannelBuffer bc)
    by (destruct (Z.lt_ge_cases (Config.bc_FlushChannelBuffer bc) 0) as [Hn|];
        [by specialize (Hc Hn) | done]).
  all: intros bp [= <-]; simpl; repeat split; try done; lia.
Qed.

(** ** The ledger client and the contract *)

Section ChainClientFacts.

Context {W : Type} `{!ChainMaker.SDK W} `{!ChainMaker.Codec}.
Variable cfg : ChainMaker.Config.

(** X22: [SubmitLogsBatch] of the ChainMaker client.  An empty batch or
    a configuration without the batch method or its parameter key is
    refused before the chain is reached.  Otherwise the contract is
    invoked exactly once, with the JSON of the entries under the
    configured key, and a proof is returned exactly when the answer has
    the success code and result bytes, not empty, that decode; the proof
    carries the transaction id and the block height of the answer. *)
Theorem client_invokes_the_contract_once (entries : list LogEntry) (w : W) :
  (entries = [] \/ ChainMaker.SubmitLogsBatchMethodName cfg = EmptyString
   \/ ChainMaker.ParamKeyLogsJson cfg = EmptyString ->
   ChainMaker.SubmitLogsBatch cfg entries w
   = (w, inl (if (List.length entries =? 0)%nat then "log entry batch cannot be empty"
              else "batch configuration fields not set in config"), []))
  /\ (entries <> [] -> ChainMaker.SubmitLogsBatchMethodName cfg <> EmptyString ->
      ChainMaker.ParamKeyLogsJson cfg <> EmptyString ->
      exists res,
        ChainMaker.InvokeContract (ChainMaker.ContractName cfg)
          (ChainMaker.SubmitLogsBatchMethodName cfg)
          [(ChainMaker.ParamKeyLogsJson cfg, ChainMaker.Marshal_LogEntries entries)] w
        = ((ChainMaker.SubmitLogsBatch cfg entries w).1.1, res)
        /\ ChainMaker.invocations (ChainMaker.SubmitLogsBatch cfg entries w).2
           = [(ChainMaker.ContractName cfg, ChainMaker.SubmitLogsBatchMethodName cfg,
               [(ChainMaker.ParamKeyLogsJson cfg, ChainMaker.Marshal_LogEntries entries)],
               res)]
        /\ forall proof results,
             (ChainMaker.SubmitLogsBatch cfg entries w).1.2 = inr (proof, results)
             <-> exists resp bytes,
                   res = inr resp
                   /\ ChainMaker.tx_Code resp = 0
                   /\ ChainMaker.tx_ContractResult resp = Some bytes
                   /\ bytes <> EmptyString
                   /\ ChainMaker.Unmarshal_LogStatusInfos bytes = inr results
                   /\ proof = mkBatchProof (ChainMaker.tx_TxId resp)
                                (ChainMaker.tx_TxBlockHeight resp)).
Proof.
  unfold ChainMaker.SubmitLogsBatch. split.
  - intros [->|[Hm|Hk]]; [done| |].
    + destruct (List.length entries =? 0)%nat; [done|].
      apply is_empty_true in Hm. by rewrite Hm.
    + destruct (List.length entries =? 0)%nat; [done|].
      apply is_empty_true in Hk. rewrite Hk. by rewrite orb_true_r.
  - intros He Hm Hk.
    destruct (List.length entries =? 0)%nat eqn:Hlen.
    { apply Nat.eqb_eq in Hlen. by destruct entries. }
    apply is_empty_false in Hm, Hk. rewrite Hm, Hk. simpl.
    destruct (ChainMaker.InvokeContract _ _ _ w) as [w1 [err|resp]].
    { eexists. split; [done|]. split; [done|]. intros proof results. split; [done|].
      intros (? & ? & ? & _). discriminate. }
    assert (Hlen0 : forall s, (String.length s =? 0)%nat = true <-> s = EmptyString).
    { intros s. rewrite Nat.eqb_eq. by destruct s. }
    destruct (Z.eqb_spec (ChainMaker.tx_Code resp) ChainMaker.TxStatusCode_SUCCESS)
      as [Hcode|Hcode]; simpl.
    2: { eexists. split; [done|]. split; [done|]. intros proof results. split; [done|].
         intros (? & ? & [= <-] & ? & _). done. }
    destruct (ChainMaker.tx_ContractResult resp) as [bytes|] eqn:Hres.
    2: { eexists. split; [done|]. split; [done|]. intros proof results. split; [done|].
         intros (? & ? & [= <-] & _ & ? & _). congruence. }
    destruct (String.length bytes =? 0)%nat eqn:Hb.
    { apply Hlen0 in Hb. eexists. split; [done|]. split; [done|].
      intros proof results. split; [done|].
      intros (? & ? & [= <-] & _ & ? & ? & _). congruence. }
    assert (Hne : bytes <> EmptyString).
    { intros Hnil. apply Hlen0 in Hnil. congruence. }
    destruct (ChainMaker.Unmarshal_LogStatusInfos bytes) as [err|results'] eqn:Hu.
    { eexists. split; [done|]. split; [done|]. intros proof results. split; [done|].
      intros (? & ? & [= <-] & _ & ? & _ & ? & _). congruence. }
    eexists. split; [done|]. split; [done|]. intros proof results. simpl. split.
    + intros [= <- <-]. by exists resp, bytes.
    + intros (? & ? & [= <-] & _ & Hr & _ & Hu' & ->).
      rewrite Hres in Hr. injection Hr as <-. rewrite Hu in Hu'. by injection Hu' as ->.
Qed.

End ChainClientFacts.

Section ContractFacts.

Context {W : Type} `{!LogStoreContract.SDK W} `{!LogStoreContract.Codec}.

Lemma processEntry_hash entry (w : W) :
  si_LogHash (LogStoreContract.processEntry entry w).1.2 = le_LogHash entry.
Proof.
  unfold LogStoreContract.processEntry.
  destruct (_ || _); [done|].
  destruct (LogStoreContract.GetState _ _ w) as [w1 [err|value]]; [done|].
  destruct (0 <? String.length value)%nat; [done|].
  destruct (LogStoreContract.PutState _ _ _ w1) as [w2 [err|]]; done.
Qed.

Lemma processEntry_guarded entry (w : W) rest :
  LogStoreContract.writes_guarded rest ->
  LogStoreContract.writes_guarded ((LogStoreContract.processEntry entry w).2 ++ rest).
Proof.
  intros Hrest. unfold LogStoreContract.processEntry.
  destruct (_ || _); [done|].
  destruct (LogStoreContract.GetState _ _ w) as [w1 [err|value]]; [done|].
  destruct (0 <? String.length value)%nat eqn:Hlen; [done|].
  apply Nat.ltb_ge in Hlen.
  assert (value = EmptyString) as -> by (destruct value; [done | simpl in Hlen; lia]).
  destruct (LogStoreContract.PutState _ _ _ w1) as [w2 [err|]]; done.
Qed.

Lemma processEntry_events entry (w : W) rest :
  LogStoreContract.events_follow_writes rest ->
  LogStoreContract.events_follow_writes ((LogStoreContract.processEntry entry w).2 ++ rest).
Proof.
  intros Hrest. unfold LogStoreContract.processEntry.
  destruct (_ || _); [done|].
  destruct (LogStoreContract.GetState _ _ w) as [w1 [err|value]]; [done|].
  destruct (0 <? String.length value)%nat eqn:Hlen; [done|].
  destruct (LogStoreContract.PutState _ _ _ w1) as [w2 [err|]]; [done|].
  simpl. split; [done|]. split; [|done]. by eexists _, _, _.
Qed.

Lemma processEntries_run entries : forall (w : W) rest,
  List.map si_LogHash (LogStoreContract.processEntries entries w).1.2
  = List.map le_LogHash entries
  /\ (LogStoreContract.writes_guarded rest ->
      LogStoreContract.writes_guarded
        ((LogStoreContract.processEntries entries w).2 ++ rest))
  /\ (LogStoreContract.events_follow_writes rest ->
      LogStoreContract.events_follow_writes
        ((LogStoreContract.processEntries entries w).2 ++ rest)).
Proof.
  induction entries as [|entry entries IH]; intros w rest; simpl; [done|].
  pose proof (processEntry_hash entry w) as Hh.
  pose proof (processEntry_guarded entry w) as Hg.
  pose proof (processEntry_events entry w) as He.
  destruct (LogStoreContract.processEntry entry w) as [[w1 info] calls1].
  specialize (IH w1 rest).
  destruct (LogStoreContract.processEntries entries w1) as [[w2 infos] calls2].
  simpl in *. destruct IH as (IHh & IHg & IHe).
  split; [by rewrite Hh, IHh|]. rewrite <- app_assoc.
  split; intros Hrest; [apply Hg, IHg | apply He, IHe]; done.
Qed.

(** X23: the batch method of the log store contract.  When it answers
    with success, the answer is the JSON of one result per entry of the
    argument, in order and under the entry's hash.  In every run a key
    is written only just after it was read and found without a value,
    so that a stored log is not overwritten, and an event is emitted
    only just after a write of its hash that succeeded; a refused call
    touches neither the state nor the event log. *)
Theorem contract_reports_each_entry_and_writes_once (args : gmap string string) (w : W) :
  LogStoreContract.writes_guarded (LogStoreContract.submitLogsBatch args w).2
  /\ LogStoreContract.events_follow_writes (LogStoreContract.submitLogsBatch args w).2
  /\ match (LogStoreContract.submitLogsBatch args w).1.2 with
     | LogStoreContract.Success payload =>
         exists logsJSON entries results,
           args !! "logs_json" = Some logsJSON
           /\ LogStoreContract.Unmarshal_LogEntries logsJSON = inr entries
           /\ (0 < List.length entries)%nat
           /\ payload = LogStoreContract.Marshal_LogStatusInfos results
           /\ List.map si_LogHash results = List.map le_LogHash entries
     | LogStoreContract.Error _ =>
         (LogStoreContract.submitLogsBatch args w).1.1 = w
         /\ (LogStoreContract.submitLogsBatch args w).2
            = [LogStoreContract.CInfof "Executing submit_logs_batch (V3)..."]
     end.
Proof.
  unfold LogStoreContract.submitLogsBatch.
  destruct (args !! "logs_json") as [logsJSON|] eqn:Harg; [|done].
  destruct (String.length logsJSON =? 0)%nat; [done|].
  destruct (LogStoreContract.Unmarshal_LogEntries logsJSON) as [err|entries] eqn:Hu; [done|].
  destruct (List.length entries =? 0)%nat eqn:Hlen; [done|].
  apply Nat.eqb_neq in Hlen.
  destruct (processEntries_run entries w
              [LogStoreContract.CInfof
                 ("Batch processing finished. Result JSON length: "
                  +++ GoString.format_int
                        (Z.of_nat (String.length
                           (LogStoreContract.Marshal_LogStatusInfos
                              (LogStoreContract.processEntries entries w).1.2))))])
    as (Hh & Hg & He).
  destruct (LogStoreContract.processEntries entries w) as [[w1 results] calls].
  simpl in *. split; [by apply Hg|]. split; [by apply He|].
  exists logsJSON, entries, results. split; [done|]. split; [done|].
  split; [lia|]. done.
Qed.

End ContractFacts.

(** ** The audit by transaction *)

Section AuditFacts.

Context {W : Type} `{!LogStoreContract.SDK W} `{!LogStoreContract.Codec}.

Lemma emitted_app c1 c2 :
  ChainMakerAudit.emitted (c1 ++ c2)
  = ChainMakerAudit.emitted c1 ++ ChainMakerAudit.emitted c2.
Proof. apply omap_app. Qed.

Lemma processEntry_emitted entry (w : W) :
  ChainMakerAudit.emitted (LogStoreContract.processEntry entry w).2
  = if String.eqb (si_Status (LogStoreContract.processEntry entry w).1.2) StatusSuccess
    then [ChainMakerAudit.mkContractEvent LogStoreContract.EventTopicLogSubmitted
            [le_LogHash entry; le_SenderOrgID entry; le_Timestamp entry]]
    else [].
Proof.
  unfold LogStoreContract.processEntry.
  destruct (_ || _); [done|].
  destruct (LogStoreContract.GetState _ _ w) as [w1 [err|value]]; [done|].
  destruct (0 <? String.length value)%nat; [done|].
  destruct (LogStoreContract.PutState _ _ _ w1) as [w2 [err|]]; done.
Qed.

(** X25: the audit by transaction hash reads the first event on the
    submit topic.  Applied to the events a run of the contract's batch
    loop emits, under the contract's topic, it returns the hash, the
    organisation and the timestamp of the first entry of the batch that
    was stored, and the not-found error when none was: the other entries
    of a batch cannot be audited by the transaction hash. *)
Theorem audit_returns_the_first_stored_entry (entries : list LogEntry) (w : W) txHash :
  ChainMakerAudit.scan LogStoreContract.EventTopicLogSubmitted txHash
    (ChainMakerAudit.emitted (LogStoreContract.processEntries entries w).2)
  = match ChainMakerAudit.first_stored entries
            (LogStoreContract.processEntries entries w).1.2 with
    | Some entry =>
        inr (ChainMakerAudit.mkAuditData (le_LogHash entry) (le_SenderOrgID entry)
               (le_Timestamp entry))
    | None =>
        inl ("event '" +++ LogStoreContract.EventTopicLogSubmitted
             +++ "' not found in transaction " +++ txHash)
    end.
Proof.
  revert w. induction entries as [|entry entries IH]; intros w; simpl; [done|].
  pose proof (processEntry_emitted entry w) as He.
  destruct (LogStoreContract.processEntry entry w) as [[w1 info] calls1].
  specialize (IH w1).
  destruct (LogStoreContract.processEntries entries w1) as [[w2 infos] calls2].
  simpl in *. rewrite emitted_app, He.
  destruct (String.eqb (si_Status info) StatusSuccess); simpl; [done|]. exact IH.
Qed.

End AuditFacts.

Section AuditClientFacts.

Context {W : Type} `{!ChainMakerAudit.SDK W}.
Variable cfg : ChainMaker.Config.

Lemma scan_found topic txHash events audit :
  ChainMakerAudit.scan topic txHash events = inr audit <->
  exists pre event post,
    events = pre ++ event :: post
    /\ Forall (fun e => ChainMakerAudit.ev_Topic e <> topic) pre
    /\ ChainMakerAudit.ev_Topic event = topic
    /\ ChainMakerAudit.ev_EventData event
       = [ChainMakerAudit.ad_LogHash audit; ChainMakerAudit.ad_SubmitterOrgID audit;
          ChainMakerAudit.ad_Timestamp audit].
Proof.
  induction events as [|e events IH]; simpl.
  - split; [done|]. intros (pre & ? & ? & Hev & _). by destruct pre.
  - destruct (String.eqb_spec (ChainMakerAudit.ev_Topic e) topic) as [Ht|Ht].
    + split.
      * intros Hs. exists [], e, events. split; [done|]. split; [constructor|].
        split; [done|].
        destruct (ChainMakerAudit.ev_EventData e) as [|h [|org [|ts [|? ?]]]];
          try discriminate.
        by injection Hs as <-.
      * intros (pre & event & post & Hev & Hpre & _ & Hdata).
        destruct pre as [|e' pre].
        -- injection Hev as <- <-. rewrite Hdata. by destruct audit.
        -- injection Hev as <- _. by apply Forall_cons in Hpre as [? _].
    + rewrite IH. split.
      * intros (pre & event & post & -> & Hpre & Htop & Hdata).
        exists (e :: pre), event, post. split; [done|]. split; [by constructor | done].
      * intros (pre & event & post & Hev & Hpre & Htop & Hdata).
        destruct pre as [|e' pre].
        -- injection Hev as <- <-. done.
        -- injection Hev as <- ->. apply Forall_cons in Hpre as [_ Hpre].
           by exists pre, event, post.
Qed.

(** X26: [GetLogByTxHash] returns audit data exactly when the hash is
    not empty, the chain returns a transaction with all its parts and
    the success code, and the first event on the configured submit topic
    has exactly three fields, which are the data returned; an empty hash
    is refused without asking the chain. *)
Theorem audit_needs_a_complete_successful_transaction txHash (w : W) :
  (txHash = EmptyString ->
   ChainMakerAudit.GetLogByTxHash cfg txHash w
   = (w, inl "transaction hash cannot be empty"))
  /\ (forall audit,
        (ChainMakerAudit.GetLogByTxHash cfg txHash w).2 = inr audit
        <-> txHash <> EmptyString
            /\ exists txInfo result pre event post,
                 (ChainMakerAudit.GetTxByTxId txHash w).2 = inr txInfo
                 /\ ChainMakerAudit.complete txInfo = Some (result, pre ++ event :: post)
                 /\ ChainMakerAudit.txr_Code result = 0
                 /\ Forall (fun e => ChainMakerAudit.ev_Topic e
                                     <> ChainMaker.SubmitEventTopic cfg) pre
                 /\ ChainMakerAudit.ev_Topic event = ChainMaker.SubmitEventTopic cfg
                 /\ ChainMakerAudit.ev_EventData event
                    = [ChainMakerAudit.ad_LogHash audit;
                       ChainMakerAudit.ad_SubmitterOrgID audit;
                       ChainMakerAudit.ad_Timestamp audit]).
Proof.
  unfold ChainMakerAudit.GetLogByTxHash. split.
  - intros ->. done.
  - intros audit.
    destruct (GoString.is_empty txHash) eqn:He.
    { apply is_empty_true in He. split; [done | by intros [? _]]. }
    apply is_empty_false in He.
    destruct (ChainMakerAudit.GetTxByTxId txHash w) as [w1 [err|txInfo]]; simpl.
    { split; [done|]. intros (_ & ? & ? & ? & ? & ? & ? & _). discriminate. }
    destruct (ChainMakerAudit.complete txInfo) as [[result events]|] eqn:Hc; simpl.
    2: { split; [done|]. intros (_ & ? & ? & ? & ? & ? & [= <-] & Hc' & _). congruence. }
    destruct (Z.eqb_spec (ChainMakerAudit.txr_Code result) ChainMaker.TxStatusCode_SUCCESS)
      as [Hcode|Hcode]; simpl.
    + rewrite scan_found. split.
      * intros (pre & event & post & -> & Hpre & Htop & Hdata).
        split; [done|]. by exists txInfo, result, pre, event, post.
      * intros (_ & ? & ? & pre & event & post & [= <-] & Hc' & _ & Hpre & Htop & Hdata).
        rewrite Hc in Hc'. injection Hc' as <- ->. by exists pre, event, post.
    + split; [done|].
      intros (_ & ? & ? & ? & ? & ? & [= <-] & Hc' & Hz & _).
      rewrite Hc in Hc'. injection Hc' as <- _. done.
Qed.

End AuditClientFacts.

(** ** Rows that share a log hash *)

Section TwinRuns.

Import Scenario Cases.

(** C5 fails on the code: two claimed rows with one log hash go to the
    ledger in one batch.  The contract stores the first entry
    ([Success]) and skips the second ([SkippedDuplicate]); the worker
    keeps one result for each hash, the last, so it resolves both rows
    from the second result: no completion record is written, both rows
    get a failure record and end [FAILED], and both messages are
    acknowledged positively. *)
Theorem same_hash_rows_are_both_failed :
  (LogStoreContract.processEntries twin_entries (∅ : gmap string string)).1.2
  = twin_results
  /\ calls (trace twin_run)
     = [ EGetAndMarkBatchAsProcessing ["r1"; "r2"] 3 (inr twin_claimed);
         ESubmitLogsBatch twin_entries (inr (mkBatchProof "tx5" 12, twin_results));
         EMarkBatchAsFailed
           [ mkFailureRecord "r1"
               "Contract failed: SkippedDuplicate - Skipped duplicate log hash";
             mkFailureRecord "r2"
               "Contract failed: SkippedDuplicate - Skipped duplicate log hash" ]
           None ]
  /\ acks_of (trace twin_run) = all_acks true 2
  /\ ls_Status <$> Sim.rows (final twin_run) !! "r1" = Some StatusFailed
  /\ ls_Status <$> Sim.rows (final twin_run) !! "r2" = Some StatusFailed.
Proof. vm_compute. repeat split. Qed.

End TwinRuns.

(** ** Runs in concrete worlds, continued *)

Section MoreRuns.

Import Scenario Cases.

Lemma no_request_ids_is_acked_witness :
  (forall m, m ∈ anonymous_batch -> msg_RequestID m = EmptyString)
  /\ outcome anonymous_run = Done tt
  /\ calls (trace anonymous_run) = []
  /\ acks_of (trace anonymous_run) = all_acks true 1.
Proof.
  assert (Hall : forall m, m ∈ anonymous_batch -> msg_RequestID m = EmptyString).
  { intros m Hm. unfold anonymous_batch in Hm. elem_cases Hm. by subst. }
  split; [exact Hall|].
  exact (no_request_ids_is_acked 3 1 anonymous_batch [Sim.plain_ack "m0"]
           (with_rows [row "r1" "h1" StatusReceived 0]) Hall).
Defined.

Lemma claim_error_is_nacked_witness :
  EGetAndMarkBatchAsProcessing ["r1"; "r2"] 3 (inl "connection refused")
    ∈ trace claim_down_run
  /\ outcome claim_down_run = Done tt
  /\ calls (trace claim_down_run)
     = [EGetAndMarkBatchAsProcessing ["r1"; "r2"] 3 (inl "connection refused")]
  /\ acks_of (trace claim_down_run) = all_acks false 2.
Proof.
  assert (Hin : EGetAndMarkBatchAsProcessing ["r1"; "r2"] 3 (inl "connection refused")
                  ∈ trace claim_down_run).
  { vm_compute. constructor. }
  split; [exact Hin|].
  exact (claim_error_is_nacked 3 1 [message "r1" "h1"; message "r2" "h2"]
           [Sim.plain_ack "m0"; Sim.plain_ack "m1"] claim_down
           ["r1"; "r2"] "connection refused" Hin).
Defined.

Lemma ledger_entries_come_from_messages_witness :
  ESubmitLogsBatch [entry "h3"; entry "h1"; entry "h2"]
    (inr (mkBatchProof "tx9" 42, mixed_results)) ∈ trace mixed_run
  /\ exists tasks claimed,
      EGetAndMarkBatchAsProcessing (claimable_ids mixed_batch) 3 (inr tasks)
        ∈ trace mixed_run
      /\ claimed ≡ₚ map_to_list (claimed_processing tasks)
      /\ Forall2 (fun (kv : string * LogStatus) e =>
                    exists msg, last_message mixed_batch kv.1 = Some msg
                                /\ e = entry_of_message msg)
                 claimed [entry "h3"; entry "h1"; entry "h2"]
      /\ (0 < List.length [entry "h3"; entry "h1"; entry "h2"])%nat.
Proof.
  assert (Hin : ESubmitLogsBatch [entry "h3"; entry "h1"; entry "h2"]
                  (inr (mkBatchProof "tx9" 42, mixed_results)) ∈ trace mixed_run).
  { vm_compute. constructor. constructor. }
  split; [exact Hin|].
  exact (ledger_entries_come_from_messages 3 mixed_batch mixed
           [entry "h3"; entry "h1"; entry "h2"]
           (inr (mkBatchProof "tx9" 42, mixed_results)) Hin).
Defined.

Lemma unknown_processing_row_panics_witness :
  (exists why, outcome stray_run = Panic why)
  /\ exists tasks,
      trace stray_run
      = [EGetAndMarkBatchAsProcessing (claimable_ids [message "r1" "h1"]) 3 (inr tasks)].
Proof.
  destruct (@unknown_processing_row_panics Sim.World stray_store Sim.ledger Sim.range 3
              [message "r1" "h1"] Sim.empty) as [Hiff Himp].
  assert (Hp : exists why, outcome stray_run = Panic why).
  { apply Hiff. exists stray_claimed, "r9", (row "r9" "h9" StatusProcessing 1).
    split; [vm_compute; constructor|]. split; [reflexivity|]. split; [reflexivity|].
    intros Hin. cbv [claimable_ids] in Hin. simpl in Hin. elem_cases Hin. discriminate. }
  split; [exact Hp | exact (Himp Hp)].
Defined.

Lemma one_record_per_claimed_row_witness :
  ESubmitLogsBatch [entry "h3"; entry "h1"; entry "h2"]
    (inr (mkBatchProof "tx9" 42, mixed_results)) ∈ trace mixed_run
  /\ exists tasks cs fs r1 r2,
      calls (trace mixed_run)
        = [ EGetAndMarkBatchAsProcessing (claimable_ids mixed_batch) 3 (inr tasks);
            ESubmitLogsBatch [entry "h3"; entry "h1"; entry "h2"]
              (inr (mkBatchProof "tx9" 42, mixed_results)) ]
          ++ mark_calls cs r1 fs r2
      /\ List.map cr_RequestID cs ++ List.map fr_RequestID fs
         ≡ₚ (map_to_list (claimed_processing tasks)).*1
      /\ NoDup (List.map cr_RequestID cs ++ List.map fr_RequestID fs).
Proof.
  assert (Hin : ESubmitLogsBatch [entry "h3"; entry "h1"; entry "h2"]
                  (inr (mkBatchProof "tx9" 42, mixed_results)) ∈ trace mixed_run).
  { vm_compute. constructor. constructor. }
  split; [exact Hin|].
  exact (one_record_per_claimed_row 3 mixed_batch mixed
           [entry "h3"; entry "h1"; entry "h2"] (mkBatchProof "tx9" 42) mixed_results Hin).
Defined.

Lemma mirrored_results_are_found_witness :
  ESubmitLogsBatch pair_entries (inr (mkBatchProof "tx5" 11, pair_results))
    ∈ trace pair_run
  /\ EGetAndMarkBatchAsProcessing (claimable_ids pair_batch) 3 (inr pair_claimed)
       ∈ trace pair_run
  /\ List.map si_LogHash pair_results = List.map le_LogHash pair_entries
  /\ (forall id r msg,
        claimed_processing pair_claimed !! id = Some r ->
        last_message pair_batch id = Some msg ->
        msg_LogHash msg = ls_LogHash r)
  /\ claimed_processing pair_claimed !! "r1" = Some (row "r1" "h1" StatusProcessing 1)
  /\ exists info,
      Worker.resultsMap pair_results !! "h1" = Some info
      /\ info ∈ pair_results /\ si_LogHash info = "h1".
Proof.
  assert (Hsub : ESubmitLogsBatch pair_entries (inr (mkBatchProof "tx5" 11, pair_results))
                   ∈ trace pair_run).
  { vm_compute. constructor. constructor. }
  assert (Hget : EGetAndMarkBatchAsProcessing (claimable_ids pair_batch) 3
                   (inr pair_claimed) ∈ trace pair_run).
  { vm_compute. constructor. }
  assert (Hmirror : List.map si_LogHash pair_results = List.map le_LogHash pair_entries).
  { reflexivity. }
  assert (Hhash : forall id r msg,
            claimed_processing pair_claimed !! id = Some r ->
            last_message pair_batch id = Some msg ->
            msg_LogHash msg = ls_LogHash r).
  { intros id r msg Hl Hm. unfold claimed_processing in Hl.
    apply map_lookup_filter_Some in Hl as [Hl _]. unfold pair_claimed in Hl.
    apply lookup_insert_Some in Hl as [[<- <-]|[_ Hl]].
    - vm_compute in Hm. by injection Hm as <-.
    - apply lookup_singleton_Some in Hl as [<- <-].
      vm_compute in Hm. by injection Hm as <-. }
  assert (Hrow : claimed_processing pair_claimed !! "r1"
                 = Some (row "r1" "h1" StatusProcessing 1)).
  { vm_compute. reflexivity. }
  split; [exact Hsub|]. split; [exact Hget|]. split; [exact Hmirror|].
  split; [exact Hhash|]. split; [exact Hrow|].
  exact (mirrored_results_are_found 3 pair_batch pair pair_entries
           (mkBatchProof "tx5" 11) pair_results pair_claimed Hsub Hget Hmirror Hhash
           "r1" (row "r1" "h1" StatusProcessing 1) Hrow).
Defined.

Lemma pending_batch_invariant_witness :
  outcome loop_run = Done (Some loop_pending)
  /\ List.length (WorkerLoop.kafkaAcks loop_pending)
     = List.length (WorkerLoop.batchMessages loop_pending)
  /\ Z.of_nat (List.length (WorkerLoop.batchMessages loop_pending))
     < WorkerLoop.New_BatchSize 2
  /\ (WorkerLoop.timerRunning loop_pending = true
      <-> WorkerLoop.batchMessages loop_pending <> []).
Proof.
  assert (Ho : outcome loop_run = Done (Some loop_pending)).
  { vm_compute. reflexivity. }
  split; [exact Ho|].
  exact (pending_batch_invariant 3 1 2
           (@KafkaConsumer.Consume Sim.World Sim.reader wire_lib)
           [ WorkerLoop.Default (mkContext None); WorkerLoop.Default (mkContext None);
             WorkerLoop.Default (mkContext None) ]
           loop_world loop_pending Ho).
Defined.

Lemma ctx_done_nacks_pending_witness :
  WorkerLoop.kafkaAcks two_pending
  = List.map Some [Sim.plain_ack "m0"; Sim.plain_ack "m1"]
  /\ outcome (WorkerLoop.step 3 1 2 (@KafkaConsumer.Consume Sim.World Sim.reader wire_lib)
                WorkerLoop.CtxDone two_pending Sim.empty) = Done None
  /\ calls (trace (WorkerLoop.step 3 1 2
                     (@KafkaConsumer.Consume Sim.World Sim.reader wire_lib)
                     WorkerLoop.CtxDone two_pending Sim.empty)) = []
  /\ acks_of (trace (WorkerLoop.step 3 1 2
                       (@KafkaConsumer.Consume Sim.World Sim.reader wire_lib)
                       WorkerLoop.CtxDone two_pending Sim.empty))
     = all_acks false 2.
Proof.
  split; [reflexivity|].
  exact (ctx_done_nacks_pending 3 1 2
           (@KafkaConsumer.Consume Sim.World Sim.reader wire_lib)
           two_pending [Sim.plain_ack "m0"; Sim.plain_ack "m1"] Sim.empty eq_refl).
Defined.

Lemma consumed_messages_are_acknowledged_once_witness :
  outcome loop_stopped_run = Done None
  /\ @deliveries wire_lib (trace loop_stopped_run)
     = (List.length (acks_of (trace loop_stopped_run))
        + pending_count (W := Sim.World) None)%nat.
Proof.
  assert (Ho : outcome loop_stopped_run = Done None).
  { vm_compute. reflexivity. }
  split; [exact Ho|].
  exact (@consumed_messages_are_acknowledged_once Sim.World Sim.store Sim.ledger
           Sim.range Sim.reader wire_lib 3 1 2
           [ WorkerLoop.Default (mkContext None); WorkerLoop.Default (mkContext None);
             WorkerLoop.Default (mkContext None); WorkerLoop.CtxDone ]
           loop_world None Ho).
Defined.

Lemma batcher_keeps_submission_order_witness :
  drops (trace batcher_run) = 0%nat
  /\ exists bp',
      outcome batcher_run = Done bp'
      /\ insert_attempts (trace batcher_run) ++ request_ids (BatchProcessor.held bp')
         = request_ids (BatchProcessor.held (BatchProcessor.mk 2 [] [] 1))
           ++ BatcherRun.submitted batcher_ops.
Proof.
  assert (Hd : drops (trace batcher_run) = 0%nat).
  { vm_compute. reflexivity. }
  split; [exact Hd|].
  exact (@batcher_keeps_submission_order Sim.World Sim.store
           (@KafkaProducer.producer Sim.World Sim.writer json_lib "log_submissions")
           Sim.clock_inst batcher_ops (BatchProcessor.mk 2 [] [] 1) Sim.empty Hd).
Defined.

Lemma accepted_request_is_handed_over_witness :
  EGoSubmitLog hello_handed_over nil_uuid ∈ trace hello_http_run
  /\ exists payload t,
      @json_Decode_ReqPayload http_lib (rq_Body hello_request) = inr payload
      /\ in_LogContent hello_handed_over = rp_LogContent payload
      /\ in_ClientLogHash hello_handed_over = Sha256.hex_sum (rp_LogContent payload)
      /\ in_ClientSourceOrgID hello_handed_over
         = (if GoString.is_empty (rq_XClientOrgID hello_request)
            then rp_ClientSourceOrgID payload else rq_XClientOrgID hello_request)
      /\ LogHandler.responses (trace hello_http_run)
         = [(202, [ ("request_id", JStr nil_uuid);
                    ("server_log_hash", JStr (in_ClientLogHash hello_handed_over));
                    ("server_received_timestamp", JStr (GoTime.FormatRFC3339Nano t));
                    ("status", JStr "ACCEPTED") ])].
Proof.
  assert (Hin : EGoSubmitLog hello_handed_over nil_uuid ∈ trace hello_http_run).
  { vm_compute. repeat constructor. }
  split; [exact Hin|].
  exact (@accepted_request_is_handed_over Sim.World Sim.clock_inst Sim.uuid_inst http_lib
           hello_request Sim.empty hello_handed_over nil_uuid Hin).
Defined.

Lemma accepted_entry_is_published_with_its_hash_witness :
  EGoSubmitLog hello_handed_over nil_uuid ∈ trace hello_service_run
  /\ mkBatchEntry hello_handed_over nil_uuid ∈ [mkBatchEntry hello_handed_over nil_uuid]
  /\ EPublishBatch [hello_published] None ∈ trace hello_flush_run
  /\ (exists m,
        m ∈ [hello_published]
        /\ msg_RequestID m = nil_uuid
        /\ msg_LogContent m = in_LogContent hello_input
        /\ msg_LogHash m = Sha256.hex_sum (in_LogContent hello_input)
        /\ msg_SourceOrgID m = in_ClientSourceOrgID hello_input)
  /\ (exists rows r,
        EInsertLogStatusBatch rows None ∈ trace hello_flush_run
        /\ r ∈ rows
        /\ ls_RequestID r = nil_uuid
        /\ ls_LogHash r = Sha256.hex_sum (in_LogContent hello_input)
        /\ ls_SourceOrgID r = in_ClientSourceOrgID hello_input
        /\ ls_Status r = StatusReceived).
Proof.
  assert (Hgo : EGoSubmitLog hello_handed_over nil_uuid ∈ trace hello_service_run).
  { vm_compute. repeat constructor. }
  assert (Hentry : mkBatchEntry hello_handed_over nil_uuid
                     ∈ [mkBatchEntry hello_handed_over nil_uuid]).
  { constructor. }
  assert (Hpub : EPublishBatch [hello_published] None ∈ trace hello_flush_run).
  { vm_compute. repeat constructor. }
  split; [exact Hgo|]. split; [exact Hentry|]. split; [exact Hpub|].
  exact (@accepted_entry_is_published_with_its_hash Sim.World Sim.store
           (@KafkaProducer.producer Sim.World Sim.writer json_lib "log_submissions")
           Sim.clock_inst Sim.uuid_inst hello_input Sim.empty hello_handed_over nil_uuid
           [mkBatchEntry hello_handed_over nil_uuid] Sim.empty [hello_published] None
           Hgo Hentry Hpub).
Defined.

Lemma offsets_are_committed_by_positive_acks_only_witness :
  outcome good_run
  = Done (Some (message "r1" "h1"),
          Some (KafkaConsumer.ackCallback (on_wire "r1" "h1" 40) (message "r1" "h1")),
          None)
  /\ exists km f,
      Some (KafkaConsumer.ackCallback (on_wire "r1" "h1" 40) (message "r1" "h1")) = Some f
      /\ @None error = None
      /\ trace good_run = [EFetchMessage (inr km)]
      /\ @json_Unmarshal_LogMessage wire_lib (km_Value km) = inr (message "r1" "h1")
      /\ (forall w', (f false w').1 = w'
                     /\ forall km' res, ACommitMessages km' res ∉ (f false w').2)
      /\ (forall w', (f true w').1 = (CommitMessages km w').1
                     /\ ACommitMessages km (CommitMessages km w').2 ∈ (f true w').2
                     /\ forall km' res,
                          ACommitMessages km' res ∈ (f true w').2 -> km' = km).
Proof.
  assert (Ho : outcome good_run
               = Done (Some (message "r1" "h1"),
                       Some (KafkaConsumer.ackCallback (on_wire "r1" "h1" 40)
                               (message "r1" "h1")),
                       None)).
  { vm_compute. reflexivity. }
  split; [exact Ho|].
  exact (@offsets_are_committed_by_positive_acks_only Sim.World Sim.reader wire_lib
           (mkContext None) good_inbox (message "r1" "h1") _ None Ho).
Defined.

Lemma loaded_engine_configuration_witness :
  (Config.LoadEngineConfig "engine.yml" (inr "worker: {concurrency: 4}")
     (fun _ => inr engine_file)).1 = inr engine_loaded
  /\ 1 <= Config.ec_MaxTaskRetries engine_loaded
  /\ 1 <= Config.wc_BatchSize (Config.ec_Worker engine_loaded)
  /\ WorkerLoop.New_BatchSize (Config.wc_BatchSize (Config.ec_Worker engine_loaded))
     = Config.wc_BatchSize (Config.ec_Worker engine_loaded)
  /\ 1 <= Config.kc_Count (Config.ec_KafkaConsumer engine_loaded)
  /\ Config.db_DSN (Config.ec_Database engine_loaded) <> EmptyString
  /\ 1 <= Config.db_MinConnections (Config.ec_Database engine_loaded)
     <= Config.db_MaxConnections (Config.ec_Database engine_loaded).
Proof.
  assert (Hload : (Config.LoadEngineConfig "engine.yml" (inr "worker: {concurrency: 4}")
                     (fun _ => inr engine_file)).1 = inr engine_loaded).
  { vm_compute. reflexivity. }
  split; [exact Hload|].
  exact (loaded_engine_configuration "engine.yml" (inr "worker: {concurrency: 4}")
           (fun _ => inr engine_file) engine_loaded Hload).
Defined.

Lemma loaded_gateway_configuration_witness :
  (Config.LoadApiGatewayConfig "gateway.yml" (inr "batch_processor: {batch_size: -1}")
     (fun _ => inr gateway_file)).1 = inr gateway_loaded
  /\ (Config.ag_HttpListenAddr gateway_loaded <> EmptyString
      \/ Config.ag_GrpcListenAddr gateway_loaded <> EmptyString)
  /\ Config.bc_BatchSize (Config.ag_BatchProcessor gateway_loaded) <> 0
  /\ Config.bc_FlushChannelBuffer (Config.ag_BatchProcessor gateway_loaded) <> 0
  /\ (Config.bc_BatchSize (Config.ag_BatchProcessor gateway_loaded) < 0
      \/ Config.bc_FlushChannelBuffer (Config.ag_BatchProcessor gateway_loaded) < 0 ->
      exists why,
        BatcherRun.NewBatchProcessor
          (Config.bc_BatchSize (Config.ag_BatchProcessor gateway_loaded))
          (Config.bc_FlushChannelBuffer (Config.ag_BatchProcessor gateway_loaded))
        = Panic why)
  /\ (forall bp,
         BatcherRun.NewBatchProcessor
           (Config.bc_BatchSize (Config.ag_BatchProcessor gateway_loaded))
           (Config.bc_FlushChannelBuffer (Config.ag_BatchProcessor gateway_loaded))
         = Done bp ->
         BatchProcessor.buffer bp = [] /\ BatchProcessor.flushChan bp = []
         /\ BatchProcessor.batchSize bp
            = Config.bc_BatchSize (Config.ag_BatchProcessor gateway_loaded)
         /\ Z.of_nat (BatchProcessor.flushCap bp)
            = Config.bc_FlushChannelBuffer (Config.ag_BatchProcessor gateway_loaded)
         /\ 1 <= BatchProcessor.batchSize bp /\ (1 <= BatchProcessor.flushCap bp)%nat).
Proof.
  assert (Hload : (Config.LoadApiGatewayConfig "gateway.yml"
                     (inr "batch_processor: {batch_size: -1}")
                     (fun _ => inr gateway_file)).1 = inr gateway_loaded).
  { vm_compute. reflexivity. }
  split; [exact Hload|].
  exact (@loaded_gateway_configuration machine "gateway.yml"
           (inr "batch_processor: {batch_size: -1}")
           (fun _ => inr gateway_file) gateway_loaded Hload).
Defined.

(** The loaded negative batch size makes [NewBatchProcessor] panic; a
    file that leaves the sizes out loads the defaults, with which it
    starts empty. *)
Example negative_batch_size_panics :
  BatcherRun.NewBatchProcessor
    (Config.bc_BatchSize (Config.ag_BatchProcessor gateway_loaded))
    (Config.bc_FlushChannelBuffer (Config.ag_BatchProcessor gateway_loaded))
  = Panic "makeslice: cap out of range".
Proof. vm_compute. reflexivity. Qed.

Example default_sizes_start_empty :
  exists cfg,
    (Config.LoadApiGatewayConfig "gateway.yml" (inr "http_listen_addr: :8080")
       (fun _ => inr plain_gateway_file)).1 = inr cfg
    /\ BatcherRun.NewBatchProcessor
         (Config.bc_BatchSize (Config.ag_BatchProcessor cfg))
         (Config.bc_FlushChannelBuffer (Config.ag_BatchProcessor cfg))
       = Done (BatchProcessor.mk 100 [] [] 100).
Proof. eexists. split; vm_compute; reflexivity. Qed.

(** At shutdown with two batches waiting: when the worker receives one
    of them before it takes the done case, the other is left on the
    channel and its entries never reach the state store. *)
Example one_batch_left_at_shutdown :
  insert_attempts (trace (shutdown_run 1)) = ["id-1"; "id-2"; "id-5"]
  /\ exists bp',
      outcome (shutdown_run 1) = Done bp'
      /\ BatchProcessor.buffer bp' = []
      /\ BatchProcessor.flushChan bp' = [[accepted "id-3" "c"; accepted "id-4" "d"]].
Proof.
  split; [vm_compute; reflexivity|].
  eexists. split; [vm_compute; reflexivity|]. split; reflexivity.
Qed.

End MoreRuns.
